(** * KlipperLogAnalyser: the log parser and its reports

    A shallow embedding of [klipper_log_analyzer.py] (class
    [KlipperLogAnalyzer]) and the properties of its line recognisers, of the
    record builder and of the two reports.

    Modelling conventions.
    - Text is a [string] of 8-bit characters: the bytes of the UTF-8 form of
      the text of the log.  The character classes of the regular expressions
      are the ASCII ones: [\w] is [[A-Za-z0-9_]], [\d] is [[0-9]].  Matching
      without case ([re.IGNORECASE]) folds [A-Z] to [a-z] and takes for [i],
      [s] and [k] also the letters outside ASCII that have them as a case
      mapping (U+0130, U+0131, U+017F, U+212A).
    - [int(text)] is the number of a run of digits, and fails ([None],
      Python's [ValueError]) on more than 4300 digits, the default limit of
      the interpreter.
    - A Python [float] is a binary64 number, modelled by the primitive
      [float]; [float(text)] is the correctly rounded conversion [py_float],
      which fails ([None], Python's [ValueError]) on text that is no number.
    - A Python [dict] is an insertion-ordered association list ([PyDict]).
    - An exception that leaves a method is a [Raise] result.
    - A log is the list of its lines, as the iteration over the file gives
      them.
    - Of pandas the reports use the columns of the table of snapshots and
      their [min], [max], [mean] and [std], which skip the missing values.
      [min] and [max] are folds of comparisons; [mean] and [std] are
      parameters of the reports.  The numbers of a column are numpy's: a
      division by zero gives an infinity, not an exception. *)

From Stdlib Require Import Bool Ascii String DecimalString List Sorted ZArith NArith Lia.
From Stdlib Require Import PrimFloat SpecFloat FloatOps.
Import ListNotations.

Local Open Scope string_scope.
Local Open Scope Z_scope.

(** ** Exceptions *)

Inductive exn : Type :=
| ValueError   (* float() or int() of text that they refuse *)
| TypeError.   (* an aggregate or a format applied to a text value *)

Inductive result (A : Type) : Type :=
| Ok (a : A)
| Raise (e : exn).
Arguments Ok {A} a.
Arguments Raise {A} e.

Definition bind {A B : Type} (r : result A) (k : A -> result B) : result B :=
  match r with
  | Ok a => k a
  | Raise e => Raise e
  end.

Notation "x <- c1 ;; c2" := (bind c1 (fun x => c2))
  (at level 61, c1 at next level, right associativity).

(** ** Characters and strings *)

Definition code (c : ascii) : N := N_of_ascii c.

Definition in_range (lo hi : N) (c : ascii) : bool :=
  (N.leb lo (code c) && N.leb (code c) hi)%bool.

Definition is_digit (c : ascii) : bool := in_range 48 57 c.
Definition is_upper (c : ascii) : bool := in_range 65 90 c.
Definition is_lower (c : ascii) : bool := in_range 97 122 c.

(** [\w] *)
Definition is_word (c : ascii) : bool :=
  (is_digit c || is_upper c || is_lower c || Ascii.eqb c "_")%bool.

(** [[0-9.-]] *)
Definition is_numch (c : ascii) : bool :=
  (is_digit c || Ascii.eqb c "." || Ascii.eqb c "-")%bool.

(** [.] without [re.DOTALL]: any character but the line feed. *)
Definition is_dot (c : ascii) : bool := negb (Ascii.eqb c "010").

(** [str.isspace] on ASCII: tab, line feed, VT, FF, CR, FS, GS, RS, US, space. *)
Definition is_space (c : ascii) : bool :=
  (in_range 9 13 c || in_range 28 32 c)%bool.

Definition lower_char (c : ascii) : ascii :=
  if is_upper c then ascii_of_N (code c + 32) else c.

Fixpoint lower (s : string) : string :=
  match s with
  | EmptyString => EmptyString
  | String c r => String (lower_char c) (lower r)
  end.

Fixpoint rev_string (acc s : string) : string :=
  match s with
  | EmptyString => acc
  | String c r => rev_string (String c acc) r
  end.

Fixpoint lstrip (s : string) : string :=
  match s with
  | EmptyString => EmptyString
  | String c r => if is_space c then lstrip r else s
  end.

(** [str.strip()] *)
Definition strip (s : string) : string :=
  rev_string "" (lstrip (rev_string "" (lstrip s))).

(** A literal at the start of [s]; the rest of [s] when it is there. *)
Fixpoint lit (l s : string) : option string :=
  match l with
  | EmptyString => Some s
  | String c l' =>
      match s with
      | EmptyString => None
      | String d s' => if Ascii.eqb c d then lit l' s' else None
      end
  end.

(** ** Python's [int(text)] and [float(text)] *)

Definition digit_val (c : ascii) : Z := Z.of_N (code c) - 48.

Fixpoint digits_val (acc : Z) (s : string) : Z :=
  match s with
  | EmptyString => acc
  | String c r => digits_val (10 * acc + digit_val c) r
  end.

(** The default of [sys.get_int_max_str_digits()]. *)
Definition max_str_digits : nat := 4300.

(** [int(text)] on a run of [\d+]; [None] is the [ValueError] of a text of
    more than [max_str_digits] digits, leading zeros counted. *)
Definition py_int (s : string) : option Z :=
  if (max_str_digits <? String.length s)%nat then None
  else Some (digits_val 0 s).

(** A [digitpart] of the float grammar: digits, single underscores allowed
    between two digits.  Returns the digits read and the rest. *)
Fixpoint digitpart_more (s : string) : string * string :=
  match s with
  | String c r =>
      if is_digit c then let '(a, b) := digitpart_more r in (String c a, b)
      else if Ascii.eqb c "_" then
        match r with
        | String d r' =>
            if is_digit d then let '(a, b) := digitpart_more r' in (String d a, b)
            else (EmptyString, s)
        | EmptyString => (EmptyString, s)
        end
      else (EmptyString, s)
  | EmptyString => (EmptyString, EmptyString)
  end.

Definition digitpart (s : string) : string * string :=
  match s with
  | String c r =>
      if is_digit c then let '(a, b) := digitpart_more r in (String c a, b)
      else (EmptyString, s)
  | EmptyString => (EmptyString, EmptyString)
  end.

(** The sign of a number or of an exponent. *)
Definition sign_of (s : string) : bool * string :=
  match s with
  | String "-" r => (true, r)
  | String "+" r => (false, r)
  | _ => (false, s)
  end.

(** The binary64 number nearest to [(-1)^neg * m * 10^e], ties to even. *)
Definition dec_to_float (neg : bool) (m e : Z) : float :=
  SF2Prim
    match m with
    | Zpos _ =>
        if 0 <=? e then binary_normalize prec emax (cond_Zopp neg (m * 10 ^ e)) 0 neg
        else
          let '(q, e', l) := SFdiv_core_binary prec emax m 0 (10 ^ (- e)) 0 in
          binary_round_aux prec emax neg q e' l
    | _ => S754_zero neg
    end.

(** The exponent part, [e], a sign and a [digitpart], when it is there. *)
Definition exponent (s : string) : option (Z * string) :=
  match s with
  | String c r =>
      if Ascii.eqb (lower_char c) "e" then
        let '(neg, r1) := sign_of r in
        match digitpart r1 with
        | (EmptyString, _) => None
        | (ds, r2) => Some (cond_Zopp neg (digits_val 0 ds), r2)
        end
      else Some (0, s)
  | EmptyString => Some (0, s)
  end.

(** The decimal form: [digitpart [. [digitpart]]] or [. digitpart], then an
    optional exponent, then the end of the text. *)
Definition decimal (neg : bool) (s : string) : option float :=
  let '(ip, r1) := digitpart s in
  let '(fp, r2) :=
    match r1 with
    | String "." r => digitpart r
    | _ => (EmptyString, r1)
    end in
  match ip, fp with
  | EmptyString, EmptyString => None
  | _, _ =>
      match exponent r2 with
      | Some (ex, EmptyString) =>
          Some (dec_to_float neg (digits_val 0 (ip ++ fp)) (ex - Z.of_nat (String.length fp)))
      | _ => None
      end
  end.

(** [float(text)]; [None] is the [ValueError]. *)
Definition py_float (text : string) : option float :=
  let '(neg, r) := sign_of (strip text) in
  let w := lower r in
  if (String.eqb w "inf" || String.eqb w "infinity")%bool
  then Some (if neg then neg_infinity else infinity)
  else if String.eqb w "nan" then Some nan
  else decimal neg r.

(** [float(len(...))] and the like: an integer as a binary64 number. *)
Definition float_of_Z (z : Z) : float :=
  SF2Prim (binary_normalize prec emax z 0 false).

(** ** Python dictionaries

    Keys are kept in insertion order; assigning to a key that is present
    replaces its value in place. *)

Module PyDict.
Section Dict.
Context {V : Type}.

Definition t := list (string * V).

Definition empty : t := [].

Fixpoint get (k : string) (d : t) : option V :=
  match d with
  | [] => None
  | (k', v) :: r => if String.eqb k k' then Some v else get k r
  end.

Fixpoint set (k : string) (v : V) (d : t) : t :=
  match d with
  | [] => [(k, v)]
  | (k', v') :: r =>
      if String.eqb k k' then (k, v) :: r else (k', v') :: set k v r
  end.

(** [k in d] *)
Definition mem (k : string) (d : t) : bool :=
  match get k d with Some _ => true | None => false end.

Definition keys (d : t) : list string := map fst d.
End Dict.
Arguments t : clear implicits.
End PyDict.

(** ** Regular expressions

    Python's [re] is a backtracking matcher.  Each pattern of the source is
    written with the combinators below, in continuation-passing style: a
    combinator tries its ways to match in the order of the engine (a greedy
    quantifier the longest first, a lazy one the shortest first) and hands
    the text it took and the rest to the continuation; the first way whose
    continuation succeeds is the match. *)

Section Regex.
Context {A : Type}.

(** [[class]*] *)
Fixpoint star_greedy (p : ascii -> bool) (s : string)
         (k : string -> string -> option A) : option A :=
  match s with
  | String c r =>
      if p c then
        match star_greedy p r (fun cap rest => k (String c cap) rest) with
        | Some a => Some a
        | None => k EmptyString s
        end
      else k EmptyString s
  | EmptyString => k EmptyString s
  end.

(** [[class]+] *)
Definition plus_greedy (p : ascii -> bool) (s : string)
           (k : string -> string -> option A) : option A :=
  match s with
  | String c r =>
      if p c then star_greedy p r (fun cap rest => k (String c cap) rest)
      else None
  | EmptyString => None
  end.

(** [[class]*?] *)
Fixpoint star_lazy (p : ascii -> bool) (s : string)
         (k : string -> string -> option A) : option A :=
  match k EmptyString s with
  | Some a => Some a
  | None =>
      match s with
      | String c r =>
          if p c then star_lazy p r (fun cap rest => k (String c cap) rest)
          else None
      | EmptyString => None
      end
  end.

(** [c?] *)
Definition opt_greedy (c : ascii) (s : string)
           (k : string -> string -> option A) : option A :=
  match s with
  | String d r =>
      if Ascii.eqb c d then
        match k (String c EmptyString) r with
        | Some a => Some a
        | None => k EmptyString s
        end
      else k EmptyString s
  | EmptyString => k EmptyString s
  end.

(** A literal, then the continuation on the rest. *)
Definition then_lit (l s : string) (k : string -> option A) : option A :=
  match lit l s with
  | Some r => k r
  | None => None
  end.

(** [re.findall]: the matches of [m], which returns the groups and the
    text after the match, at the successive positions of the text, left to
    right and without overlap.  [skip] counts the characters of the last
    match that are still to pass.  No pattern of the source matches the
    empty text, so there is nothing to find at the end of the text. *)
Fixpoint findall_from (m : string -> option (A * string)) (skip : nat)
         (s : string) : list A :=
  match s with
  | EmptyString => []
  | String _ r =>
      match skip with
      | S n => findall_from m n r
      | O =>
          match m s with
          | Some (a, rest) =>
              a :: findall_from m (String.length s - String.length rest - 1) r
          | None => findall_from m 0 r
          end
      end
  end.

Definition findall (m : string -> option (A * string)) (s : string) : list A :=
  findall_from m 0 s.
End Regex.

(** [$]: the end of the text, or the line feed that ends it. *)
Definition at_end (s : string) : bool :=
  (String.eqb s "" || String.eqb s (String "010" ""))%bool.

(** The letters outside ASCII that [re.IGNORECASE] takes for a letter of
    ASCII, as the bytes that the text has for them: U+0130 and U+0131 for
    [i], U+017F for [s], U+212A for [k]. *)
Definition extra_cases (c : ascii) : list string :=
  if Ascii.eqb c "i" then
    [String "196" (String "176" ""); String "196" (String "177" "")]
  else if Ascii.eqb c "s" then [String "197" (String "191" "")]
  else if Ascii.eqb c "k" then [String "226" (String "132" (String "170" ""))]
  else [].

(** The first of the literals [ls] that starts [s]. *)
Fixpoint first_lit (ls : list string) (s : string) : option string :=
  match ls with
  | [] => None
  | l :: rest =>
      match lit l s with
      | Some r => Some r
      | None => first_lit rest s
      end
  end.

(** One character of a pattern at the start of [s], compared without case
    ([re.IGNORECASE]); the rest of [s] when it is there. *)
Definition ci_char (c : ascii) (s : string) : option string :=
  match s with
  | EmptyString => None
  | String d s' =>
      if Ascii.eqb (lower_char c) (lower_char d) then Some s'
      else first_lit (extra_cases (lower_char c)) s
  end.

(** A literal of ASCII characters at the start of [s], compared without
    case. *)
Fixpoint lit_ci (l s : string) : bool :=
  match l with
  | EmptyString => true
  | String c l' =>
      match ci_char c s with
      | Some s' => lit_ci l' s'
      | None => false
      end
  end.

(** [re.search(pattern, line, re.IGNORECASE)] for a pattern that is a plain
    word: the word occurs somewhere in the line. *)
Fixpoint re_search_ci (pattern line : string) : bool :=
  (lit_ci pattern line ||
   match line with
   | EmptyString => false
   | String _ r => re_search_ci pattern r
   end)%bool.

(** *** The patterns of the source *)

(** The pattern [Loaded MCU '(\w+)' (\d+) commands \((.*?)\)], with [re.match]. *)
Definition mcu_load_pattern (line : string) : option (string * string * string) :=
  then_lit "Loaded MCU '" line (fun r =>
  plus_greedy is_word r (fun mcu_name r =>
  then_lit "' " r (fun r =>
  plus_greedy is_digit r (fun commands r =>
  then_lit " commands (" r (fun r =>
  star_lazy is_dot r (fun version_info r =>
  then_lit ")" r (fun _ =>
  Some (mcu_name, commands, version_info)))))))).

(** The pattern [MCU '(\w+)' config: ] and a last group [.*] for the rest of
    the line, with [re.match]. *)
Definition mcu_config_pattern (line : string) : option (string * string) :=
  then_lit "MCU '" line (fun r =>
  plus_greedy is_word r (fun mcu_name r =>
  then_lit "' config: " r (fun r =>
  star_greedy is_dot r (fun config_data _ =>
  Some (mcu_name, config_data))))).

(** The pattern [Configured MCU '(\w+)' \((\d+) moves\)], with [re.match]. *)
Definition mcu_configured_pattern (line : string) : option (string * string) :=
  then_lit "Configured MCU '" line (fun r =>
  plus_greedy is_word r (fun mcu_name r =>
  then_lit "' (" r (fun r =>
  plus_greedy is_digit r (fun moves r =>
  then_lit " moves)" r (fun _ =>
  Some (mcu_name, moves)))))).

(** The pattern made of [Stats ], a group [\d+\.?\d*] for the timestamp,
    [: ] and a last group [.*] for the rest of the line, with [re.match]. *)
Definition stats_pattern (line : string) : option (string * string) :=
  then_lit "Stats " line (fun r =>
  plus_greedy is_digit r (fun d1 r =>
  opt_greedy "." r (fun dot r =>
  star_greedy is_digit r (fun d2 r =>
  then_lit ": " r (fun r =>
  star_greedy is_dot r (fun stats_content _ =>
  Some (d1 ++ dot ++ d2, stats_content))))))).

(** The value of a pair, [([0-9.-]+|active|inactive|\w+)]: the alternatives
    in their order; the pattern ends here, so the first that matches is
    taken, a run at its longest. *)
Definition kv_value (s : string) : option (string * string) :=
  match plus_greedy is_numch s (fun v r => Some (v, r)) with
  | Some m => Some m
  | None =>
      match lit "active" s with
      | Some r => Some ("active", r)
      | None =>
          match lit "inactive" s with
          | Some r => Some ("inactive", r)
          | None => plus_greedy is_word s (fun v r => Some (v, r))
          end
      end
  end.

(** [(\w+)=([0-9.-]+|active|inactive|\w+)] at the start of [s]. *)
Definition kv_pattern (s : string) : option (string * string * string) :=
  plus_greedy is_word s (fun key r =>
  then_lit "=" r (fun r =>
  match kv_value r with
  | Some (value, rest) => Some (key, value, rest)
  | None => None
  end)).

(** [(\w+): temp=([0-9.-]+)] at the start of [s]. *)
Definition temp_pattern (s : string) : option (string * string * string) :=
  plus_greedy is_word s (fun sensor r =>
  then_lit ": temp=" r (fun r =>
  plus_greedy is_numch r (fun temp rest =>
  Some (sensor, temp, rest)))).

(** [(\w+): target=([0-9.-]+)] at the start of [s]. *)
Definition target_pattern (s : string) : option (string * string * string) :=
  plus_greedy is_word s (fun sensor r =>
  then_lit ": target=" r (fun r =>
  plus_greedy is_numch r (fun target rest =>
  Some (sensor, target, rest)))).

(** The pattern [(\w+): .*?pwm=([0-9.-]+)] at the start of [s]. *)
Definition pwm_pattern (s : string) : option (string * string * string) :=
  plus_greedy is_word s (fun sensor r =>
  then_lit ": " r (fun r =>
  star_lazy is_dot r (fun _ r =>
  then_lit "pwm=" r (fun r =>
  plus_greedy is_numch r (fun pwm rest =>
  Some (sensor, pwm, rest)))))).

(** [^\[([^\]]+)\]$], with [re.match]. *)
Definition config_section_pattern (line : string) : option string :=
  then_lit "[" line (fun r =>
  plus_greedy (fun c => negb (Ascii.eqb c "]")) r (fun section_name r =>
  then_lit "]" r (fun r =>
  if at_end r then Some section_name else None))).

(** [re.findall] gives the groups only. *)
Definition findall_groups (m : string -> option (string * string * string))
           (s : string) : list (string * string) :=
  findall (fun t => match m t with
                    | Some (a, b, rest) => Some ((a, b), rest)
                    | None => None
                    end) s.

(** ** The data model *)

(** A value of a statistics snapshot. *)
Inductive value : Type :=
| VFloat (f : float)
| VInt (z : Z)
| VStr (s : string).

(** A descriptor of [mcu_configs]: the keys [commands], [version_info] and
    [line_number] are set when the MCU is loaded, [config] and [moves] are
    added later. *)
Record mcu_info : Type := {
  commands : Z;
  version_info : string;
  mcu_line_number : nat;
  config : option string;
  moves : option Z
}.

Record error_entry : Type := {
  err_line_number : nat;
  err_type : string;
  err_message : string
}.

Record config_section : Type := {
  sec_line_number : nat;
  sec_content : list string
}.

Record timeline_entry : Type := {
  tl_line : nat;
  tl_type : string;
  tl_mcu : string;
  tl_message : string
}.

(** The fields of a [KlipperLogAnalyzer]. *)
Record analyzer : Type := {
  stats_data : list (PyDict.t value);
  mcu_configs : PyDict.t mcu_info;
  errors : list error_entry;
  config_sections : PyDict.t config_section;
  timeline : list timeline_entry;
  performance_metrics : PyDict.t (list value)
}.

(** [__init__] *)
Definition init : analyzer := {|
  stats_data := [];
  mcu_configs := PyDict.empty;
  errors := [];
  config_sections := PyDict.empty;
  timeline := [];
  performance_metrics := PyDict.empty
|}.

Definition with_mcu_configs (self : analyzer) (m : PyDict.t mcu_info) : analyzer :=
  {| stats_data := stats_data self; mcu_configs := m; errors := errors self;
     config_sections := config_sections self; timeline := timeline self;
     performance_metrics := performance_metrics self |}.

(** [d['config'] = c] and [d['moves'] = m] on a descriptor [d]. *)
Definition with_config (d : mcu_info) (c : string) : mcu_info :=
  {| commands := commands d; version_info := version_info d;
     mcu_line_number := mcu_line_number d; config := Some c; moves := moves d |}.

Definition with_moves (d : mcu_info) (m : Z) : mcu_info :=
  {| commands := commands d; version_info := version_info d;
     mcu_line_number := mcu_line_number d; config := config d; moves := Some m |}.

(** ** The record builder *)

(** The first block of [_parse_mcu_info]: a loaded MCU. *)
Definition mcu_load (self : analyzer) (line : string) (line_number : nat)
  : result analyzer :=
  match mcu_load_pattern line with
  | Some (mcu_name, commands_text, version_info) =>
      match py_int commands_text with
      | None => Raise ValueError
      | Some n =>
          Ok {| stats_data := stats_data self;
                mcu_configs :=
                  PyDict.set mcu_name
                    {| commands := n; version_info := version_info;
                       mcu_line_number := line_number; config := None;
                       moves := None |}
                    (mcu_configs self);
                errors := errors self;
                config_sections := config_sections self;
                timeline :=
                  (timeline self ++
                   [{| tl_line := line_number; tl_type := "mcu_load";
                       tl_mcu := mcu_name; tl_message := line |}])%list;
                performance_metrics := performance_metrics self |}
      end
  | None => Ok self
  end.

(** The second block: the configuration of an MCU. *)
Definition mcu_config (self : analyzer) (line : string) : analyzer :=
  match mcu_config_pattern line with
  | Some (mcu_name, config_data) =>
      match PyDict.get mcu_name (mcu_configs self) with
      | Some d =>
          with_mcu_configs self
            (PyDict.set mcu_name (with_config d config_data) (mcu_configs self))
      | None => self
      end
  | None => self
  end.

(** The third block: the moves of a configured MCU.  [int(moves)] is
    evaluated only for a name that is on record. *)
Definition mcu_configured (self : analyzer) (line : string) : result analyzer :=
  match mcu_configured_pattern line with
  | Some (mcu_name, mv) =>
      match PyDict.get mcu_name (mcu_configs self) with
      | Some d =>
          match py_int mv with
          | None => Raise ValueError
          | Some m =>
              Ok (with_mcu_configs self
                    (PyDict.set mcu_name (with_moves d m) (mcu_configs self)))
          end
      | None => Ok self
      end
  | None => Ok self
  end.

Definition _parse_mcu_info (self : analyzer) (line : string) (line_number : nat)
  : result analyzer :=
  s1 <- mcu_load self line line_number ;;
  mcu_configured (mcu_config s1 line) line.

(** The body of the first loop of [_parse_stats_line]: a number when the
    text converts, the text itself for [active], [inactive] and for what
    [float] refuses. *)
Definition kv_store (d : PyDict.t value) (kv : string * string) : PyDict.t value :=
  let '(key, v) := kv in
  if (String.eqb v "active" || String.eqb v "inactive")%bool
  then PyDict.set key (VStr v) d
  else match py_float v with
       | Some f => PyDict.set key (VFloat f) d
       | None => PyDict.set key (VStr v) d
       end.

(** The body of the three sensor loops: [float] is not guarded there. *)
Definition sensor_store (suffix : string) (d : PyDict.t value)
           (m : string * string) : result (PyDict.t value) :=
  let '(sensor, v) := m in
  match py_float v with
  | Some f => Ok (PyDict.set (sensor ++ suffix) (VFloat f) d)
  | None => Raise ValueError
  end.

Fixpoint sensor_loop (suffix : string) (ms : list (string * string))
         (d : PyDict.t value) : result (PyDict.t value) :=
  match ms with
  | [] => Ok d
  | m :: rest => d' <- sensor_store suffix d m ;; sensor_loop suffix rest d'
  end.

(** The snapshot of a statistics line: the four scans of the same content,
    in the order of the source. *)
Definition stats_dict_of (timestamp : float) (line_number : nat)
           (stats_content : string) : result (PyDict.t value) :=
  let d0 := [("timestamp", VFloat timestamp);
             ("line_number", VInt (Z.of_nat line_number))] in
  let d1 := fold_left kv_store (findall_groups kv_pattern stats_content) d0 in
  d2 <- sensor_loop "_temp" (findall_groups temp_pattern stats_content) d1 ;;
  d3 <- sensor_loop "_target" (findall_groups target_pattern stats_content) d2 ;;
  sensor_loop "_pwm" (findall_groups pwm_pattern stats_content) d3.

(** [self.performance_metrics[key].append(stats_dict[key])], a
    [defaultdict(list)]. *)
Definition track_metric (d : PyDict.t value) (pm : PyDict.t (list value))
           (key : string) : PyDict.t (list value) :=
  match PyDict.get key d with
  | Some v =>
      PyDict.set key
        (match PyDict.get key pm with Some l => l | None => [] end ++ [v])%list pm
  | None => pm
  end.

Definition metric_names : list string := ["freq"; "sysload"; "cputime"; "memavail"].

Definition _parse_stats_line (self : analyzer) (line : string) (line_number : nat)
  : result analyzer :=
  match stats_pattern line with
  | Some (timestamp, stats_content) =>
      match py_float timestamp with
      | None => Raise ValueError
      | Some ts =>
          d <- stats_dict_of ts line_number stats_content ;;
          Ok {| stats_data := (stats_data self ++ [d])%list;
                mcu_configs := mcu_configs self;
                errors := errors self;
                config_sections := config_sections self;
                timeline := timeline self;
                performance_metrics :=
                  fold_left (track_metric d) metric_names (performance_metrics self) |}
      end
  | None => Ok self
  end.

Definition _parse_config_section (self : analyzer) (line : string) (line_number : nat)
  : analyzer :=
  match config_section_pattern line with
  | Some section_name =>
      {| stats_data := stats_data self;
         mcu_configs := mcu_configs self;
         errors := errors self;
         config_sections :=
           PyDict.set section_name
             {| sec_line_number := line_number; sec_content := [] |}
             (config_sections self);
         timeline := timeline self;
         performance_metrics := performance_metrics self |}
  | None => self
  end.

Definition error_patterns : list string :=
  ["error"; "warning"; "exception"; "failed";
   "ERROR"; "WARNING"; "EXCEPTION"; "FAILED"].

(** The loop over the patterns, left at the first one that is found. *)
Fixpoint first_pattern (patterns : list string) (line : string) : option string :=
  match patterns with
  | [] => None
  | pattern :: rest =>
      if re_search_ci pattern line then Some pattern else first_pattern rest line
  end.

Definition _parse_errors_warnings (self : analyzer) (line : string) (line_number : nat)
  : analyzer :=
  match first_pattern error_patterns line with
  | Some pattern =>
      {| stats_data := stats_data self;
         mcu_configs := mcu_configs self;
         errors :=
           (errors self ++
            [{| err_line_number := line_number; err_type := lower pattern;
                err_message := line |}])%list;
         config_sections := config_sections self;
         timeline := timeline self;
         performance_metrics := performance_metrics self |}
  | None => self
  end.

(** One turn of the loop of [parse_log]; [line_number] is already counted. *)
Definition parse_line (self : analyzer) (line_number : nat) (raw : string)
  : result analyzer :=
  let line := strip raw in
  if String.eqb line "" then Ok self
  else
    s1 <- _parse_mcu_info self line line_number ;;
    s2 <- _parse_stats_line s1 line line_number ;;
    let s3 := _parse_config_section s2 line line_number in
    Ok (_parse_errors_warnings s3 line line_number).

(** The loop of [parse_log] over the lines that follow line [line_number]. *)
Fixpoint parse_lines (self : analyzer) (line_number : nat) (lines : list string)
  : result analyzer :=
  match lines with
  | [] => Ok self
  | raw :: rest =>
      s <- parse_line self (S line_number) raw ;;
      parse_lines s (S line_number) rest
  end.

Definition parse_log (lines : list string) : result analyzer :=
  parse_lines init 0 lines.

(** ** The table of snapshots

    [pd.DataFrame(self.stats_data)]: a row per snapshot, in the order of
    arrival, and a column per key, in the order in which the keys are first
    seen; a key that a snapshot does not have is a missing value there. *)

Definition add_column (cols : list string) (k : string) : list string :=
  if existsb (String.eqb k) cols then cols else (cols ++ [k])%list.

Definition columns (rows : list (PyDict.t value)) : list string :=
  fold_left (fun cols d => fold_left add_column (PyDict.keys d) cols) rows [].

(** [name in df.columns] *)
Definition in_columns (name : string) (rows : list (PyDict.t value)) : bool :=
  existsb (String.eqb name) (columns rows).

(** [df[name]] *)
Definition column (name : string) (rows : list (PyDict.t value)) : list (option value) :=
  map (PyDict.get name) rows.

(** [.dropna()], which the aggregates do by themselves as well: a value is
    missing when the key is absent and when it is the number NaN. *)
Fixpoint dropna (col : list (option value)) : list value :=
  match col with
  | [] => []
  | None :: r => dropna r
  | Some (VFloat f) :: r => if is_nan f then dropna r else VFloat f :: dropna r
  | Some v :: r => v :: dropna r
  end.

(** The numbers of a column.  A column that holds a text has no numeric
    type: its mean, its difference and its formatting as a number raise. *)
Fixpoint to_floats (vs : list value) : result (list float) :=
  match vs with
  | [] => Ok []
  | VFloat f :: r => fs <- to_floats r ;; Ok (f :: fs)
  | VInt z :: r => fs <- to_floats r ;; Ok (float_of_Z z :: fs)
  | VStr _ :: r => Raise TypeError
  end.

Definition series (name : string) (rows : list (PyDict.t value)) : result (list float) :=
  to_floats (dropna (column name rows)).

(** [.min()] and [.max()] of the values that are not missing; NaN when there
    is none. *)
Definition series_min (fs : list float) : float :=
  match fs with
  | [] => nan
  | f :: r => fold_left (fun m x => if ltb x m then x else m) r f
  end.

Definition series_max (fs : list float) : float :=
  match fs with
  | [] => nan
  | f :: r => fold_left (fun m x => if ltb m x then x else m) r f
  end.

(** [.iloc[0]] and [.iloc[-1]] of a series that is not empty. *)
Definition iloc_first (fs : list float) : float := hd nan fs.
Definition iloc_last (fs : list float) : float := last fs nan.

(** A number of a report that is a Python [int] on one branch and a float on
    the other. *)
Inductive pynum : Type :=
| PyInt (z : Z)
| PyFloat (f : float).

(** [x > 0] *)
Definition pynum_pos (x : pynum) : bool :=
  match x with
  | PyInt z => 0 <? z
  | PyFloat f => ltb 0 f
  end.

(** [old in s] *)
Fixpoint contains (old s : string) : bool :=
  match lit old s with
  | Some _ => true
  | None =>
      match s with
      | EmptyString => false
      | String _ r => contains old r
      end
  end.

(** [s.replace(old, "")] for an [old] that is not empty: the occurrences of
    [old] are removed from left to right, without overlap. *)
Fixpoint remove_from (old : string) (skip : nat) (s : string) : string :=
  match s with
  | EmptyString => EmptyString
  | String c r =>
      match skip with
      | S n => remove_from old n r
      | O =>
          match lit old s with
          | Some _ => remove_from old (String.length old - 1) r
          | None => String c (remove_from old 0 r)
          end
      end
  end.

Definition remove_all (old s : string) : string := remove_from old 0 s.

(** [s.endswith(suffix)] *)
Definition endswith (suffix s : string) : bool :=
  match lit (rev_string "" suffix) (rev_string "" s) with
  | Some _ => true
  | None => false
  end.

(** [s.startswith(prefix)] *)
Definition startswith (prefix s : string) : bool :=
  match lit prefix s with
  | Some _ => true
  | None => false
  end.

(** [s[:n]] *)
Fixpoint take (n : nat) (s : string) : string :=
  match n, s with
  | S n', String c r => String c (take n' r)
  | _, _ => EmptyString
  end.

(** ** The reports *)

Record metric_report : Type := {
  mr_mean : float;
  mr_min : float;
  mr_max : float;
  mr_std : pynum;
  mr_trend : string
}.

Record temp_report : Type := {
  tr_min_temp : float;
  tr_max_temp : float;
  tr_avg_temp : float;
  tr_temp_stability : pynum
}.

Record mcu_report : Type := {
  cr_mean : float;
  cr_max : float;
  cr_min : float
}.

Record summary : Type := {
  total_runtime : pynum;
  total_stats_entries : nat;
  stats_frequency : pynum
}.

Inductive performance_report : Type :=
| NoStatistics   (* the dictionary that holds the [error] key alone *)
| Report (s : summary)
         (metrics : PyDict.t metric_report)
         (temperature_analysis : PyDict.t temp_report)
         (mcu_analysis : PyDict.t (PyDict.t mcu_report)).

(** The lines of the health report.  A line that shows numbers carries the
    numbers; their formatting as text is not modelled. *)
Inductive report_line : Type :=
| Title | Rule
| McuHeading
| McuName (name : string)
| McuCommands (n : Z)
| McuMoves (n : option Z)              (* [None] shows as N/A *)
| McuVersion (shown : string)
| PerformanceHeading
| RuntimeLine (seconds : float)
| FrequencyLine (hz : float)
| SystemLoadLine (avg max : float)
| HighLoadWarning
| MemoryLine (min_mb avg_mb : float)
| LowMemoryWarning
| ErrorHeading
| ErrorCountLine (type : string) (count : nat)
| RecentHeading
| RecentErrorLine (line_number : nat) (shown : string)
| NoErrorsLine
| CommunicationHeading
| RxLine (total : float)
| TxLine (total : pynum)
| CommunicationWarning
| CommunicationClean
| TemperatureHeading
| TemperatureLine (sensor : string) (min max avg : float)
| HighExtruderWarning
| HighBedWarning
| RecommendationsHeading
| RecommendationLine (i : nat) (text : string)
| GeneratedLine.

Definition rec_load : string :=
  "Consider reducing print complexity or upgrading hardware".
Definition rec_memory : string :=
  "Monitor memory usage - consider closing unnecessary processes".
Definition rec_errors : string :=
  "High error count detected - review printer configuration".
Definition rec_cables : string :=
  "Communication errors detected - check cables and connections".
Definition rec_healthy : string :=
  "System appears healthy - no immediate concerns".

(** [Counter(types).items()]: the types in the order in which they are first
    seen, each with the number of its occurrences. *)
Fixpoint count_add (t : string) (c : list (string * nat)) : list (string * nat) :=
  match c with
  | [] => [(t, 1%nat)]
  | (t', n) :: r =>
      if String.eqb t t' then (t', S n) :: r else (t', n) :: count_add t r
  end.

Definition counter (types : list string) : list (string * nat) :=
  fold_left (fun c t => count_add t c) types [].

(** [l[-n:]] *)
Definition last_n {A : Type} (n : nat) (l : list A) : list A :=
  skipn (List.length l - n) l.

(** [enumerate(recommendations, 1)] *)
Fixpoint numbered (i : nat) (recs : list string) : list report_line :=
  match recs with
  | [] => []
  | r :: rest => RecommendationLine i r :: numbered (S i) rest
  end.

Fixpoint foldM {A B : Type} (f : B -> A -> result B) (l : list A) (b : B)
  : result B :=
  match l with
  | [] => Ok b
  | a :: r => b' <- f b a ;; foldM f r b'
  end.

Definition nonempty {A : Type} (l : list A) : bool :=
  match l with [] => false | _ => true end.

(** The literal [0.8] of the first recommendation rule: the binary64 number
    nearest to it, as in Python. *)
#[warnings="-inexact-float"]
Definition load_threshold : float := 0.8.

Section Reports.
(** The mean and the standard deviation of a series are computed by
    pandas, which does not fix the order of the additions: both reports
    are given for any two functions. *)
Variable series_mean : list float -> float.
Variable series_std : list float -> float.

(** The [trend] entry of a metric, on the values that are not missing. *)
Definition trend (values : list float) : string :=
  if ltb (iloc_first values) (iloc_last values) then "increasing"
  else if (1 <? List.length values)%nat then "decreasing"
  else "stable".

Definition std_of (fs : list float) : pynum :=
  if (1 <? List.length fs)%nat then PyFloat (series_std fs) else PyInt 0.

(** The [summary] entry of the performance report. *)
Definition report_summary (rows : list (PyDict.t value)) : result summary :=
  let n := List.length rows in
  runtime <-
    (if (1 <? n)%nat then
       ts <- series "timestamp" rows ;;
       Ok (PyFloat (sub (series_max ts) (series_min ts)))
     else Ok (PyInt 0)) ;;
  frequency <-
    (if (1 <? n)%nat then
       ts <- series "timestamp" rows ;;
       if ltb (series_min ts) (series_max ts)
       then Ok (PyFloat (div (float_of_Z (Z.of_nat n))
                             (sub (series_max ts) (series_min ts))))
       else Ok (PyInt 0)
     else Ok (PyInt 0)) ;;
  Ok {| total_runtime := runtime; total_stats_entries := n;
        stats_frequency := frequency |}.

Definition metric_entry (rows : list (PyDict.t value))
           (report : PyDict.t metric_report) (metric : string)
  : result (PyDict.t metric_report) :=
  if in_columns metric rows then
    let values := dropna (column metric rows) in
    if nonempty values then
      fs <- to_floats values ;;
      Ok (PyDict.set metric
            {| mr_mean := series_mean fs; mr_min := series_min fs;
               mr_max := series_max fs; mr_std := std_of fs;
               mr_trend := trend fs |} report)
    else Ok report
  else Ok report.

Definition temp_columns (rows : list (PyDict.t value)) : list string :=
  filter (endswith "_temp") (columns rows).

Definition temp_entry (rows : list (PyDict.t value))
           (report : PyDict.t temp_report) (temp_col : string)
  : result (PyDict.t temp_report) :=
  let sensor_name := remove_all "_temp" temp_col in
  let temps := dropna (column temp_col rows) in
  if nonempty temps then
    fs <- to_floats temps ;;
    Ok (PyDict.set sensor_name
          {| tr_min_temp := series_min fs; tr_max_temp := series_max fs;
             tr_avg_temp := series_mean fs; tr_temp_stability := std_of fs |}
          report)
  else Ok report.

(** A column has a numeric type when it holds no text. *)
Definition is_numeric (vs : list value) : bool :=
  forallb (fun v => match v with VStr _ => false | _ => true end) vs.

Definition mcu_entry (rows : list (PyDict.t value))
           (mcu_data : PyDict.t mcu_report) (key : string)
  : result (PyDict.t mcu_report) :=
  let values := dropna (column key rows) in
  if (nonempty values && is_numeric values)%bool then
    fs <- to_floats values ;;
    Ok (PyDict.set key
          {| cr_mean := series_mean fs; cr_max := series_max fs;
             cr_min := series_min fs |} mcu_data)
  else Ok mcu_data.

Definition mcu_prefix_entry (rows : list (PyDict.t value))
           (report : PyDict.t (PyDict.t mcu_report)) (mcu_prefix : string)
  : result (PyDict.t (PyDict.t mcu_report)) :=
  let mcu_keys :=
    filter (fun col => (startswith (mcu_prefix ++ "_") col ||
                        startswith ("canstat_" ++ mcu_prefix) col)%bool)
           (columns rows) in
  if nonempty mcu_keys then
    mcu_data <- foldM (mcu_entry rows) mcu_keys PyDict.empty ;;
    Ok (PyDict.set mcu_prefix mcu_data report)
  else Ok report.

Definition generate_performance_report (self : analyzer) : result performance_report :=
  let rows := stats_data self in
  if nonempty rows then
    s <- report_summary rows ;;
    metrics <- foldM (metric_entry rows) metric_names PyDict.empty ;;
    temps <- foldM (temp_entry rows) (temp_columns rows) PyDict.empty ;;
    mcus <- foldM (mcu_prefix_entry rows) ["mcu"; "EBBCan"] PyDict.empty ;;
    Ok (Report s metrics temps mcus)
  else Ok NoStatistics.

(** *** The health report *)

Definition mcu_lines (m : PyDict.t mcu_info) : list report_line :=
  flat_map (fun '(mcu_name, info) =>
              [McuName mcu_name; McuCommands (commands info);
               McuMoves (moves info);
               McuVersion (take 50 (version_info info) ++ "...")]) m.

Definition load_lines (rows : list (PyDict.t value)) : result (list report_line) :=
  if in_columns "sysload" rows then
    fs <- series "sysload" rows ;;
    let avg_load := series_mean fs in
    let max_load := series_max fs in
    Ok (SystemLoadLine avg_load max_load ::
        if ltb 1 max_load then [HighLoadWarning] else [])
  else Ok [].

Definition memory_lines (rows : list (PyDict.t value)) : result (list report_line) :=
  if in_columns "memavail" rows then
    fs <- series "memavail" rows ;;
    let min_mem := series_min fs in
    let avg_mem := series_mean fs in
    Ok (MemoryLine (div min_mem 1024) (div avg_mem 1024) ::
        if ltb min_mem 100000 then [LowMemoryWarning] else [])
  else Ok [].

(** The performance summary: here the frequency is divided out without a
    test on the number of snapshots or on the runtime. *)
Definition performance_lines (rows : list (PyDict.t value)) : result (list report_line) :=
  if nonempty rows then
    ts <- series "timestamp" rows ;;
    let runtime := sub (series_max ts) (series_min ts) in
    let frequency := div (float_of_Z (Z.of_nat (List.length rows))) runtime in
    l1 <- load_lines rows ;;
    l2 <- memory_lines rows ;;
    Ok ([PerformanceHeading; RuntimeLine runtime; FrequencyLine frequency]
          ++ l1 ++ l2)%list
  else Ok [].

Definition error_lines (errs : list error_entry) : list report_line :=
  if nonempty errs then
    (map (fun '(error_type, count) => ErrorCountLine error_type count)
         (counter (map err_type errs))
     ++ [RecentHeading]
     ++ map (fun e => RecentErrorLine (err_line_number e)
                                      (take 80 (err_message e) ++ "..."))
            (last_n 5 errs))%list
  else [NoErrorsLine].

Definition communication_lines (rows : list (PyDict.t value))
  : result (list report_line) :=
  if nonempty rows then
    if in_columns "rx_error" rows then
      rx <- series "rx_error" rows ;;
      let total_rx_errors := sub (series_max rx) (series_min rx) in
      total_tx_errors <-
        (if in_columns "tx_error" rows then
           tx <- series "tx_error" rows ;;
           Ok (PyFloat (sub (series_max tx) (series_min tx)))
         else Ok (PyInt 0)) ;;
      Ok [CommunicationHeading; RxLine total_rx_errors; TxLine total_tx_errors;
          if (ltb 0 total_rx_errors || pynum_pos total_tx_errors)%bool
          then CommunicationWarning else CommunicationClean]
    else Ok [CommunicationHeading]
  else Ok [].

Definition temperature_line (rows : list (PyDict.t value)) (temp_col : string)
  : result (list report_line) :=
  let sensor_name := remove_all "_temp" temp_col in
  let temps := dropna (column temp_col rows) in
  if nonempty temps then
    fs <- to_floats temps ;;
    let max_temp := series_max fs in
    Ok (TemperatureLine sensor_name (series_min fs) max_temp (series_mean fs) ::
        if (contains "extruder" sensor_name && ltb 250 max_temp)%bool
        then [HighExtruderWarning]
        else if (contains "bed" sensor_name && ltb 100 max_temp)%bool
        then [HighBedWarning] else [])
  else Ok [].

Definition temperature_lines (rows : list (PyDict.t value))
  : result (list report_line) :=
  let cols := if nonempty rows then temp_columns rows else [] in
  if nonempty cols then
    ls <- foldM (fun acc c => l <- temperature_line rows c ;; Ok (acc ++ l)%list)
                cols [] ;;
    Ok (TemperatureHeading :: ls)
  else Ok [].

(** The four rules, all of them under the test that there are snapshots. *)
Definition recommendations (self : analyzer) : result (list string) :=
  let rows := stats_data self in
  if nonempty rows then
    r1 <- (if in_columns "sysload" rows then
             fs <- series "sysload" rows ;;
             Ok (if ltb load_threshold (series_mean fs) then [rec_load] else [])
           else Ok []) ;;
    r2 <- (if in_columns "memavail" rows then
             fs <- series "memavail" rows ;;
             Ok (if ltb (series_min fs) 200000 then [rec_memory] else [])
           else Ok []) ;;
    let r3 := if (10 <? List.length (errors self))%nat then [rec_errors] else [] in
    r4 <- (if in_columns "rx_error" rows then
             fs <- series "rx_error" rows ;;
             Ok (if ltb 5 (sub (series_max fs) (series_min fs))
                 then [rec_cables] else [])
           else Ok []) ;;
    Ok (r1 ++ r2 ++ r3 ++ r4)%list
  else Ok [].

Definition recommendation_lines (self : analyzer) : result (list report_line) :=
  recs <- recommendations self ;;
  Ok (numbered 1 (if nonempty recs then recs else [rec_healthy])).

Definition generate_health_report (self : analyzer) : result (list report_line) :=
  let rows := stats_data self in
  perf <- performance_lines rows ;;
  comm <- communication_lines rows ;;
  temp <- temperature_lines rows ;;
  recs <- recommendation_lines self ;;
  Ok ([Title; Rule; McuHeading] ++ mcu_lines (mcu_configs self)
        ++ perf
        ++ [ErrorHeading] ++ error_lines (errors self)
        ++ comm ++ temp
        ++ [RecommendationsHeading] ++ recs
        ++ [GeneratedLine])%list.
End Reports.

(** ** The extraction of the statistics lines *)

(** [str(n)] *)
Definition string_of_nat (n : nat) : string :=
  NilEmpty.string_of_uint (Nat.to_uint n).

(** The loop of [extract_stats_to_file] over the lines that follow line
    [line_number]: the lines that start with [Stats ] once stripped, each
    with its number. *)
Fixpoint stats_lines_from (line_number : nat) (lines : list string) : list string :=
  match lines with
  | [] => []
  | raw :: rest =>
      if startswith "Stats " (strip raw)
      then ("Line " ++ string_of_nat (S line_number) ++ ": " ++ strip raw)
             :: stats_lines_from (S line_number) rest
      else stats_lines_from (S line_number) rest
  end.

(** [extract_stats_to_file]: the lines written to the output file and the
    number returned.  [now] is the text of the current time. *)
Definition extract_stats_to_file (log_file_path now : string) (lines : list string)
  : list string * nat :=
  let stats_lines := stats_lines_from 0 lines in
  let header :=
    ["# Klipper Stats Lines Extracted from " ++ log_file_path;
     "# Total stats lines found: " ++ string_of_nat (List.length stats_lines);
     "# Extracted on: " ++ now;
     ""] in
  ((header ++ stats_lines)%list, List.length stats_lines).

(** ** Notions of the statements *)

(** [seg] is [kw] up to the case of its letters: character by character
    the two have the same lower case, or [seg] has one of the letters
    outside ASCII whose case mapping is the letter of [kw] (the dotted
    capital and the dotless small [i], the long [s], the Kelvin sign). *)
Inductive ci_eq : string -> string -> Prop :=
| ci_nil : ci_eq "" ""
| ci_same (c d : ascii) (kw seg : string) :
    lower_char c = lower_char d -> ci_eq kw seg ->
    ci_eq (String c kw) (String d seg)
| ci_extra (c : ascii) (e kw seg : string) :
    In e (extra_cases (lower_char c)) -> ci_eq kw seg ->
    ci_eq (String c kw) (e ++ seg).

(** The keyword [kw] is a substring of [line], letters compared without
    case. *)
Definition occurs_ci (kw line : string) : Prop :=
  exists a seg b, line = a ++ seg ++ b /\ ci_eq kw seg.

(** The four keywords, in their order of priority. *)
Definition keywords : list string := ["error"; "warning"; "exception"; "failed"].

(** What a line does to the sections. *)
Definition section_step (cs : PyDict.t config_section) (line : string) (n : nat)
  : PyDict.t config_section :=
  match config_section_pattern line with
  | Some section_name =>
      PyDict.set section_name {| sec_line_number := n; sec_content := [] |} cs
  | None => cs
  end.

(** The snapshots hold numbers only: no aggregate of the reports raises. *)
Definition numeric_rows (rows : list (PyDict.t value)) : bool :=
  forallb (fun d => is_numeric (map snd d)) rows.

(** The lines of a report hold no recommendation. *)
Definition no_rec (lines : list report_line) : Prop :=
  forall i t, ~ In (RecommendationLine i t) lines.

(** Every character of [s] satisfies [p]. *)
Fixpoint all_chars (p : ascii -> bool) (s : string) : bool :=
  match s with
  | EmptyString => true
  | String c r => (p c && all_chars p r)%bool
  end.

(** One of the three sensor scans of the content finds a value that is no
    number. *)
Definition bad_sensor_value (stats_content : string) : Prop :=
  exists sensor v,
    (In (sensor, v) (findall_groups temp_pattern stats_content) \/
     In (sensor, v) (findall_groups target_pattern stats_content) \/
     In (sensor, v) (findall_groups pwm_pattern stats_content)) /\
    py_float v = None.

(** A statistics line with such a value. *)
Definition bad_stats_line (line : string) : Prop :=
  exists timestamp stats_content,
    stats_pattern line = Some (timestamp, stats_content) /\
    bad_sensor_value stats_content.

(** The values of a column that are present, in the order of the rows. *)
Definition col_values (key : string) (rows : list (PyDict.t value)) : list value :=
  flat_map (fun d => match PyDict.get key d with Some v => [v] | None => [] end) rows.

(** [self.performance_metrics[key]], a [defaultdict(list)]. *)
Definition tracked (key : string) (self : analyzer) : list value :=
  match PyDict.get key (performance_metrics self) with
  | Some l => l
  | None => []
  end.

(** The head of [s] is not in the class [p]. *)
Definition stops (p : ascii -> bool) (s : string) : Prop :=
  match s with
  | EmptyString => True
  | String c _ => p c = false
  end.

(** A character of the version information: any but the line feed and the
    closing parenthesis. *)
Definition is_version_char (c : ascii) : bool :=
  (is_dot c && negb (Ascii.eqb c ")"))%bool.

(** A character of a section name: any but the closing bracket. *)
Definition is_name_char (c : ascii) : bool := negb (Ascii.eqb c "]").

Definition newline : string := String "010" "".

(** A snapshot as [_parse_stats_line] builds it: its first two keys are
    [timestamp] and [line_number], and no key comes twice. *)
Definition snapshot_keys (d : PyDict.t value) : Prop :=
  (exists rest, PyDict.keys d = "timestamp" :: "line_number" :: rest) /\
  NoDup (PyDict.keys d).

(** The line [raw] is line [number] of the lines that follow line [n]. *)
Definition line_at (n : nat) (lines : list string) (number : nat) (raw : string)
  : Prop :=
  exists k, number = (n + k + 1)%nat /\ nth_error lines k = Some raw.

(** The counts of the error section of a report, and the line numbers of
    its recent errors. *)
Definition counts_of (lines : list report_line) : list nat :=
  flat_map (fun l => match l with ErrorCountLine _ c => [c] | _ => [] end) lines.

Definition recents_of (lines : list report_line) : list nat :=
  flat_map (fun l => match l with RecentErrorLine n _ => [n] | _ => [] end) lines.

(** Some snapshot holds a text under [key]. *)
Definition text_under (key : string) (rows : list (PyDict.t value)) : Prop :=
  exists d s, In d rows /\ PyDict.get key d = Some (VStr s).

(** The line loads the MCU [X]. *)
Definition loads (X line : string) : Prop :=
  exists N V, mcu_load_pattern line = Some (X, N, V).

(** A line that loads an MCU with a count that [int] refuses. *)
Definition long_load_line (line : string) : Prop :=
  exists X N V, mcu_load_pattern line = Some (X, N, V) /\ py_int N = None.

(** A moves line for the MCU [X] with a count that [int] refuses. *)
Definition long_moves_line (X line : string) : Prop :=
  exists N, mcu_configured_pattern line = Some (X, N) /\ py_int N = None.

(** What makes the line [raw] raise when it comes after the lines [before],
    for an analyzer that had the MCUs of [configs] before them: a sensor
    value that is no number, a count of commands that is too long, or a
    count of moves that is too long for an MCU that is on record by then. *)
Definition raising_line (configs : PyDict.t mcu_info) (before : list string)
           (raw : string) : Prop :=
  bad_stats_line (strip raw) \/
  long_load_line (strip raw) \/
  exists X, long_moves_line X (strip raw) /\
            (PyDict.get X configs <> None \/
             exists r, In r before /\ loads X (strip r)).

(** ** Data of the examples *)

(** An analyzer that has loaded two MCUs. *)
Definition two_mcus : analyzer :=
  match
    s <- _parse_mcu_info init "Loaded MCU 'mcu' 945 commands (v0.11.0)" 1 ;;
    _parse_mcu_info s "Loaded MCU 'EBBCan' 112 commands (v0.11.0-101)" 2
  with
  | Ok s => s
  | Raise _ => init
  end.

Definition mcu_descriptor : mcu_info :=
  {| commands := 945; version_info := "v0.11.0"; mcu_line_number := 1;
     config := None; moves := None |}.

(** The snapshot of the line [Stats 1.0: rx_error=0 tx_error=0], read as line 3. *)
Definition rx_snapshot : PyDict.t value :=
  [("timestamp", VFloat 1%float); ("line_number", VInt 3);
   ("rx_error", VFloat 0%float); ("tx_error", VFloat 0%float)].

(** The numbers 205.3 and 0.45 as Python reads them. *)
#[warnings="-inexact-float"]
Definition f_205_3 : float := 205.3.
#[warnings="-inexact-float"]
Definition f_0_45 : float := 0.45.

(** A mean for the examples: the sum from left to right, over the count. *)
Definition fold_mean (fs : list float) : float :=
  div (fold_left add fs 0%float) (float_of_Z (Z.of_nat (List.length fs))).

(** A log with one snapshot and eleven errors. *)
Definition busy_log : list string :=
  "Stats 1.0: freq=5" :: repeat "Timer too close: MCU error" 11.

Definition busy_state : analyzer :=
  match parse_log busy_log with
  | Ok st => st
  | Raise _ => init
  end.

(** A standard deviation for the examples: that of a sample. *)
Definition fold_std (fs : list float) : float :=
  let m := fold_mean fs in
  sqrt (div (fold_left (fun acc x => add acc (mul (sub x m) (sub x m))) fs 0%float)
            (float_of_Z (Z.of_nat (List.length fs) - 1))).

(** A log with an MCU that is loaded twice, a blank line, a section header,
    two statistics lines, an error and a line that only starts like a
    statistics line. *)
Definition sample_log : list string :=
  ["Loaded MCU 'mcu' 945 commands (v0.11.0)";
   "MCU 'mcu' config: ADC_MAX=4095";
   "";
   "[extruder]";
   "Stats 1.0: sysload=0.5 memavail=500000";
   "Stats 2.5: sysload=0.7 freq=5";
   "Timer too close: MCU error";
   "Loaded MCU 'mcu' 950 commands (v0.12.0)";
   "Configured MCU 'mcu' (1024 moves)";
   "Stats later"].

Definition sample_state : analyzer :=
  match parse_log sample_log with
  | Ok st => st
  | Raise _ => init
  end.

(** The analyzer after the first two lines of the sample log. *)
Definition configured_state : analyzer :=
  match parse_log (firstn 2 sample_log) with
  | Ok st => st
  | Raise _ => init
  end.

Definition busy_report : list report_line :=
  match generate_health_report fold_mean busy_state with
  | Ok lines => lines
  | Raise _ => []
  end.

(** An analyzer with a text under [sysload]. *)
Definition text_state : analyzer :=
  match parse_log ["Stats 1.0: sysload=unknown"] with
  | Ok st => st
  | Raise _ => init
  end.

(** The number 0.7 as Python reads it. *)
#[warnings="-inexact-float"]
Definition f_0_7 : float := 0.7.

(** A run of [n] digits. *)
Fixpoint digits_run (n : nat) : string :=
  match n with
  | O => ""
  | S k => String "9" (digits_run k)
  end.

(** A line with the small dotless [i], U+0131, in the place of an [i]. *)
Definition dotless_line : string :=
  "warn" ++ String "196" (String "177" "ng exception failed").

(** * Properties *)

Ltac break_match :=
  repeat match goal with
         | |- context [match ?x with _ => _ end] => destruct x eqn:?
         end.

Ltac no_rec_list :=
  let i := fresh "i" in
  let t := fresh "t" in
  let H := fresh "H" in
  intros i t H; simpl in H;
  repeat (destruct H as [H|H]; [discriminate|]); try contradiction.

(** ** Dictionaries *)

Lemma get_set_eq {V : Type} (k : string) (v : V) (d : PyDict.t V) :
  PyDict.get k (PyDict.set k v d) = Some v.
Proof.
  induction d as [|[k' v'] r IH]; simpl.
  - now rewrite String.eqb_refl.
  - destruct (String.eqb k k') eqn:E; simpl.
    + now rewrite String.eqb_refl.
    + now rewrite E.
Qed.

Lemma get_set_ne {V : Type} (k k0 : string) (v : V) (d : PyDict.t V) :
  k0 <> k -> PyDict.get k0 (PyDict.set k v d) = PyDict.get k0 d.
Proof.
  intros Hne.
  induction d as [|[k' v'] r IH]; simpl.
  - destruct (String.eqb k0 k) eqn:E; [apply String.eqb_eq in E; contradiction | reflexivity].
  - destruct (String.eqb k k') eqn:E; simpl.
    + apply String.eqb_eq in E; subst k'.
      destruct (String.eqb k0 k) eqn:E0; [apply String.eqb_eq in E0; contradiction | reflexivity].
    + destruct (String.eqb k0 k'); [reflexivity | exact IH].
Qed.

(** Assigning to a key that is present keeps the keys and their order. *)
Lemma keys_set_present {V : Type} (k : string) (v : V) (d : PyDict.t V) :
  PyDict.get k d <> None -> PyDict.keys (PyDict.set k v d) = PyDict.keys d.
Proof.
  induction d as [|[k' v'] r IH]; simpl; intros H.
  - congruence.
  - destruct (String.eqb k k') eqn:E; simpl.
    + apply String.eqb_eq in E. now subst.
    + f_equal. apply IH. exact H.
Qed.

(** ** The three MCU patterns exclude one another *)

Lemma then_lit_some {A : Type} (l s : string) (k : string -> option A) (a : A) :
  then_lit l s k = Some a -> exists r, lit l s = Some r /\ k r = Some a.
Proof.
  unfold then_lit. destruct (lit l s) as [r|]; [|discriminate].
  intros H. now exists r.
Qed.

Lemma lit_first (c : ascii) (l s r : string) :
  lit (String c l) s = Some r -> exists s', s = String c s'.
Proof.
  destruct s as [|d s']; simpl; [discriminate|].
  destruct (Ascii.eqb c d) eqn:E; [|discriminate].
  apply Ascii.eqb_eq in E. subst d. intros _. now exists s'.
Qed.

Lemma config_line_not_load (line : string) (m : string * string) :
  mcu_config_pattern line = Some m -> mcu_load_pattern line = None.
Proof.
  unfold mcu_config_pattern, mcu_load_pattern. intros H.
  apply then_lit_some in H. destruct H as [r [H _]].
  apply lit_first in H. destruct H as [s' ->]. reflexivity.
Qed.

Lemma config_line_not_configured (line : string) (m : string * string) :
  mcu_config_pattern line = Some m -> mcu_configured_pattern line = None.
Proof.
  unfold mcu_config_pattern, mcu_configured_pattern. intros H.
  apply then_lit_some in H. destruct H as [r [H _]].
  apply lit_first in H. destruct H as [s' ->]. reflexivity.
Qed.

Lemma configured_line_not_load (line : string) (m : string * string) :
  mcu_configured_pattern line = Some m -> mcu_load_pattern line = None.
Proof.
  unfold mcu_configured_pattern, mcu_load_pattern. intros H.
  apply then_lit_some in H. destruct H as [r [H _]].
  apply lit_first in H. destruct H as [s' ->]. reflexivity.
Qed.

Lemma configured_line_not_config (line : string) (m : string * string) :
  mcu_configured_pattern line = Some m -> mcu_config_pattern line = None.
Proof.
  unfold mcu_configured_pattern, mcu_config_pattern. intros H.
  apply then_lit_some in H. destruct H as [r [H _]].
  apply lit_first in H. destruct H as [s' ->]. reflexivity.
Qed.

(** What [_parse_mcu_info] does on a configuration line and on a moves
    line: one block of the three runs. *)
Lemma parse_mcu_info_config (self : analyzer) (line : string) (n : nat)
      (m : string * string) :
  mcu_config_pattern line = Some m ->
  _parse_mcu_info self line n = Ok (mcu_config self line).
Proof.
  intros H. unfold _parse_mcu_info, mcu_load, mcu_configured.
  rewrite (config_line_not_load _ _ H), (config_line_not_configured _ _ H).
  reflexivity.
Qed.

Lemma parse_mcu_info_configured (self : analyzer) (line : string) (n : nat)
      (m : string * string) :
  mcu_configured_pattern line = Some m ->
  _parse_mcu_info self line n = mcu_configured self line.
Proof.
  intros H. unfold _parse_mcu_info, mcu_load, mcu_config.
  rewrite (configured_line_not_load _ _ H), (configured_line_not_config _ _ H).
  reflexivity.
Qed.

(** An update for a name that has no descriptor leaves the analyzer as it
    is. *)
Lemma parse_mcu_info_unknown (self : analyzer) (line : string) (n : nat)
      (X : string) :
  (exists c, mcu_config_pattern line = Some (X, c)) \/
  (exists m, mcu_configured_pattern line = Some (X, m)) ->
  PyDict.get X (mcu_configs self) = None ->
  _parse_mcu_info self line n = Ok self.
Proof.
  intros [[c H]|[m H]] Hnone.
  - rewrite (parse_mcu_info_config _ _ _ _ H).
    unfold mcu_config. now rewrite H, Hnone.
  - rewrite (parse_mcu_info_configured _ _ _ _ H).
    unfold mcu_configured. now rewrite H, Hnone.
Qed.

(** ** What each recogniser leaves alone *)

Lemma bind_ok {A B : Type} (r : result A) (k : A -> result B) (b : B) :
  bind r k = Ok b -> exists a, r = Ok a /\ k a = Ok b.
Proof.
  destruct r as [a|e]; simpl; [eauto | discriminate].
Qed.

Lemma mcu_load_frame (self self' : analyzer) (line : string) (n : nat) :
  mcu_load self line n = Ok self' ->
  stats_data self' = stats_data self /\ errors self' = errors self /\
  config_sections self' = config_sections self /\
  performance_metrics self' = performance_metrics self.
Proof.
  unfold mcu_load.
  destruct (mcu_load_pattern line) as [[[a b] c]|].
  - destruct (py_int b); [|discriminate]. intros H. injection H as <-. simpl. auto.
  - intros H. injection H as <-. auto.
Qed.

Lemma mcu_config_frame (self : analyzer) (line : string) :
  let self' := mcu_config self line in
  stats_data self' = stats_data self /\ errors self' = errors self /\
  config_sections self' = config_sections self /\
  performance_metrics self' = performance_metrics self /\
  timeline self' = timeline self.
Proof.
  unfold mcu_config, with_mcu_configs. cbv zeta. break_match; simpl; auto 6.
Qed.

Lemma mcu_configured_frame (self self' : analyzer) (line : string) :
  mcu_configured self line = Ok self' ->
  stats_data self' = stats_data self /\ errors self' = errors self /\
  config_sections self' = config_sections self /\
  performance_metrics self' = performance_metrics self /\
  timeline self' = timeline self.
Proof.
  unfold mcu_configured, with_mcu_configs.
  destruct (mcu_configured_pattern line) as [[a b]|].
  - destruct (PyDict.get a (mcu_configs self)).
    + destruct (py_int b); [|discriminate].
      intros H. injection H as <-. simpl. auto 6.
    + intros H. injection H as <-. auto 6.
  - intros H. injection H as <-. auto 6.
Qed.

Lemma parse_mcu_info_frame (self self' : analyzer) (line : string) (n : nat) :
  _parse_mcu_info self line n = Ok self' ->
  stats_data self' = stats_data self /\ errors self' = errors self /\
  config_sections self' = config_sections self.
Proof.
  unfold _parse_mcu_info. intros H.
  apply bind_ok in H. destruct H as [s1 [H1 H2]].
  destruct (mcu_load_frame _ _ _ _ H1) as [A1 [A2 [A3 _]]].
  destruct (mcu_config_frame s1 line) as [B1 [B2 [B3 _]]]. cbv zeta in B1, B2, B3.
  destruct (mcu_configured_frame _ _ _ H2) as [C1 [C2 [C3 _]]].
  repeat split; congruence.
Qed.

Lemma parse_mcu_info_metrics (self self' : analyzer) (line : string) (n : nat) :
  _parse_mcu_info self line n = Ok self' ->
  performance_metrics self' = performance_metrics self.
Proof.
  unfold _parse_mcu_info. intros H.
  apply bind_ok in H. destruct H as [s1 [H1 H2]].
  destruct (mcu_load_frame _ _ _ _ H1) as [_ [_ [_ A]]].
  destruct (mcu_config_frame s1 line) as [_ [_ [_ [B _]]]]. cbv zeta in B.
  destruct (mcu_configured_frame _ _ _ H2) as [_ [_ [_ [C _]]]].
  congruence.
Qed.

Lemma parse_stats_line_frame (self self' : analyzer) (line : string) (n : nat) :
  _parse_stats_line self line n = Ok self' ->
  mcu_configs self' = mcu_configs self /\ errors self' = errors self /\
  config_sections self' = config_sections self.
Proof.
  unfold _parse_stats_line.
  destruct (stats_pattern line) as [[ts content]|].
  - destruct (py_float ts) as [f|]; [|discriminate].
    destruct (stats_dict_of f n content) as [d|e]; simpl; [|discriminate].
    intros H. injection H as <-. simpl. auto.
  - intros H. injection H as <-. auto.
Qed.

Lemma parse_config_section_frame (self : analyzer) (line : string) (n : nat) :
  let self' := _parse_config_section self line n in
  stats_data self' = stats_data self /\ mcu_configs self' = mcu_configs self /\
  errors self' = errors self.
Proof.
  unfold _parse_config_section. cbv zeta. break_match; simpl; auto.
Qed.

Lemma parse_errors_warnings_frame (self : analyzer) (line : string) (n : nat) :
  let self' := _parse_errors_warnings self line n in
  stats_data self' = stats_data self /\ mcu_configs self' = mcu_configs self /\
  config_sections self' = config_sections self.
Proof.
  unfold _parse_errors_warnings. cbv zeta. break_match; simpl; auto.
Qed.

(** The MCU collection after a line is a function of the collection before
    it and of the line. *)
Lemma mcu_load_configs (s s' t : analyzer) (line : string) (n : nat) :
  mcu_configs s = mcu_configs t ->
  mcu_load s line n = Ok s' ->
  exists t', mcu_load t line n = Ok t' /\ mcu_configs t' = mcu_configs s'.
Proof.
  intros H. unfold mcu_load.
  destruct (mcu_load_pattern line) as [[[a b] c]|].
  - destruct (py_int b); [|discriminate].
    intros E. injection E as <-. eexists. split; [reflexivity|].
    simpl. now rewrite H.
  - intros E. injection E as <-. eauto.
Qed.

Lemma mcu_config_configs (s t : analyzer) (line : string) :
  mcu_configs s = mcu_configs t ->
  mcu_configs (mcu_config s line) = mcu_configs (mcu_config t line).
Proof.
  intros H. unfold mcu_config.
  destruct (mcu_config_pattern line) as [[a b]|]; [|exact H].
  rewrite <- H. destruct (PyDict.get a (mcu_configs s)); simpl; now rewrite <- ?H.
Qed.

Lemma mcu_configured_configs (s s' t : analyzer) (line : string) :
  mcu_configs s = mcu_configs t ->
  mcu_configured s line = Ok s' ->
  exists t', mcu_configured t line = Ok t' /\ mcu_configs t' = mcu_configs s'.
Proof.
  intros H. unfold mcu_configured.
  destruct (mcu_configured_pattern line) as [[a b]|].
  - rewrite <- H. destruct (PyDict.get a (mcu_configs s)).
    + destruct (py_int b); [|discriminate].
      intros E. injection E as <-. eexists. split; [reflexivity|].
      simpl. now rewrite H.
    + intros E. injection E as <-. eauto.
  - intros E. injection E as <-. eauto.
Qed.

Lemma parse_mcu_info_configs (s s' t : analyzer) (line : string) (n : nat) :
  mcu_configs s = mcu_configs t ->
  _parse_mcu_info s line n = Ok s' ->
  exists t', _parse_mcu_info t line n = Ok t' /\ mcu_configs t' = mcu_configs s'.
Proof.
  intros H E. unfold _parse_mcu_info in *.
  apply bind_ok in E. destruct E as [s1 [E1 E2]].
  destruct (mcu_load_configs _ _ t _ _ H E1) as [t1 [Et1 Ht1]].
  rewrite Et1. cbn [bind].
  apply (mcu_configured_configs (mcu_config s1 line)); [|exact E2].
  apply mcu_config_configs. now symmetry.
Qed.

(** Whether a statistics line is accepted depends on the line alone. *)
Lemma parse_stats_line_any (s s' t : analyzer) (line : string) (n : nat) :
  _parse_stats_line s line n = Ok s' ->
  exists t', _parse_stats_line t line n = Ok t'.
Proof.
  unfold _parse_stats_line.
  destruct (stats_pattern line) as [[ts content]|]; [|eauto].
  destruct (py_float ts) as [f|]; [|discriminate].
  destruct (stats_dict_of f n content) as [d|e]; simpl; [eauto|discriminate].
Qed.

Lemma parse_line_configs (s s' t : analyzer) (n : nat) (raw : string) :
  mcu_configs s = mcu_configs t ->
  parse_line s n raw = Ok s' ->
  exists t', parse_line t n raw = Ok t' /\ mcu_configs t' = mcu_configs s'.
Proof.
  intros H. unfold parse_line.
  destruct (String.eqb (strip raw) "").
  - intros E. injection E as <-. eauto.
  - set (line := strip raw).
    destruct (_parse_mcu_info s line n) as [s1|e] eqn:E1; cbn [bind]; [|discriminate].
    destruct (parse_mcu_info_configs _ _ t _ _ H E1) as [t1 [Et1 Ht1]].
    rewrite Et1. cbn [bind].
    destruct (_parse_stats_line s1 line n) as [s2|e] eqn:E2;
      simpl; [|discriminate].
    intros E. injection E as <-.
    destruct (parse_stats_line_any _ _ t1 _ _ E2) as [t2 Et].
    rewrite Et. simpl. eexists. split; [reflexivity|].
    destruct (parse_errors_warnings_frame (_parse_config_section t2 line n) line n) as [_ [-> _]].
    destruct (parse_errors_warnings_frame (_parse_config_section s2 line n) line n) as [_ [-> _]].
    destruct (parse_config_section_frame t2 line n) as [_ [-> _]].
    destruct (parse_config_section_frame s2 line n) as [_ [-> _]].
    destruct (parse_stats_line_frame _ _ _ _ Et) as [-> _].
    destruct (parse_stats_line_frame _ _ _ _ E2) as [-> _].
    exact Ht1.
Qed.

Lemma parse_lines_configs (lines : list string) :
  forall (s s' t : analyzer) (n : nat),
    mcu_configs s = mcu_configs t ->
    parse_lines s n lines = Ok s' ->
    exists t', parse_lines t n lines = Ok t' /\ mcu_configs t' = mcu_configs s'.
Proof.
  induction lines as [|raw rest IH]; simpl; intros s s' t n H E.
  - injection E as <-. eauto.
  - destruct (parse_line s (S n) raw) as [s1|e] eqn:E1; simpl in E; [|discriminate].
    destruct (parse_line_configs _ _ t _ _ H E1) as [t1 [Et1 Ht1]].
    rewrite Et1. simpl. apply (IH s1 s' t1 (S n)); [now symmetry | exact E].
Qed.

Lemma config_line_not_stats (line : string) (m : string * string) :
  mcu_config_pattern line = Some m -> stats_pattern line = None.
Proof.
  unfold mcu_config_pattern, stats_pattern. intros H.
  apply then_lit_some in H. destruct H as [r [H _]].
  apply lit_first in H. destruct H as [s' ->]. reflexivity.
Qed.

Lemma configured_line_not_stats (line : string) (m : string * string) :
  mcu_configured_pattern line = Some m -> stats_pattern line = None.
Proof.
  unfold mcu_configured_pattern, stats_pattern. intros H.
  apply then_lit_some in H. destruct H as [r [H _]].
  apply lit_first in H. destruct H as [s' ->]. reflexivity.
Qed.

Lemma config_line_not_empty (line : string) (m : string * string) :
  mcu_config_pattern line = Some m -> String.eqb line "" = false.
Proof.
  unfold mcu_config_pattern. intros H.
  apply then_lit_some in H. destruct H as [r [H _]].
  apply lit_first in H. destruct H as [s' ->]. reflexivity.
Qed.

Lemma configured_line_not_empty (line : string) (m : string * string) :
  mcu_configured_pattern line = Some m -> String.eqb line "" = false.
Proof.
  unfold mcu_configured_pattern. intros H.
  apply then_lit_some in H. destruct H as [r [H _]].
  apply lit_first in H. destruct H as [s' ->]. reflexivity.
Qed.

(** ** Updates of the MCU collection *)

(** C7.  A configuration line or a moves line that names an MCU [X] without
    a descriptor is accepted and leaves the MCU collection as it is: no
    descriptor is created.  The lines that follow build the same collection
    as if the line had not been there, so a descriptor that a later line
    creates for [X] owes nothing to it. *)
Theorem unknown_mcu_update_dropped (self : analyzer) (n : nat) (raw X : string) :
  (exists c, mcu_config_pattern (strip raw) = Some (X, c)) \/
  (exists m, mcu_configured_pattern (strip raw) = Some (X, m)) ->
  PyDict.get X (mcu_configs self) = None ->
  exists self',
    parse_line self n raw = Ok self' /\
    mcu_configs self' = mcu_configs self /\
    forall (rest : list string) (final : analyzer),
      parse_lines self' n rest = Ok final ->
      exists final',
        parse_lines self n rest = Ok final' /\
        mcu_configs final' = mcu_configs final.
Proof.
  intros Hpat Hnone.
  set (line := strip raw) in *.
  assert (Hne : String.eqb line "" = false).
  { destruct Hpat as [[c H]|[m H]];
      [eapply config_line_not_empty | eapply configured_line_not_empty]; exact H. }
  assert (Hst : stats_pattern line = None).
  { destruct Hpat as [[c H]|[m H]];
      [eapply config_line_not_stats | eapply configured_line_not_stats]; exact H. }
  exists (_parse_errors_warnings (_parse_config_section self line n) line n).
  assert (Hcfg : mcu_configs (_parse_errors_warnings (_parse_config_section self line n) line n)
                 = mcu_configs self).
  { destruct (parse_errors_warnings_frame (_parse_config_section self line n) line n) as [_ [-> _]].
    now destruct (parse_config_section_frame self line n) as [_ [-> _]]. }
  split; [|split].
  - unfold parse_line. fold line. rewrite Hne.
    rewrite (parse_mcu_info_unknown self line n X Hpat Hnone). cbn [bind].
    unfold _parse_stats_line. rewrite Hst. reflexivity.
  - exact Hcfg.
  - intros rest final E.
    exact (parse_lines_configs rest _ final self n Hcfg E).
Qed.

Lemma unknown_mcu_update_dropped_witness :
  ((exists c, mcu_config_pattern (strip "MCU 'mcu' config: ADC_MAX=4095") = Some ("mcu", c)) \/
   (exists m, mcu_configured_pattern (strip "MCU 'mcu' config: ADC_MAX=4095") = Some ("mcu", m))) /\
  PyDict.get "mcu" (mcu_configs init) = None /\
  exists self',
    parse_line init 1 "MCU 'mcu' config: ADC_MAX=4095" = Ok self' /\
    mcu_configs self' = mcu_configs init /\
    forall (rest : list string) (final : analyzer),
      parse_lines self' 1 rest = Ok final ->
      exists final',
        parse_lines init 1 rest = Ok final' /\
        mcu_configs final' = mcu_configs final.
Proof.
  assert (H : (exists c, mcu_config_pattern (strip "MCU 'mcu' config: ADC_MAX=4095") = Some ("mcu", c)) \/
              (exists m, mcu_configured_pattern (strip "MCU 'mcu' config: ADC_MAX=4095") = Some ("mcu", m))).
  { left. exists "ADC_MAX=4095". reflexivity. }
  split; [exact H|]. split; [reflexivity|].
  exact (unknown_mcu_update_dropped init 1 "MCU 'mcu' config: ADC_MAX=4095" "mcu" H eq_refl).
Defined.

(** C10.  On a configuration line for an MCU [X] that has a descriptor [d],
    [_parse_mcu_info] replaces [d] by [d] with its [config] set, and on a
    moves line by [d] with its [moves] set to the count of the line.  The
    command count, the version information and the line number of the
    descriptor stay, the descriptors of the other MCUs stay, so do the keys
    of the collection and their order, and so does the rest of the analyzer.
    The one other outcome is that of a moves line whose count [int] refuses:
    the call raises [ValueError] before anything is assigned. *)
Theorem mcu_update_frame (self : analyzer) (line : string) (n : nat)
        (X v : string) (d : mcu_info) :
  PyDict.get X (mcu_configs self) = Some d ->
  mcu_config_pattern line = Some (X, v) \/
  mcu_configured_pattern line = Some (X, v) ->
  (exists (self' : analyzer) (d' : mcu_info),
     _parse_mcu_info self line n = Ok self' /\
     PyDict.get X (mcu_configs self') = Some d' /\
     commands d' = commands d /\
     version_info d' = version_info d /\
     mcu_line_number d' = mcu_line_number d /\
     (mcu_config_pattern line = Some (X, v) ->
      d' = with_config d v /\ config d' = Some v /\ moves d' = moves d) /\
     (mcu_configured_pattern line = Some (X, v) ->
      exists m, py_int v = Some m /\ d' = with_moves d m /\
                moves d' = Some m /\ config d' = config d) /\
     (forall Y, Y <> X ->
                PyDict.get Y (mcu_configs self') = PyDict.get Y (mcu_configs self)) /\
     PyDict.keys (mcu_configs self') = PyDict.keys (mcu_configs self) /\
     stats_data self' = stats_data self /\
     errors self' = errors self /\
     config_sections self' = config_sections self /\
     timeline self' = timeline self /\
     performance_metrics self' = performance_metrics self) \/
  (mcu_configured_pattern line = Some (X, v) /\ py_int v = None /\
   _parse_mcu_info self line n = Raise ValueError).
Proof.
  intros Hd [H|H].
  - left. exists (mcu_config self line), (with_config d v).
    assert (Hcfg : mcu_configs (mcu_config self line)
                   = PyDict.set X (with_config d v) (mcu_configs self)).
    { unfold mcu_config. now rewrite H, Hd. }
    destruct (mcu_config_frame self line) as [F1 [F2 [F3 [F4 F5]]]].
    cbv zeta in F1, F2, F3, F4, F5.
    rewrite Hcfg.
    split; [exact (parse_mcu_info_config _ _ _ _ H)|].
    split; [apply get_set_eq|].
    do 3 (split; [reflexivity|]).
    split; [intros _; repeat split|].
    split.
    { intros H'. rewrite (config_line_not_configured _ _ H) in H'. discriminate. }
    split; [intros Y HY; now apply get_set_ne|].
    split; [apply keys_set_present; congruence|].
    auto 6.
  - destruct (py_int v) as [m|] eqn:Em.
    + left.
      exists (with_mcu_configs self
                (PyDict.set X (with_moves d m) (mcu_configs self))),
             (with_moves d m).
      split.
      { rewrite (parse_mcu_info_configured _ _ _ _ H).
        unfold mcu_configured. now rewrite H, Hd, Em. }
      cbn [mcu_configs with_mcu_configs].
      split; [apply get_set_eq|].
      do 3 (split; [reflexivity|]).
      split.
      { intros H'. rewrite (configured_line_not_config _ _ H) in H'. discriminate. }
      split; [intros _; exists m; repeat split|].
      split; [intros Y HY; now apply get_set_ne|].
      split; [apply keys_set_present; congruence|].
      repeat split.
    + right. split; [exact H|]. split; [reflexivity|].
      rewrite (parse_mcu_info_configured _ _ _ _ H).
      unfold mcu_configured. now rewrite H, Hd, Em.
Qed.

Lemma mcu_update_frame_witness :
  PyDict.get "mcu" (mcu_configs two_mcus) = Some mcu_descriptor /\
  (mcu_config_pattern "Configured MCU 'mcu' (1024 moves)" = Some ("mcu", "1024") \/
   mcu_configured_pattern "Configured MCU 'mcu' (1024 moves)" = Some ("mcu", "1024")) /\
  exists self',
    _parse_mcu_info two_mcus "Configured MCU 'mcu' (1024 moves)" 3 = Ok self' /\
    PyDict.get "mcu" (mcu_configs self') = Some (with_moves mcu_descriptor 1024) /\
    PyDict.get "EBBCan" (mcu_configs self') = PyDict.get "EBBCan" (mcu_configs two_mcus).
Proof.
  assert (H : mcu_config_pattern "Configured MCU 'mcu' (1024 moves)" = Some ("mcu", "1024") \/
              mcu_configured_pattern "Configured MCU 'mcu' (1024 moves)"
              = Some ("mcu", "1024")).
  { right. reflexivity. }
  split; [reflexivity|]. split; [exact H|].
  destruct (mcu_update_frame two_mcus "Configured MCU 'mcu' (1024 moves)" 3
              "mcu" "1024" mcu_descriptor eq_refl H)
    as [[self' [d' [W0 [W1 [_ [_ [_ [_ [W2 [W3 _]]]]]]]]]]|[_ [W _]]].
  - exists self'. split; [exact W0|].
    destruct (W2 eq_refl) as [m [Hm [Hd' _]]].
    injection Hm as <-. rewrite <- Hd'.
    split; [exact W1|]. apply W3. discriminate.
  - discriminate W.
Defined.

(** ** The error keywords *)

Lemma lit_app (l s : string) : lit l (l ++ s) = Some s.
Proof.
  induction l as [|c l IH]; simpl; [reflexivity|].
  now rewrite Ascii.eqb_refl.
Qed.

Lemma lit_inv (l : string) : forall s r, lit l s = Some r -> s = l ++ r.
Proof.
  induction l as [|c l IH]; simpl; intros s r H.
  - now injection H as ->.
  - destruct s as [|d s]; [discriminate|].
    destruct (Ascii.eqb c d) eqn:E; [|discriminate].
    apply Ascii.eqb_eq in E. subst d. now rewrite (IH _ _ H).
Qed.

Lemma append_assoc (a b c : string) : (a ++ b) ++ c = a ++ b ++ c.
Proof.
  induction a as [|x a IH]; simpl; [reflexivity | now rewrite IH].
Qed.

Lemma lower_char_idem (c : ascii) : lower_char (lower_char c) = lower_char c.
Proof.
  destruct c as [[] [] [] [] [] [] [] []]; reflexivity.
Qed.

Lemma first_lit_inv (ls : list string) (s r : string) :
  first_lit ls s = Some r -> exists e, In e ls /\ s = e ++ r.
Proof.
  induction ls as [|l ls IH]; simpl; [discriminate|].
  destruct (lit l s) as [r'|] eqn:E.
  - intros H. injection H as ->. exists l. split; [now left|]. now apply lit_inv.
  - intros H. destruct (IH H) as [e [He Hs]].
    exists e. split; [now right | exact Hs].
Qed.

(** One character of the pattern takes one character of the text: the same
    letter in either case, or one of its forms outside ASCII. *)
Lemma ci_char_spec (c : ascii) (s r : string) :
  ci_char c s = Some r <->
  (exists d, s = String d r /\ lower_char c = lower_char d) \/
  (exists e, In e (extra_cases (lower_char c)) /\ s = e ++ r).
Proof.
  split.
  - destruct s as [|d s']; cbn [ci_char]; [discriminate|].
    destruct (Ascii.eqb (lower_char c) (lower_char d)) eqn:E.
    + intros H. injection H as ->. apply Ascii.eqb_eq in E. left. now exists d.
    + intros H. right. now apply first_lit_inv.
  - intros [[d [-> Hc]]|[e [He ->]]].
    + cbn [ci_char]. apply Ascii.eqb_eq in Hc. now rewrite Hc.
    + unfold extra_cases in He.
      destruct (Ascii.eqb (lower_char c) "i") eqn:Ei.
      { apply Ascii.eqb_eq in Ei.
        destruct He as [<-|[<-|[]]]; cbn [append ci_char]; rewrite Ei; reflexivity. }
      destruct (Ascii.eqb (lower_char c) "s") eqn:Es.
      { apply Ascii.eqb_eq in Es.
        destruct He as [<-|[]]; cbn [append ci_char]; rewrite Es; reflexivity. }
      destruct (Ascii.eqb (lower_char c) "k") eqn:Ek.
      { apply Ascii.eqb_eq in Ek.
        destruct He as [<-|[]]; cbn [append ci_char]; rewrite Ek; reflexivity. }
      destruct He.
Qed.

Lemma ci_eq_lit_ci (l seg : string) :
  ci_eq l seg -> forall b, lit_ci l (seg ++ b) = true.
Proof.
  induction 1 as [|c d kw seg Hc _ IH|c e kw seg He _ IH]; intros b.
  - reflexivity.
  - cbn [lit_ci].
    assert (E : ci_char c (String d seg ++ b) = Some (seg ++ b)).
    { apply ci_char_spec. left. now exists d. }
    rewrite E. apply IH.
  - cbn [lit_ci].
    assert (E : ci_char c ((e ++ seg) ++ b) = Some (seg ++ b)).
    { apply ci_char_spec. right. exists e. split; [exact He | apply append_assoc]. }
    rewrite E. apply IH.
Qed.

(** The literal is at the start of the text, up to the case of its
    letters. *)
Lemma lit_ci_spec (l : string) :
  forall s, lit_ci l s = true <-> exists seg b, s = seg ++ b /\ ci_eq l seg.
Proof.
  induction l as [|c l IH]; intros s.
  - split; [intros _; exists "", s; split; [reflexivity | constructor] | reflexivity].
  - split.
    + cbn [lit_ci]. destruct (ci_char c s) as [s'|] eqn:E; [|discriminate].
      intros H. apply IH in H. destruct H as [seg [b [-> Hci]]].
      apply ci_char_spec in E. destruct E as [[d [-> Hc]]|[e [He ->]]].
      * exists (String d seg), b. split; [reflexivity | now constructor].
      * exists (e ++ seg), b. split; [now rewrite append_assoc | now apply ci_extra].
    + intros [seg [b [-> Hci]]]. now apply ci_eq_lit_ci.
Qed.

Lemma re_search_ci_spec (pattern : string) :
  forall line, re_search_ci pattern line = true <-> occurs_ci pattern line.
Proof.
  unfold occurs_ci.
  induction line as [|c r IH].
  - cbn [re_search_ci]. rewrite orb_false_r, lit_ci_spec. split.
    + intros [seg [b [H Hci]]]. now exists "", seg, b.
    + intros [a [seg [b [H Hci]]]]. destruct a; [now exists seg, b | discriminate].
  - cbn [re_search_ci]. rewrite orb_true_iff, lit_ci_spec, IH. split.
    + intros [[seg [b [H Hci]]]|[a [seg [b [H Hci]]]]].
      * now exists "", seg, b.
      * exists (String c a), seg, b. simpl. now rewrite H.
    + intros [a [seg [b [H Hci]]]]. destruct a as [|x a].
      * left. now exists seg, b.
      * right. simpl in H. injection H as _ H. now exists a, seg, b.
Qed.

(** The case of the letters of the pattern does not matter. *)
Lemma ci_eq_lower (kw seg : string) : ci_eq (lower kw) seg <-> ci_eq kw seg.
Proof.
  split.
  - revert seg. induction kw as [|c kw IH]; intros seg H; simpl in H.
    + exact H.
    + inversion H as [|c0 d kw0 seg0 Hc Hci|c0 e kw0 seg0 He Hci]; subst.
      * apply ci_same; [now rewrite <- Hc, lower_char_idem | now apply IH].
      * apply ci_extra; [now rewrite <- (lower_char_idem c) | now apply IH].
  - induction 1 as [|c d kw seg Hc _ IH|c e kw seg He _ IH]; simpl.
    + constructor.
    + apply ci_same; [now rewrite lower_char_idem | exact IH].
    + apply ci_extra; [now rewrite lower_char_idem | exact IH].
Qed.

Lemma occurs_ci_lower (kw line : string) :
  occurs_ci (lower kw) line <-> occurs_ci kw line.
Proof.
  unfold occurs_ci. split; intros [a [seg [b [H Hci]]]];
    exists a, seg, b; (split; [exact H | now apply ci_eq_lower]).
Qed.

(** The search takes the dotless [i] for an [i]: the line is a warning,
    not an exception. *)
Lemma dotless_i_is_found :
  first_pattern error_patterns dotless_line = Some "warning" /\
  occurs_ci "warning" dotless_line.
Proof.
  split; [reflexivity | apply re_search_ci_spec; reflexivity].
Qed.

Lemma re_search_ci_false (pattern line : string) :
  ~ occurs_ci pattern line -> re_search_ci pattern line = false.
Proof.
  intros H. destruct (re_search_ci pattern line) eqn:E; [|reflexivity].
  apply re_search_ci_spec in E. contradiction.
Qed.

(** The loop over the patterns stops at the first keyword that the line
    holds. *)
Lemma first_pattern_keyword (line : string) (pre post : list string) (kw : string) :
  keywords = (pre ++ kw :: post)%list ->
  occurs_ci kw line ->
  (forall k, In k pre -> ~ occurs_ci k line) ->
  first_pattern error_patterns line = Some kw /\ lower kw = kw.
Proof.
  intros Heq Hkw Hpre.
  apply re_search_ci_spec in Hkw.
  assert (Hf : forall k, In k pre -> re_search_ci k line = false).
  { intros k Hk. apply re_search_ci_false. now apply Hpre. }
  unfold keywords in Heq. unfold error_patterns.
  destruct pre as [|p1 [|p2 [|p3 [|p4 pre]]]]; simpl in Heq; inversion Heq; subst;
    cbn [first_pattern];
    rewrite ?(Hf "error"), ?(Hf "warning"), ?(Hf "exception") by (simpl; auto);
    rewrite ?Hkw; try (split; reflexivity).
  destruct pre; discriminate.
Qed.

(** C6.  A line that holds one or several of the keywords gets exactly one
    entry, appended to the errors, whose type is the first keyword of the
    priority order [error], [warning], [exception], [failed] that the line
    holds. *)
Theorem one_entry_first_keyword (self : analyzer) (line : string) (n : nat)
        (pre post : list string) (kw : string) :
  keywords = (pre ++ kw :: post)%list ->
  occurs_ci kw line ->
  (forall k, In k pre -> ~ occurs_ci k line) ->
  errors (_parse_errors_warnings self line n) =
  (errors self ++
   [{| err_line_number := n; err_type := kw; err_message := line |}])%list.
Proof.
  intros Heq Hkw Hpre.
  destruct (first_pattern_keyword line pre post kw Heq Hkw Hpre) as [Hfirst Hlow].
  unfold _parse_errors_warnings. rewrite Hfirst. simpl. now rewrite Hlow.
Qed.

Lemma one_entry_first_keyword_witness :
  occurs_ci "warning" "Error: thermal warning" /\
  keywords = ([] ++ "error" :: ["warning"; "exception"; "failed"])%list /\
  occurs_ci "error" "Error: thermal warning" /\
  (forall k, In k [] -> ~ occurs_ci k "Error: thermal warning") /\
  errors (_parse_errors_warnings init "Error: thermal warning" 7) =
  [{| err_line_number := 7; err_type := "error";
      err_message := "Error: thermal warning" |}].
Proof.
  assert (H1 : keywords = ([] ++ "error" :: ["warning"; "exception"; "failed"])%list)
    by reflexivity.
  assert (H2 : occurs_ci "error" "Error: thermal warning")
    by (apply re_search_ci_spec; reflexivity).
  assert (H3 : forall k, In k [] -> ~ occurs_ci k "Error: thermal warning")
    by (intros k []).
  split; [apply re_search_ci_spec; reflexivity|].
  split; [exact H1|]. split; [exact H2|]. split; [exact H3|].
  exact (one_entry_first_keyword init "Error: thermal warning" 7 [] _ "error" H1 H2 H3).
Defined.

(** ** A statistics line is no MCU line *)

Lemma stats_line_not_empty (line : string) (m : string * string) :
  stats_pattern line = Some m -> String.eqb line "" = false.
Proof.
  unfold stats_pattern. intros H.
  apply then_lit_some in H. destruct H as [r [H _]].
  apply lit_first in H. destruct H as [s' ->]. reflexivity.
Qed.

Lemma stats_line_no_mcu (line : string) (m : string * string) :
  stats_pattern line = Some m ->
  mcu_load_pattern line = None /\ mcu_config_pattern line = None /\
  mcu_configured_pattern line = None.
Proof.
  unfold stats_pattern. intros H.
  apply then_lit_some in H. destruct H as [r [H _]].
  apply lit_first in H. destruct H as [s' ->]. repeat split; reflexivity.
Qed.

(** A line that none of the three MCU patterns recognises leaves the
    analyzer as it is. *)
Lemma parse_mcu_info_none (self : analyzer) (line : string) (n : nat) :
  mcu_load_pattern line = None -> mcu_config_pattern line = None ->
  mcu_configured_pattern line = None ->
  _parse_mcu_info self line n = Ok self.
Proof.
  intros H1 H2 H3. unfold _parse_mcu_info, mcu_load, mcu_config, mcu_configured.
  rewrite H1. cbn [bind]. now rewrite H2, H3.
Qed.

Lemma parse_mcu_info_stats (self : analyzer) (line : string) (n : nat)
      (m : string * string) :
  stats_pattern line = Some m -> _parse_mcu_info self line n = Ok self.
Proof.
  intros H. destruct (stats_line_no_mcu _ _ H) as [H1 [H2 H3]].
  now apply parse_mcu_info_none.
Qed.

(** ** Section headers *)

Lemma parse_config_section_step (self : analyzer) (line : string) (n : nat) :
  config_sections (_parse_config_section self line n)
  = section_step (config_sections self) line n.
Proof.
  unfold _parse_config_section, section_step.
  now destruct (config_section_pattern line).
Qed.

Lemma parse_line_sections (s s' : analyzer) (n : nat) (raw : string) :
  parse_line s n raw = Ok s' ->
  config_sections s' = section_step (config_sections s) (strip raw) n.
Proof.
  unfold parse_line.
  destruct (String.eqb (strip raw) "") eqn:E.
  - apply String.eqb_eq in E. rewrite E. intros H. injection H as <-. reflexivity.
  - set (line := strip raw).
    destruct (_parse_mcu_info s line n) as [s1|e] eqn:E1; cbn [bind]; [|discriminate].
    destruct (_parse_stats_line s1 line n) as [s2|e] eqn:E2;
      cbn [bind]; [|discriminate].
    intros H. injection H as <-.
    destruct (parse_errors_warnings_frame (_parse_config_section s2 line n) line n)
      as [_ [_ ->]].
    rewrite parse_config_section_step.
    destruct (parse_stats_line_frame _ _ _ _ E2) as [_ [_ ->]].
    now destruct (parse_mcu_info_frame _ _ _ _ E1) as [_ [_ ->]].
Qed.

Lemma parse_lines_app (l1 : list string) :
  forall (s final : analyzer) (n : nat) (l2 : list string),
    parse_lines s n (l1 ++ l2) = Ok final ->
    exists s1, parse_lines s n l1 = Ok s1 /\
               parse_lines s1 (n + List.length l1) l2 = Ok final.
Proof.
  induction l1 as [|raw l1 IH]; intros s final n l2; simpl.
  - intros H. exists s. split; [reflexivity|]. now rewrite Nat.add_0_r.
  - destruct (parse_line s (S n) raw) as [s1|e]; cbn [bind]; [|discriminate].
    intros H. destruct (IH _ _ _ _ H) as [s2 [H1 H2]].
    exists s2. split; [exact H1|].
    now rewrite Nat.add_succ_r.
Qed.

(** The lines that are no header of [name] keep what is recorded for it. *)
Lemma parse_lines_other_headers (name : string) (lines : list string) :
  forall (s final : analyzer) (n : nat),
    (forall r, In r lines -> config_section_pattern (strip r) <> Some name) ->
    parse_lines s n lines = Ok final ->
    PyDict.get name (config_sections final) = PyDict.get name (config_sections s).
Proof.
  induction lines as [|raw rest IH]; intros s final n Hno; simpl.
  - intros H. now injection H as <-.
  - destruct (parse_line s (S n) raw) as [s1|e] eqn:E1; cbn [bind]; [|discriminate].
    intros H.
    rewrite (IH s1 final (S n)); [|intros r Hr; apply Hno; now right|exact H].
    rewrite (parse_line_sections _ _ _ _ E1). unfold section_step.
    destruct (config_section_pattern (strip raw)) as [other|] eqn:Ep; [|reflexivity].
    apply get_set_ne. intros ->. apply (Hno raw); [now left | exact Ep].
Qed.

(** C4, as the code has it.  The header [[name]] that is the last one of the
    log for [name] gives the recorded line number: every header of a section
    overwrites what an earlier header of the same name recorded. *)
Theorem last_header_wins (self final : analyzer) (n : nat)
        (l1 l2 : list string) (raw name : string) :
  config_section_pattern (strip raw) = Some name ->
  (forall r, In r l2 -> config_section_pattern (strip r) <> Some name) ->
  parse_lines self n (l1 ++ raw :: l2) = Ok final ->
  PyDict.get name (config_sections final)
  = Some {| sec_line_number := (n + List.length l1 + 1)%nat; sec_content := [] |}.
Proof.
  intros Hpat Hno H.
  destruct (parse_lines_app _ _ _ _ _ H) as [s1 [_ H2]].
  simpl in H2.
  destruct (parse_line s1 (S (n + List.length l1)) raw) as [s2|e] eqn:E2;
    cbn [bind] in H2; [|discriminate].
  rewrite (parse_lines_other_headers name l2 s2 final _ Hno H2).
  rewrite (parse_line_sections _ _ _ _ E2). unfold section_step. rewrite Hpat.
  rewrite get_set_eq. now rewrite Nat.add_1_r.
Qed.

Lemma last_header_wins_witness :
  config_section_pattern (strip "[extruder]") = Some "extruder" /\
  (forall r, In r ["[stepper_x]"] ->
             config_section_pattern (strip r) <> Some "extruder") /\
  (exists final,
      parse_lines init 0 (["[extruder]"; "pressure_advance = 0.05"] ++
                          "[extruder]" :: ["[stepper_x]"]) = Ok final /\
      PyDict.get "extruder" (config_sections final)
      = Some {| sec_line_number := 3; sec_content := [] |}).
Proof.
  assert (H1 : config_section_pattern (strip "[extruder]") = Some "extruder")
    by reflexivity.
  assert (H2 : forall r, In r ["[stepper_x]"] ->
                         config_section_pattern (strip r) <> Some "extruder").
  { intros r [<-|[]]. discriminate. }
  split; [exact H1|]. split; [exact H2|].
  eexists. split; [reflexivity|].
  exact (last_header_wins init _ 0 ["[extruder]"; "pressure_advance = 0.05"]
           ["[stepper_x]"] "[extruder]" "extruder" H1 H2 eq_refl).
Defined.

(** The claim that the first header is kept fails on a section that is
    declared twice: the second header gives the line number. *)
Lemma first_header_not_kept :
  exists final,
    parse_log ["[extruder]"; "[extruder]"] = Ok final /\
    PyDict.get "extruder" (config_sections final)
    = Some {| sec_line_number := 2; sec_content := [] |} /\
    PyDict.get "extruder" (config_sections final)
    <> Some {| sec_line_number := 1; sec_content := [] |}.
Proof.
  eexists. split; [reflexivity|]. split; [reflexivity|]. discriminate.
Qed.

(** ** The sensor scans of a statistics line *)

(** In the scan of the pairs, a value that [float] refuses is kept as text
    under its key. *)
Lemma kv_store_keeps_text (d : PyDict.t value) (key v : string) :
  py_float v = None ->
  PyDict.get key (kv_store d (key, v)) = Some (VStr v).
Proof.
  intros H. unfold kv_store.
  destruct (String.eqb v "active" || String.eqb v "inactive")%bool;
    [|rewrite H]; apply get_set_eq.
Qed.

(** In the three sensor scans, a value that [float] refuses stops the
    scan with the exception. *)
Lemma sensor_loop_raises (suffix sensor v : string) (rest : list (string * string))
      (d : PyDict.t value) :
  py_float v = None ->
  sensor_loop suffix ((sensor, v) :: rest) d = Raise ValueError.
Proof.
  intros H. simpl. now rewrite H.
Qed.

Lemma sensor_loop_raises_in (suffix : string) (ms : list (string * string)) :
  (exists sensor v, In (sensor, v) ms /\ py_float v = None) ->
  forall d, sensor_loop suffix ms d = Raise ValueError.
Proof.
  induction ms as [|[s0 v0] ms IH]; intros [sensor [v [Hin Hv]]] d.
  - contradiction.
  - simpl. destruct (py_float v0) as [f|] eqn:E0; [|reflexivity].
    cbn [bind]. destruct Hin as [Hin|Hin].
    + injection Hin as _ ->. congruence.
    + apply IH. now exists sensor, v.
Qed.

(** Every statistics line with a temperature that is no number raises. *)
Lemma temp_scan_raises (self : analyzer) (line timestamp stats_content : string)
      (n : nat) :
  stats_pattern line = Some (timestamp, stats_content) ->
  (exists sensor v,
      In (sensor, v) (findall_groups temp_pattern stats_content) /\
      py_float v = None) ->
  _parse_stats_line self line n = Raise ValueError.
Proof.
  intros Hpat Hbad. unfold _parse_stats_line. rewrite Hpat.
  destruct (py_float timestamp) as [ts|]; [|reflexivity].
  unfold stats_dict_of. rewrite (sensor_loop_raises_in "_temp" _ Hbad). reflexivity.
Qed.

(** C2, on the code.  The temperature [1.2.3] is matched by the sensor
    pattern and is no number: the scan of the pairs keeps it as text under
    [temp], the scan of the temperatures raises, and the exception leaves the
    parsing of the line and of the log. *)
Theorem sensor_value_raises :
  findall_groups temp_pattern "extruder: temp=1.2.3" = [("extruder", "1.2.3")] /\
  py_float "1.2.3" = None /\
  PyDict.get "temp"
    (fold_left kv_store (findall_groups kv_pattern "extruder: temp=1.2.3") [])
  = Some (VStr "1.2.3") /\
  parse_line init 1 "Stats 1.0: extruder: temp=1.2.3" = Raise ValueError /\
  parse_log ["Stats 1.0: extruder: temp=1.2.3"] = Raise ValueError.
Proof.
  repeat split; reflexivity.
Qed.

(** C8, on the code.  On the content of the claim the temperature and the
    PWM value of the extruder are recorded, and the pairs [temp], [target]
    and [pwm] themselves; the target of the extruder is not, for the
    pattern of the targets wants [target=] right after the name of the
    sensor, where this content has [temp=]. *)
Theorem extruder_target_not_recorded (timestamp : float) (line_number : nat) :
  exists snapshot,
    stats_dict_of timestamp line_number "extruder: temp=205.3 target=210.0 pwm=0.45"
    = Ok snapshot /\
    PyDict.get "extruder_temp" snapshot = Some (VFloat f_205_3) /\
    PyDict.get "extruder_pwm" snapshot = Some (VFloat f_0_45) /\
    PyDict.get "target" snapshot = Some (VFloat 210%float) /\
    PyDict.get "extruder_target" snapshot = None /\
    findall_groups target_pattern "extruder: temp=205.3 target=210.0 pwm=0.45" = [].
Proof.
  eexists. split; [vm_compute; reflexivity|].
  repeat split; reflexivity.
Qed.

(** With the target first, as in [extruder: target=210.0 temp=205.3], it is
    the temperature that is not recorded. *)
Lemma extruder_temp_not_recorded (timestamp : float) (line_number : nat) :
  exists snapshot,
    stats_dict_of timestamp line_number "extruder: target=210.0 temp=205.3 pwm=0.45"
    = Ok snapshot /\
    PyDict.get "extruder_target" snapshot = Some (VFloat 210%float) /\
    PyDict.get "extruder_pwm" snapshot = Some (VFloat f_0_45) /\
    PyDict.get "extruder_temp" snapshot = None.
Proof.
  eexists. split; [vm_compute; reflexivity|].
  repeat split; reflexivity.
Qed.

(** A later scan overwrites what an earlier scan stored under the same
    key. *)
Lemma sensor_store_last_wins (suffix sensor v : string) (f : float)
      (d : PyDict.t value) :
  py_float v = Some f ->
  exists d', sensor_store suffix d (sensor, v) = Ok d' /\
             PyDict.get (sensor ++ suffix) d' = Some (VFloat f).
Proof.
  intros H. unfold sensor_store. rewrite H. eexists. split; [reflexivity|].
  apply get_set_eq.
Qed.

(** ** The trend of a metric *)

Section PerformanceReport.
Variable series_mean : list float -> float.
Variable series_std : list float -> float.

(** With two values or more the trend is never [stable]: it is
    [decreasing] whenever the last value does not exceed the first. *)
Lemma trend_not_increasing (values : list float) :
  (2 <= List.length values)%nat ->
  ltb (iloc_first values) (iloc_last values) = false ->
  trend values = "decreasing".
Proof.
  intros Hlen Hlt. unfold trend. rewrite Hlt.
  destruct (Nat.ltb_spec 1 (List.length values)); [reflexivity | lia].
Qed.

Lemma trend_increasing_iff (values : list float) :
  trend values = "increasing" <->
  ltb (iloc_first values) (iloc_last values) = true.
Proof.
  unfold trend. destruct (ltb (iloc_first values) (iloc_last values)).
  - split; reflexivity.
  - destruct (1 <? List.length values)%nat; split; discriminate.
Qed.

(** C1, on the code.  Two snapshots with the same [freq]: the metric has
    two values, the first and the last are equal, and the performance report
    gives the trend [decreasing]. *)
Theorem equal_ends_reported_decreasing :
  exists st s metrics temps mcus m,
    parse_log ["Stats 1.0: freq=5"; "Stats 2.0: freq=5"] = Ok st /\
    series "freq" (stats_data st) = Ok [5%float; 5%float] /\
    generate_performance_report series_mean series_std st
    = Ok (Report s metrics temps mcus) /\
    PyDict.get "freq" metrics = Some m /\
    mr_trend m = "decreasing".
Proof.
  do 6 eexists.
  split; [vm_compute; reflexivity|].
  split; [vm_compute; reflexivity|].
  split; [vm_compute; reflexivity|].
  split; reflexivity.
Qed.

(** ** Runtime and frequency *)

(** In the performance report both are the integer 0 when there is one
    snapshot. *)
Lemma report_summary_single (d : PyDict.t value) :
  report_summary [d]
  = Ok {| total_runtime := PyInt 0; total_stats_entries := 1;
          stats_frequency := PyInt 0 |}.
Proof. reflexivity. Qed.

(** C5, on the code.  A log with one snapshot: the performance report gives
    the runtime 0 and the frequency 0, and the health report gives the
    runtime 0 and divides 1 by it, which is the frequency infinity. *)
Theorem single_snapshot_frequency :
  exists st s metrics temps mcus,
    parse_log ["Stats 1.0: freq=5"] = Ok st /\
    List.length (stats_data st) = 1%nat /\
    generate_performance_report series_mean series_std st
    = Ok (Report s metrics temps mcus) /\
    total_runtime s = PyInt 0 /\
    stats_frequency s = PyInt 0 /\
    generate_health_report series_mean st
    = Ok [Title; Rule; McuHeading;
          PerformanceHeading; RuntimeLine 0%float; FrequencyLine infinity;
          ErrorHeading; NoErrorsLine; CommunicationHeading;
          RecommendationsHeading; RecommendationLine 1 rec_healthy;
          GeneratedLine].
Proof.
  do 5 eexists.
  split; [vm_compute; reflexivity|].
  split; [reflexivity|].
  split; [vm_compute; reflexivity|].
  repeat split; reflexivity.
Qed.

End PerformanceReport.

(** ** The recommendations of the health report *)

Lemma no_rec_app (a b : list report_line) :
  no_rec a -> no_rec b -> no_rec (a ++ b).
Proof.
  intros Ha Hb i t H. apply in_app_or in H. destruct H; [eapply Ha | eapply Hb]; eauto.
Qed.

Lemma get_In {V : Type} (k : string) (d : PyDict.t V) (v : V) :
  PyDict.get k d = Some v -> In v (map snd d).
Proof.
  induction d as [|[k' v'] r IH]; simpl; [discriminate|].
  destruct (String.eqb k k').
  - intros H. injection H as ->. now left.
  - intros H. right. now apply IH.
Qed.

Lemma column_numeric (name : string) (rows : list (PyDict.t value)) :
  numeric_rows rows = true ->
  is_numeric (dropna (column name rows)) = true.
Proof.
  unfold numeric_rows, column.
  induction rows as [|d rows IH]; simpl; [reflexivity|].
  rewrite andb_true_iff. intros [Hd Hrows].
  specialize (IH Hrows).
  destruct (PyDict.get name d) as [v|] eqn:E; [|exact IH].
  apply get_In in E.
  unfold is_numeric in Hd. rewrite forallb_forall in Hd. specialize (Hd v E).
  destruct v as [f|z|s]; [|simpl; exact IH|discriminate].
  destruct (is_nan f); [exact IH | simpl; exact IH].
Qed.

Lemma to_floats_ok (vs : list value) :
  is_numeric vs = true -> exists fs, to_floats vs = Ok fs.
Proof.
  induction vs as [|v vs IH]; simpl; [eauto|].
  destruct v as [f|z|s]; simpl; try discriminate; intros H;
    destruct (IH H) as [fs ->]; simpl; eauto.
Qed.

Lemma series_ok (name : string) (rows : list (PyDict.t value)) :
  numeric_rows rows = true -> exists fs, series name rows = Ok fs.
Proof.
  intros H. apply to_floats_ok. now apply column_numeric.
Qed.

Lemma numbered_In (recs : list string) :
  forall k i t, In (RecommendationLine i t) (numbered k recs) -> In t recs.
Proof.
  induction recs as [|r recs IH]; simpl; intros k i t H; [exact H|].
  destruct H as [H|H]; [injection H as _ ->; now left | right; eapply IH; eauto].
Qed.

Lemma In_numbered (recs : list string) :
  forall k t, In t recs -> exists i, In (RecommendationLine i t) (numbered k recs).
Proof.
  induction recs as [|r recs IH]; simpl; intros k t H; [contradiction|].
  destruct H as [->|H].
  - exists k. now left.
  - destruct (IH (S k) t H) as [i Hi]. exists i. now right.
Qed.

Section HealthReport.
Variable series_mean : list float -> float.

Lemma mcu_lines_no_rec (m : PyDict.t mcu_info) : no_rec (mcu_lines m).
Proof.
  induction m as [|[name info] m IH]; [no_rec_list|].
  intros i t H. simpl in H.
  repeat (destruct H as [H|H]; [discriminate|]). exact (IH i t H).
Qed.

Lemma error_lines_no_rec (errs : list error_entry) : no_rec (error_lines errs).
Proof.
  unfold error_lines. destruct (nonempty errs); [|no_rec_list].
  intros i t H.
  apply in_app_or in H. destruct H as [H|H].
  - apply in_map_iff in H. destruct H as [[ty c] [H _]]. discriminate.
  - apply in_app_or in H. destruct H as [H|H].
    + destruct H as [H|[]]. discriminate.
    + apply in_map_iff in H. destruct H as [e [H _]]. discriminate.
Qed.

Lemma load_lines_no_rec (rows : list (PyDict.t value)) (l : list report_line) :
  load_lines series_mean rows = Ok l -> no_rec l.
Proof.
  unfold load_lines. destruct (in_columns "sysload" rows).
  - destruct (series "sysload" rows) as [fs|e]; cbn [bind]; [|discriminate].
    intros H. injection H as <-.
    destruct (ltb 1 (series_max fs)); no_rec_list.
  - intros H. injection H as <-. no_rec_list.
Qed.

Lemma memory_lines_no_rec (rows : list (PyDict.t value)) (l : list report_line) :
  memory_lines series_mean rows = Ok l -> no_rec l.
Proof.
  unfold memory_lines. destruct (in_columns "memavail" rows).
  - destruct (series "memavail" rows) as [fs|e]; cbn [bind]; [|discriminate].
    intros H. injection H as <-.
    destruct (ltb (series_min fs) 100000); no_rec_list.
  - intros H. injection H as <-. no_rec_list.
Qed.

Lemma performance_lines_no_rec (rows : list (PyDict.t value)) (l : list report_line) :
  performance_lines series_mean rows = Ok l -> no_rec l.
Proof.
  unfold performance_lines. destruct (nonempty rows).
  - destruct (series "timestamp" rows) as [ts|e]; cbn [bind]; [|discriminate].
    destruct (load_lines series_mean rows) as [l1|e] eqn:E1; cbn [bind]; [|discriminate].
    destruct (memory_lines series_mean rows) as [l2|e] eqn:E2; cbn [bind]; [|discriminate].
    intros H. injection H as <-.
    intros i t Hin. simpl in Hin.
    repeat (destruct Hin as [Hin|Hin]; [discriminate|]).
    apply in_app_or in Hin.
    destruct Hin as [Hin|Hin];
      [eapply load_lines_no_rec | eapply memory_lines_no_rec]; eauto.
  - intros H. injection H as <-. no_rec_list.
Qed.

Lemma communication_lines_no_rec (rows : list (PyDict.t value)) (l : list report_line) :
  communication_lines rows = Ok l -> no_rec l.
Proof.
  unfold communication_lines. destruct (nonempty rows).
  - destruct (in_columns "rx_error" rows).
    + destruct (series "rx_error" rows) as [rx|e]; cbn [bind]; [|discriminate].
      destruct (in_columns "tx_error" rows).
      * destruct (series "tx_error" rows) as [tx|e]; cbn [bind]; [|discriminate].
        intros H. injection H as <-.
        match goal with |- context [if ?c then _ else _] => destruct c end; no_rec_list.
      * cbn [bind]. intros H. injection H as <-.
        match goal with |- context [if ?c then _ else _] => destruct c end; no_rec_list.
    + intros H. injection H as <-. no_rec_list.
  - intros H. injection H as <-. no_rec_list.
Qed.

Lemma temperature_line_no_rec (rows : list (PyDict.t value)) (c : string)
      (l : list report_line) :
  temperature_line series_mean rows c = Ok l -> no_rec l.
Proof.
  unfold temperature_line.
  destruct (nonempty (dropna (column c rows))).
  - destruct (to_floats (dropna (column c rows))) as [fs|e]; cbn [bind]; [|discriminate].
    intros H. injection H as <-.
    repeat match goal with |- context [if ?c then _ else _] => destruct c end;
      no_rec_list.
  - intros H. injection H as <-. no_rec_list.
Qed.

Lemma temperature_fold_no_rec (rows : list (PyDict.t value)) (cols : list string) :
  forall acc ls,
    no_rec acc ->
    foldM (fun acc c => l <- temperature_line series_mean rows c ;; Ok (acc ++ l)%list)
          cols acc = Ok ls ->
    no_rec ls.
Proof.
  induction cols as [|c cols IH]; simpl; intros acc ls Hacc H.
  - now injection H as <-.
  - destruct (temperature_line series_mean rows c) as [l|e] eqn:E; cbn [bind] in H;
      [|discriminate].
    apply (IH (acc ++ l)%list ls); [|exact H].
    apply no_rec_app; [exact Hacc | eapply temperature_line_no_rec; eauto].
Qed.

Lemma temperature_lines_no_rec (rows : list (PyDict.t value)) (l : list report_line) :
  temperature_lines series_mean rows = Ok l -> no_rec l.
Proof.
  unfold temperature_lines.
  destruct (nonempty (if nonempty rows then temp_columns rows else [])).
  - destruct (foldM _ _ _) as [ls|e] eqn:E; cbn [bind]; [|discriminate].
    intros H. injection H as <-.
    intros i t [H|H]; [discriminate|].
    revert i t H. eapply temperature_fold_no_rec; [|exact E]. no_rec_list.
  - intros H. injection H as <-. no_rec_list.
Qed.
End HealthReport.

Section Recommendations.
Variable series_mean : list float -> float.

Lemma performance_lines_ok (rows : list (PyDict.t value)) :
  numeric_rows rows = true ->
  exists l, performance_lines series_mean rows = Ok l.
Proof.
  intros H. unfold performance_lines, load_lines, memory_lines.
  destruct (nonempty rows); [|eauto].
  destruct (series_ok "timestamp" rows H) as [ts ->].
  destruct (series_ok "sysload" rows H) as [sl ->].
  destruct (series_ok "memavail" rows H) as [ma ->].
  destruct (in_columns "sysload" rows), (in_columns "memavail" rows);
    cbn [bind]; eauto.
Qed.

Lemma communication_lines_ok (rows : list (PyDict.t value)) :
  numeric_rows rows = true ->
  exists l, communication_lines rows = Ok l.
Proof.
  intros H. unfold communication_lines.
  destruct (nonempty rows); [|eauto].
  destruct (series_ok "rx_error" rows H) as [rx ->].
  destruct (series_ok "tx_error" rows H) as [tx ->].
  destruct (in_columns "rx_error" rows), (in_columns "tx_error" rows);
    cbn [bind]; eauto.
Qed.

Lemma temperature_line_ok (rows : list (PyDict.t value)) (c : string) :
  numeric_rows rows = true ->
  exists l, temperature_line series_mean rows c = Ok l.
Proof.
  intros H. unfold temperature_line.
  destruct (to_floats_ok _ (column_numeric c rows H)) as [fs ->].
  destruct (nonempty (dropna (column c rows))); cbn [bind]; eauto.
Qed.

Lemma temperature_fold_ok (rows : list (PyDict.t value)) (cols : list string) :
  numeric_rows rows = true ->
  forall acc,
  exists ls,
    foldM (fun acc c => l <- temperature_line series_mean rows c ;; Ok (acc ++ l)%list)
          cols acc = Ok ls.
Proof.
  intros H. induction cols as [|c cols IH]; simpl; intros acc; [eauto|].
  destruct (temperature_line_ok rows c H) as [l ->]. cbn [bind]. apply IH.
Qed.

Lemma temperature_lines_ok (rows : list (PyDict.t value)) :
  numeric_rows rows = true ->
  exists l, temperature_lines series_mean rows = Ok l.
Proof.
  intros H. unfold temperature_lines.
  destruct (nonempty (if nonempty rows then temp_columns rows else [])); [|eauto].
  destruct (temperature_fold_ok rows (if nonempty rows then temp_columns rows else [])
                                H []) as [ls ->].
  cbn [bind]. eauto.
Qed.

Lemma recommendations_ok (self : analyzer) :
  numeric_rows (stats_data self) = true ->
  exists recs, recommendations series_mean self = Ok recs.
Proof.
  intros H. unfold recommendations.
  destruct (nonempty (stats_data self)); [|eauto].
  destruct (series_ok "sysload" _ H) as [sl ->].
  destruct (series_ok "memavail" _ H) as [ma ->].
  destruct (series_ok "rx_error" _ H) as [rx ->].
  destruct (in_columns "sysload" (stats_data self)),
           (in_columns "memavail" (stats_data self)),
           (in_columns "rx_error" (stats_data self)); cbn [bind]; eauto.
Qed.

(** Without a snapshot no rule is considered, whatever the errors. *)
Lemma no_snapshot_no_rule (self : analyzer) :
  stats_data self = [] ->
  recommendation_lines series_mean self = Ok [RecommendationLine 1 rec_healthy].
Proof.
  intros H. unfold recommendation_lines, recommendations. now rewrite H.
Qed.

(** The rule of the errors, next to the three others. *)
Lemma recommendations_shape (self : analyzer) (recs : list string) :
  stats_data self <> [] ->
  recommendations series_mean self = Ok recs ->
  exists r1 r2 r4,
    recs = (r1 ++ r2 ++
            (if (10 <? List.length (errors self))%nat then [rec_errors] else [])
            ++ r4)%list /\
    (r1 = [] \/ r1 = [rec_load]) /\
    (r2 = [] \/ r2 = [rec_memory]) /\
    (r4 = [] \/ r4 = [rec_cables]).
Proof.
  intros Hne. unfold recommendations.
  destruct (stats_data self) as [|d rows] eqn:Erows; [congruence|].
  cbn [nonempty].
  set (all := d :: rows).
  destruct (if in_columns "sysload" all
            then fs <- series "sysload" all ;;
                 Ok (if ltb load_threshold (series_mean fs) then [rec_load] else [])
            else Ok []) as [r1|e] eqn:E1; cbn [bind]; [|discriminate].
  destruct (if in_columns "memavail" all
            then fs <- series "memavail" all ;;
                 Ok (if ltb (series_min fs) 200000 then [rec_memory] else [])
            else Ok []) as [r2|e] eqn:E2; cbn [bind]; [|discriminate].
  destruct (if in_columns "rx_error" all
            then fs <- series "rx_error" all ;;
                 Ok (if ltb 5 (sub (series_max fs) (series_min fs))
                     then [rec_cables] else [])
            else Ok []) as [r4|e] eqn:E4; cbn [bind]; [|discriminate].
  intros H. injection H as <-.
  exists r1, r2, r4. split; [reflexivity|].
  split; [|split].
  - destruct (in_columns "sysload" all); [|injection E1 as <-; now left].
    destruct (series "sysload" all) as [fs|e]; cbn [bind] in E1; [|discriminate].
    injection E1 as <-. destruct (ltb load_threshold (series_mean fs)); auto.
  - destruct (in_columns "memavail" all); [|injection E2 as <-; now left].
    destruct (series "memavail" all) as [fs|e]; cbn [bind] in E2; [|discriminate].
    injection E2 as <-. destruct (ltb (series_min fs) 200000); auto.
  - destruct (in_columns "rx_error" all); [|injection E4 as <-; now left].
    destruct (series "rx_error" all) as [fs|e]; cbn [bind] in E4; [|discriminate].
    injection E4 as <-. destruct (ltb 5 (sub (series_max fs) (series_min fs))); auto.
Qed.

Lemma health_report_ok (self : analyzer) :
  numeric_rows (stats_data self) = true ->
  exists lines, generate_health_report series_mean self = Ok lines.
Proof.
  intros H. unfold generate_health_report, recommendation_lines.
  destruct (performance_lines_ok _ H) as [perf ->].
  destruct (communication_lines_ok _ H) as [comm ->].
  destruct (temperature_lines_ok _ H) as [temp ->].
  destruct (recommendations_ok _ H) as [recs ->].
  cbn [bind]. eauto.
Qed.

(** The recommendations of a report that is produced are the lines that
    [recommendation_lines] gives. *)
Lemma health_report_recommendations (self : analyzer) (lines : list report_line) :
  generate_health_report series_mean self = Ok lines ->
  exists recs,
    recommendations series_mean self = Ok recs /\
    forall i t,
      In (RecommendationLine i t) lines <->
      In (RecommendationLine i t)
         (numbered 1 (if nonempty recs then recs else [rec_healthy])).
Proof.
  unfold generate_health_report, recommendation_lines.
  destruct (performance_lines series_mean (stats_data self)) as [perf|e] eqn:Ep;
    cbn [bind]; [|discriminate].
  destruct (communication_lines (stats_data self)) as [comm|e] eqn:Ec;
    cbn [bind]; [|discriminate].
  destruct (temperature_lines series_mean (stats_data self)) as [temp|e] eqn:Et;
    cbn [bind]; [|discriminate].
  destruct (recommendations series_mean self) as [recs|e] eqn:Er;
    cbn [bind]; [|discriminate].
  intros H. injection H as <-.
  exists recs. split; [reflexivity|].
  intros i t.
  pose proof (mcu_lines_no_rec (mcu_configs self) i t) as Hm.
  pose proof (performance_lines_no_rec _ _ _ Ep i t) as Hp.
  pose proof (error_lines_no_rec (errors self) i t) as He.
  pose proof (communication_lines_no_rec _ _ Ec i t) as Hc.
  pose proof (temperature_lines_no_rec _ _ _ Et i t) as Ht.
  repeat first [rewrite in_app_iff | progress cbn [In]].
  split.
  - intros H. repeat (destruct H as [H|H]; try discriminate; try contradiction).
    exact H.
  - intros H. tauto.
Qed.

(** C3, as the code has it.  The four rules are considered when the log has
    a snapshot, and only then.  For an analyzer with a snapshot and more than
    ten errors: the health report is produced whenever the snapshots hold
    numbers only, and a report that is produced holds the recommendation to
    review the configuration and does not hold the line that the system
    appears healthy. *)
Theorem many_errors_recommendation (self : analyzer) :
  stats_data self <> [] ->
  (10 < List.length (errors self))%nat ->
  (numeric_rows (stats_data self) = true ->
   exists lines, generate_health_report series_mean self = Ok lines) /\
  (forall lines,
      generate_health_report series_mean self = Ok lines ->
      (exists i, In (RecommendationLine i rec_errors) lines) /\
      (forall i, ~ In (RecommendationLine i rec_healthy) lines)).
Proof.
  intros Hne Herr. split; [apply health_report_ok|].
  intros lines H.
  destruct (health_report_recommendations self lines H) as [recs [Hrecs Hiff]].
  destruct (recommendations_shape self recs Hne Hrecs) as [r1 [r2 [r4 [-> [H1 [H2 H4]]]]]].
  apply Nat.ltb_lt in Herr. rewrite Herr in Hiff.
  assert (Hin : In rec_errors (r1 ++ r2 ++ [rec_errors] ++ r4)%list).
  { rewrite !in_app_iff. right. right. left. now left. }
  assert (Hnonempty : nonempty (r1 ++ r2 ++ [rec_errors] ++ r4)%list = true).
  { destruct (r1 ++ r2 ++ [rec_errors] ++ r4)%list; [contradiction | reflexivity]. }
  rewrite Hnonempty in Hiff.
  split.
  - destruct (In_numbered _ 1%nat _ Hin) as [i Hi]. exists i. now apply Hiff.
  - intros i Hi. apply Hiff in Hi. apply numbered_In in Hi.
    rewrite !in_app_iff in Hi.
    destruct H1 as [-> | ->], H2 as [-> | ->], H4 as [-> | ->]; simpl in Hi;
      repeat (destruct Hi as [Hi|Hi]; try discriminate; try contradiction).
Qed.
End Recommendations.

Lemma many_errors_recommendation_witness :
  stats_data busy_state <> [] /\
  (10 < List.length (errors busy_state))%nat /\
  (numeric_rows (stats_data busy_state) = true ->
   exists lines, generate_health_report fold_mean busy_state = Ok lines) /\
  (forall lines,
      generate_health_report fold_mean busy_state = Ok lines ->
      (exists i, In (RecommendationLine i rec_errors) lines) /\
      (forall i, ~ In (RecommendationLine i rec_healthy) lines)).
Proof.
  assert (H1 : stats_data busy_state <> []) by (vm_compute; discriminate).
  assert (H2 : (10 < List.length (errors busy_state))%nat) by (vm_compute; lia).
  split; [exact H1|]. split; [exact H2|].
  exact (many_errors_recommendation fold_mean busy_state H1 H2).
Defined.

(** The claim that the rule of the errors stands by itself fails on a log
    with eleven errors and no snapshot: the report has the line that the
    system appears healthy, and no recommendation to review the
    configuration. *)
Lemma many_errors_no_snapshot_healthy :
  exists st,
    parse_log (repeat "Timer too close: MCU error" 11) = Ok st /\
    stats_data st = [] /\
    List.length (errors st) = 11%nat /\
    forall series_mean,
    exists lines,
      generate_health_report series_mean st = Ok lines /\
      In (RecommendationLine 1 rec_healthy) lines /\
      forall i, ~ In (RecommendationLine i rec_errors) lines.
Proof.
  eexists. split; [vm_compute; reflexivity|].
  split; [reflexivity|]. split; [reflexivity|].
  intros series_mean. eexists. split; [vm_compute; reflexivity|].
  split.
  - simpl. tauto.
  - intros i H. simpl in H.
    repeat (destruct H as [H|H]; [discriminate|]). exact H.
Qed.

(** * Further properties of the parser and of the reports *)

(** ** The combinators of the patterns *)

Lemma all_chars_app (p : ascii -> bool) (a b : string) :
  all_chars p (a ++ b) = (all_chars p a && all_chars p b)%bool.
Proof.
  induction a as [|c a IH]; simpl; [reflexivity|].
  now rewrite IH, andb_assoc.
Qed.

Section Combinators.
Context {A : Type}.

(** What a match of a greedy run took is a run of the class. *)
Lemma star_greedy_inv (p : ascii -> bool) (s : string) :
  forall (k : string -> string -> option A) (a : A),
    star_greedy p s k = Some a ->
    exists cap rest,
      s = cap ++ rest /\ all_chars p cap = true /\ k cap rest = Some a.
Proof.
  induction s as [|c r IH]; intros k a; simpl.
  - intros H. now exists "", "".
  - destruct (p c) eqn:Ep.
    + destruct (star_greedy p r (fun cap rest => k (String c cap) rest)) as [a'|] eqn:E.
      * intros H. injection H as ->.
        destruct (IH _ _ E) as [cap [rest [-> [Hall Hk]]]].
        exists (String c cap), rest. simpl. now rewrite Ep, Hall.
      * intros H. now exists "", (String c r).
    + intros H. now exists "", (String c r).
Qed.

Lemma plus_greedy_inv (p : ascii -> bool) (s : string)
      (k : string -> string -> option A) (a : A) :
  plus_greedy p s k = Some a ->
  exists cap rest,
    s = cap ++ rest /\ cap <> "" /\ all_chars p cap = true /\ k cap rest = Some a.
Proof.
  unfold plus_greedy. destruct s as [|c r]; [discriminate|].
  destruct (p c) eqn:Ep; [|discriminate].
  intros H. destruct (star_greedy_inv _ _ _ _ H) as [cap [rest [-> [Hall Hk]]]].
  exists (String c cap), rest. simpl. rewrite Ep, Hall.
  repeat split; [discriminate | exact Hk].
Qed.

Lemma opt_greedy_inv (c : ascii) (s : string)
      (k : string -> string -> option A) (a : A) :
  opt_greedy c s k = Some a ->
  exists cap rest,
    s = cap ++ rest /\ (cap = "" \/ cap = String c "") /\ k cap rest = Some a.
Proof.
  unfold opt_greedy. destruct s as [|d r].
  - intros H. exists "", "". auto.
  - destruct (Ascii.eqb c d) eqn:E.
    + apply Ascii.eqb_eq in E. subst d.
      destruct (k (String c "") r) as [a'|] eqn:Ek.
      * intros H. injection H as ->. exists (String c ""), r. auto.
      * intros H. exists "", (String c r). auto.
    + intros H. exists "", (String d r). auto.
Qed.

Lemma star_lazy_inv (p : ascii -> bool) (s : string) :
  forall (k : string -> string -> option A) (a : A),
    star_lazy p s k = Some a ->
    exists cap rest,
      s = cap ++ rest /\ all_chars p cap = true /\ k cap rest = Some a.
Proof.
  induction s as [|c r IH]; intros k a; simpl.
  - destruct (k "" "") as [a'|] eqn:Ek; [|discriminate].
    intros H. injection H as ->. now exists "", "".
  - destruct (k "" (String c r)) as [a'|] eqn:Ek.
    + intros H. injection H as ->. now exists "", (String c r).
    + destruct (p c) eqn:Ep; [|discriminate].
      intros H. destruct (IH _ _ H) as [cap [rest [-> [Hall Hk]]]].
      exists (String c cap), rest. simpl. now rewrite Ep, Hall.
Qed.

(** A greedy run takes the whole run when what follows is accepted. *)
Lemma star_greedy_run (p : ascii -> bool) (cap : string) :
  forall (rest : string) (k : string -> string -> option A) (a : A),
    all_chars p cap = true ->
    stops p rest ->
    k cap rest = Some a ->
    star_greedy p (cap ++ rest) k = Some a.
Proof.
  induction cap as [|c cap IH]; intros rest k a Hall Hstop Hk.
  - simpl. destruct rest as [|d r]; simpl; [exact Hk|].
    simpl in Hstop. now rewrite Hstop.
  - simpl in Hall. apply andb_true_iff in Hall. destruct Hall as [Hc Hall].
    simpl. rewrite Hc.
    now rewrite (IH rest (fun cap0 r0 => k (String c cap0) r0) a Hall Hstop Hk).
Qed.

Lemma plus_greedy_run (p : ascii -> bool) (cap rest : string)
      (k : string -> string -> option A) (a : A) :
  cap <> "" ->
  all_chars p cap = true ->
  stops p rest ->
  k cap rest = Some a ->
  plus_greedy p (cap ++ rest) k = Some a.
Proof.
  intros Hne Hall Hstop Hk. destruct cap as [|c cap]; [contradiction|].
  simpl in Hall. apply andb_true_iff in Hall. destruct Hall as [Hc Hall].
  simpl. rewrite Hc.
  exact (star_greedy_run p cap rest (fun cap0 r0 => k (String c cap0) r0) a Hall Hstop Hk).
Qed.

(** A lazy run stops at the first place where what follows is accepted. *)
Lemma star_lazy_run (p : ascii -> bool) (cap : string) :
  forall (rest : string) (k : string -> string -> option A) (a : A),
    all_chars p cap = true ->
    (forall c1 c2, c2 <> "" -> cap = c1 ++ c2 -> k c1 (c2 ++ rest) = None) ->
    k cap rest = Some a ->
    star_lazy p (cap ++ rest) k = Some a.
Proof.
  induction cap as [|c cap IH]; intros rest k a Hall Hearly Hk.
  - simpl. destruct rest as [|d r]; simpl; now rewrite Hk.
  - simpl in Hall. apply andb_true_iff in Hall. destruct Hall as [Hc Hall].
    assert (H0 : k "" (String c cap ++ rest) = None)
      by (apply (Hearly "" (String c cap)); [discriminate | reflexivity]).
    simpl in H0. simpl. rewrite H0, Hc. apply IH; [exact Hall| |exact Hk].
    intros c1 c2 Hne Heq. apply (Hearly (String c c1) c2 Hne). simpl. now rewrite Heq.
Qed.
End Combinators.

Lemma all_chars_weaken (p q : ascii -> bool) (s : string) :
  (forall c, p c = true -> q c = true) ->
  all_chars p s = true -> all_chars q s = true.
Proof.
  intros Hpq. induction s as [|c s IH]; simpl; [reflexivity|].
  rewrite !andb_true_iff. intros [Hc Hs]. split; [now apply Hpq | now apply IH].
Qed.

(** ** The lines that load an MCU *)

(** X1.  A line made of [Loaded MCU '], a name, [' ], a count, [ commands (], a
    version information and [)] is recognised, whatever follows it, with
    this name, this count and this version information. *)
Theorem loaded_line_recognised (X N V tail : string) :
  X <> "" -> all_chars is_word X = true ->
  N <> "" -> all_chars is_digit N = true ->
  all_chars is_version_char V = true ->
  mcu_load_pattern
    ("Loaded MCU '" ++ X ++ "' " ++ N ++ " commands (" ++ V ++ ")" ++ tail)
  = Some (X, N, V).
Proof.
  intros HX HXw HN HNd HV.
  unfold mcu_load_pattern, then_lit. rewrite lit_app.
  apply plus_greedy_run; [exact HX | exact HXw | reflexivity |].
  rewrite lit_app.
  apply plus_greedy_run; [exact HN | exact HNd | reflexivity |].
  rewrite lit_app.
  apply star_lazy_run.
  - apply (all_chars_weaken is_version_char); [|exact HV].
    intros c Hc. unfold is_version_char in Hc. now apply andb_true_iff in Hc.
  - intros c1 c2 Hne Heq. destruct c2 as [|d c2]; [contradiction|].
    rewrite Heq, all_chars_app in HV. apply andb_true_iff in HV.
    destruct HV as [_ HV]. simpl in HV. apply andb_true_iff in HV.
    destruct HV as [Hd _]. unfold is_version_char in Hd.
    apply andb_true_iff in Hd. destruct Hd as [_ Hd].
    cbn [append lit]. destruct (Ascii.eqb ")" d) eqn:E; [|reflexivity].
    apply Ascii.eqb_eq in E. subst d. discriminate.
  - now rewrite lit_app.
Qed.

Lemma loaded_line_recognised_witness :
  "mcu" <> "" /\ all_chars is_word "mcu" = true /\
  "945" <> "" /\ all_chars is_digit "945" = true /\
  all_chars is_version_char "v0.11.0-101-g1a2b3c4" = true /\
  mcu_load_pattern "Loaded MCU 'mcu' 945 commands (v0.11.0-101-g1a2b3c4) ok"
  = Some ("mcu", "945", "v0.11.0-101-g1a2b3c4").
Proof.
  assert (H1 : "mcu" <> "") by discriminate.
  assert (H2 : all_chars is_word "mcu" = true) by reflexivity.
  assert (H3 : "945" <> "") by discriminate.
  assert (H4 : all_chars is_digit "945" = true) by reflexivity.
  assert (H5 : all_chars is_version_char "v0.11.0-101-g1a2b3c4" = true) by reflexivity.
  repeat (split; [assumption|]).
  exact (loaded_line_recognised "mcu" "945" "v0.11.0-101-g1a2b3c4" " ok" H1 H2 H3 H4 H5).
Defined.

Lemma load_line_not_config (line : string) (m : string * string * string) :
  mcu_load_pattern line = Some m -> mcu_config_pattern line = None.
Proof.
  intros H. destruct (mcu_config_pattern line) as [m'|] eqn:E; [|reflexivity].
  rewrite (config_line_not_load _ _ E) in H. discriminate.
Qed.

Lemma load_line_not_configured (line : string) (m : string * string * string) :
  mcu_load_pattern line = Some m -> mcu_configured_pattern line = None.
Proof.
  intros H. destruct (mcu_configured_pattern line) as [m'|] eqn:E; [|reflexivity].
  rewrite (configured_line_not_load _ _ E) in H. discriminate.
Qed.

Lemma parse_mcu_info_load (self : analyzer) (line : string) (n : nat)
      (m : string * string * string) :
  mcu_load_pattern line = Some m ->
  _parse_mcu_info self line n = mcu_load self line n.
Proof.
  intros H. unfold _parse_mcu_info, mcu_config, mcu_configured.
  rewrite (load_line_not_config _ _ H), (load_line_not_configured _ _ H).
  now destruct (mcu_load self line n).
Qed.

(** X2.  A line that loads the MCU [X] with a count that [int] accepts gives
    [X] a fresh descriptor, with the count, the version information and the
    number of this line and with neither configuration nor moves, also when
    [X] had a descriptor with them; the descriptors of the other MCUs stay,
    and the timeline gets one entry.  With a count that [int] refuses, of
    more than 4300 digits, the call raises [ValueError]. *)
Theorem load_line_resets (self : analyzer) (line : string) (n : nat)
        (X N V : string) :
  mcu_load_pattern line = Some (X, N, V) ->
  match py_int N with
  | Some count =>
      exists self',
        _parse_mcu_info self line n = Ok self' /\
        PyDict.get X (mcu_configs self')
        = Some {| commands := count; version_info := V; mcu_line_number := n;
                  config := None; moves := None |} /\
        (forall Y, Y <> X ->
                   PyDict.get Y (mcu_configs self') = PyDict.get Y (mcu_configs self)) /\
        timeline self'
        = (timeline self ++
           [{| tl_line := n; tl_type := "mcu_load"; tl_mcu := X;
               tl_message := line |}])%list
  | None => _parse_mcu_info self line n = Raise ValueError
  end.
Proof.
  intros H. rewrite (parse_mcu_info_load _ _ _ _ H).
  unfold mcu_load. rewrite H.
  destruct (py_int N) as [count|]; [|reflexivity].
  eexists. split; [reflexivity|]. cbn [mcu_configs timeline].
  split; [apply get_set_eq|]. split; [|reflexivity].
  intros Y HY. now apply get_set_ne.
Qed.

(** ** The section headers *)

(** X5.  The lines that are section headers: an opening bracket, a name that is
    not empty and has no closing bracket, a closing bracket, and nothing
    more but the line feed that may end the text. *)
Theorem section_header_iff (line name : string) :
  config_section_pattern line = Some name <->
  name <> "" /\ all_chars is_name_char name = true /\
  (line = "[" ++ name ++ "]" \/ line = "[" ++ name ++ "]" ++ newline).
Proof.
  unfold config_section_pattern. split.
  - intros H. apply then_lit_some in H. destruct H as [r [Hl H]].
    apply lit_inv in Hl. subst line.
    apply plus_greedy_inv in H. destruct H as [cap [rest [-> [Hne [Hall H]]]]].
    apply then_lit_some in H. destruct H as [r' [Hl H]].
    apply lit_inv in Hl. subst rest.
    unfold at_end in H.
    destruct (String.eqb r' "" || String.eqb r' (String "010" ""))%bool eqn:E;
      [|discriminate].
    injection H as <-. split; [exact Hne|]. split; [exact Hall|].
    apply orb_true_iff in E. destruct E as [E|E]; apply String.eqb_eq in E; subst r'.
    + now left.
    + now right.
  - intros [Hne [Hall Hline]].
    destruct Hline as [-> | ->]; unfold then_lit; rewrite lit_app;
      (apply plus_greedy_run; [exact Hne | exact Hall | reflexivity | reflexivity]).
Qed.

(** ** The timestamp of a statistics line *)

Lemma append_nil (s : string) : s ++ "" = s.
Proof.
  induction s as [|c s IH]; simpl; [reflexivity | now rewrite IH].
Qed.

Lemma rev_string_app (s : string) :
  forall acc, rev_string acc s = rev_string "" s ++ acc.
Proof.
  induction s as [|c s IH]; intros acc; simpl; [reflexivity|].
  rewrite (IH (String c acc)), (IH (String c "")), append_assoc. reflexivity.
Qed.

Lemma rev_string_append (a b : string) :
  rev_string "" (a ++ b) = rev_string "" b ++ rev_string "" a.
Proof.
  induction a as [|c a IH]; simpl.
  - now rewrite append_nil.
  - rewrite (rev_string_app (a ++ b)), (rev_string_app a), IH, append_assoc.
    reflexivity.
Qed.

Lemma rev_string_involutive (s : string) :
  rev_string "" (rev_string "" s) = s.
Proof.
  induction s as [|c s IH]; simpl; [reflexivity|].
  rewrite (rev_string_app s), rev_string_append, IH. reflexivity.
Qed.

Lemma all_chars_rev (p : ascii -> bool) (s : string) :
  all_chars p (rev_string "" s) = all_chars p s.
Proof.
  induction s as [|c s IH]; simpl; [reflexivity|].
  rewrite (rev_string_app s), all_chars_app, IH. simpl.
  rewrite andb_true_r. apply andb_comm.
Qed.

Lemma lstrip_no_space (s : string) :
  all_chars (fun c => negb (is_space c)) s = true -> lstrip s = s.
Proof.
  destruct s as [|c s]; simpl; [reflexivity|].
  rewrite andb_true_iff. intros [Hc _].
  destruct (is_space c); [discriminate | reflexivity].
Qed.

(** [strip] leaves a text without white space as it is. *)
Lemma strip_no_space (s : string) :
  all_chars (fun c => negb (is_space c)) s = true -> strip s = s.
Proof.
  intros H. unfold strip.
  rewrite (lstrip_no_space s H).
  rewrite lstrip_no_space; [apply rev_string_involutive|].
  now rewrite all_chars_rev.
Qed.

Lemma digit_cases (c : ascii) :
  is_digit c = true ->
  c = "0"%char \/ c = "1"%char \/ c = "2"%char \/ c = "3"%char \/ c = "4"%char \/
  c = "5"%char \/ c = "6"%char \/ c = "7"%char \/ c = "8"%char \/ c = "9"%char.
Proof.
  destruct c as [[] [] [] [] [] [] [] []]; intros H;
    try discriminate H; tauto.
Qed.

Lemma digit_not_space (c : ascii) :
  is_digit c = true -> negb (is_space c) = true.
Proof.
  intros H. destruct (digit_cases c H) as [->|[->|[->|[->|[->|[->|[->|[->|[->| ->]]]]]]]]];
    reflexivity.
Qed.

Lemma digit_not_underscore (c : ascii) :
  is_digit c = true -> Ascii.eqb c "_" = false.
Proof.
  intros H. destruct (digit_cases c H) as [->|[->|[->|[->|[->|[->|[->|[->|[->| ->]]]]]]]]];
    reflexivity.
Qed.

(** A [digitpart] reads a run of digits up to a character that is neither
    a digit nor an underscore. *)
Lemma digitpart_more_run (D : string) :
  forall rest,
    all_chars is_digit D = true ->
    stops (fun c => (is_digit c || Ascii.eqb c "_")%bool) rest ->
    digitpart_more (D ++ rest) = (D, rest).
Proof.
  induction D as [|c D IH]; intros rest Hall Hstop.
  - simpl. destruct rest as [|d r]; [reflexivity|].
    simpl in Hstop. apply orb_false_iff in Hstop. destruct Hstop as [Hd Hu].
    simpl. now rewrite Hd, Hu.
  - simpl in Hall. apply andb_true_iff in Hall. destruct Hall as [Hc Hall].
    simpl. rewrite Hc, (IH rest Hall Hstop). reflexivity.
Qed.

Lemma digitpart_run (D rest : string) :
  all_chars is_digit D = true ->
  stops (fun c => (is_digit c || Ascii.eqb c "_")%bool) rest ->
  digitpart (D ++ rest) = (D, rest).
Proof.
  intros Hall Hstop. destruct D as [|c D].
  - simpl. destruct rest as [|d r]; [reflexivity|].
    simpl in Hstop. apply orb_false_iff in Hstop. destruct Hstop as [Hd _].
    simpl. now rewrite Hd.
  - simpl in Hall. apply andb_true_iff in Hall. destruct Hall as [Hc Hall].
    simpl. rewrite Hc, (digitpart_more_run D rest Hall Hstop). reflexivity.
Qed.

Lemma digitpart_all (D : string) :
  all_chars is_digit D = true -> digitpart D = (D, "").
Proof.
  intros H. rewrite <- (append_nil D) at 1. now apply digitpart_run.
Qed.

(** [float] of a text that starts with a digit and has no white space is
    its reading as a decimal number, without sign. *)
Lemma py_float_digit_first (c : ascii) (r : string) :
  is_digit c = true ->
  all_chars (fun c => negb (is_space c)) r = true ->
  py_float (String c r) = decimal false (String c r).
Proof.
  intros Hc Hr. unfold py_float.
  rewrite strip_no_space; [|simpl; now rewrite (digit_not_space c Hc), Hr].
  destruct (digit_cases c Hc) as [->|[->|[->|[->|[->|[->|[->|[->|[->| ->]]]]]]]]];
    reflexivity.
Qed.

(** [float] accepts the digits, with or without a point and digits after
    it. *)
Lemma py_float_timestamp (d1 dot d2 : string) :
  d1 <> "" -> all_chars is_digit d1 = true ->
  dot = "" \/ dot = "." ->
  all_chars is_digit d2 = true ->
  exists f, py_float (d1 ++ dot ++ d2) = Some f.
Proof.
  intros Hne H1 Hdot H2.
  assert (Hns : forall s, all_chars is_digit s = true ->
                          all_chars (fun c => negb (is_space c)) s = true).
  { intros s. apply all_chars_weaken. exact digit_not_space. }
  destruct d1 as [|c d1]; [contradiction|].
  simpl in H1. apply andb_true_iff in H1. destruct H1 as [Hc H1].
  change (String c d1 ++ dot ++ d2) with (String c (d1 ++ dot ++ d2)).
  rewrite py_float_digit_first; [|exact Hc|].
  2:{ rewrite !all_chars_app, (Hns _ H1), (Hns _ H2).
      destruct Hdot as [-> | ->]; reflexivity. }
  unfold decimal.
  destruct Hdot as [-> | ->].
  - change (String c (d1 ++ "" ++ d2)) with (String c (d1 ++ d2)).
    rewrite digitpart_all; [|simpl; now rewrite Hc, all_chars_app, H1, H2].
    cbv beta iota. eexists. reflexivity.
  - change (String c (d1 ++ "." ++ d2)) with (String c d1 ++ String "." d2).
    rewrite digitpart_run; [|simpl; now rewrite Hc, H1|reflexivity].
    cbv beta iota.
    rewrite (digitpart_all d2 H2).
    cbv beta iota. eexists. reflexivity.
Qed.

Lemma stats_timestamp_shape (line timestamp stats_content : string) :
  stats_pattern line = Some (timestamp, stats_content) ->
  exists d1 dot d2 rest,
    timestamp = d1 ++ dot ++ d2 /\
    line = "Stats " ++ timestamp ++ ": " ++ stats_content ++ rest /\
    d1 <> "" /\ all_chars is_digit d1 = true /\
    (dot = "" \/ dot = ".") /\ all_chars is_digit d2 = true /\
    all_chars is_dot stats_content = true.
Proof.
  unfold stats_pattern. intros H.
  apply then_lit_some in H. destruct H as [r [Hl H]]. apply lit_inv in Hl. subst line.
  apply plus_greedy_inv in H. destruct H as [d1 [r1 [-> [Hne [H1 H]]]]].
  apply opt_greedy_inv in H. destruct H as [dot [r2 [-> [Hdot H]]]].
  apply star_greedy_inv in H. destruct H as [d2 [r3 [-> [H2 H]]]].
  apply then_lit_some in H. destruct H as [r4 [Hl H]]. apply lit_inv in Hl. subst r3.
  apply star_greedy_inv in H. destruct H as [content [rest [-> [Hc H]]]].
  injection H as <- <-.
  exists d1, dot, d2, rest.
  split; [reflexivity|]. split.
  - now rewrite !append_assoc.
  - destruct Hdot as [-> | ->]; auto 10.
Qed.

Lemma py_float_timestamp_of (line timestamp stats_content : string) :
  stats_pattern line = Some (timestamp, stats_content) ->
  exists ts, py_float timestamp = Some ts.
Proof.
  intros H.
  destruct (stats_timestamp_shape _ _ _ H)
    as [d1 [dot [d2 [rest [-> [_ [Hne [H1 [Hdot [H2 _]]]]]]]]]].
  now apply py_float_timestamp.
Qed.

(** X8.  A line that the pattern of the statistics lines recognises starts with
    [Stats ], the timestamp, [: ] and the content; the content has no line
    feed, and the timestamp always converts: [float(timestamp)] does not
    raise. *)
Theorem stats_timestamp_converts (line timestamp stats_content : string) :
  stats_pattern line = Some (timestamp, stats_content) ->
  (exists ts, py_float timestamp = Some ts) /\
  (exists rest, line = "Stats " ++ timestamp ++ ": " ++ stats_content ++ rest) /\
  all_chars is_dot stats_content = true.
Proof.
  intros H.
  destruct (stats_timestamp_shape _ _ _ H)
    as [d1 [dot [d2 [rest [-> [Hline [Hne [H1 [Hdot [H2 Hc]]]]]]]]]].
  split; [now apply py_float_timestamp|].
  split; [now exists rest | exact Hc].
Qed.

(** ** When the parsing raises *)

Lemma sensor_loop_exn (suffix : string) (ms : list (string * string)) :
  forall d e,
    sensor_loop suffix ms d = Raise e ->
    e = ValueError /\ exists sensor v, In (sensor, v) ms /\ py_float v = None.
Proof.
  induction ms as [|[s0 v0] ms IH]; intros d e; simpl; [discriminate|].
  destruct (py_float v0) as [f|] eqn:E0; cbn [bind].
  - intros H. destruct (IH _ _ H) as [He [sensor [v [Hin Hv]]]].
    split; [exact He|]. exists sensor, v. auto.
  - intros H. injection H as <-. split; [reflexivity|]. exists s0, v0. auto.
Qed.

Lemma stats_dict_of_raise (ts : float) (n : nat) (stats_content : string) (e : exn) :
  stats_dict_of ts n stats_content = Raise e <->
  e = ValueError /\ bad_sensor_value stats_content.
Proof.
  unfold stats_dict_of, bad_sensor_value.
  set (d1 := fold_left kv_store (findall_groups kv_pattern stats_content) _).
  split.
  - destruct (sensor_loop "_temp" _ d1) as [d2|e2] eqn:E2; cbn [bind].
    + destruct (sensor_loop "_target" _ d2) as [d3|e3] eqn:E3; cbn [bind].
      * intros H. destruct (sensor_loop_exn _ _ _ _ H) as [He [s [v [Hin Hv]]]].
        split; [exact He|]. exists s, v. auto.
      * intros H. injection H as <-.
        destruct (sensor_loop_exn _ _ _ _ E3) as [He [s [v [Hin Hv]]]].
        split; [exact He|]. exists s, v. auto.
    + intros H. injection H as <-.
      destruct (sensor_loop_exn _ _ _ _ E2) as [He [s [v [Hin Hv]]]].
      split; [exact He|]. exists s, v. auto.
  - intros [-> [s [v [Hin Hv]]]].
    destruct (sensor_loop "_temp" _ d1) as [d2|e2] eqn:E2; cbn [bind].
    + destruct (sensor_loop "_target" _ d2) as [d3|e3] eqn:E3; cbn [bind].
      * destruct Hin as [Hin|[Hin|Hin]].
        -- rewrite (sensor_loop_raises_in "_temp" _ (ex_intro _ s (ex_intro _ v (conj Hin Hv)))) in E2.
           discriminate.
        -- rewrite (sensor_loop_raises_in "_target" _ (ex_intro _ s (ex_intro _ v (conj Hin Hv)))) in E3.
           discriminate.
        -- apply sensor_loop_raises_in. now exists s, v.
      * now destruct (sensor_loop_exn _ _ _ _ E3) as [-> _].
    + now destruct (sensor_loop_exn _ _ _ _ E2) as [-> _].
Qed.

Lemma load_line_not_empty (line : string) (m : string * string * string) :
  mcu_load_pattern line = Some m -> String.eqb line "" = false.
Proof.
  unfold mcu_load_pattern. intros H.
  apply then_lit_some in H. destruct H as [r [H _]].
  apply lit_first in H. destruct H as [s' ->]. reflexivity.
Qed.

(** [_parse_mcu_info] raises on a count that [int] refuses, of a line that
    loads an MCU or of a moves line for an MCU that is on record, and then
    only. *)
Lemma parse_mcu_info_raise (self : analyzer) (line : string) (n : nat) (e : exn) :
  _parse_mcu_info self line n = Raise e <->
  e = ValueError /\
  (long_load_line line \/
   exists X, long_moves_line X line /\ PyDict.get X (mcu_configs self) <> None).
Proof.
  unfold long_load_line, long_moves_line.
  destruct (mcu_load_pattern line) as [[[X N] V]|] eqn:El.
  - rewrite (parse_mcu_info_load _ _ _ _ El). unfold mcu_load. rewrite El.
    destruct (py_int N) as [c|] eqn:Ec.
    + split; [discriminate|].
      intros [_ [[X' [N' [V' [H1 H2]]]]|[X' [[N' [H1 _]] _]]]].
      * injection H1 as <- <- <-. congruence.
      * rewrite (load_line_not_configured _ _ El) in H1. discriminate.
    + split.
      * intros H. injection H as <-. split; [reflexivity|]. left. now exists X, N, V.
      * now intros [-> _].
  - destruct (mcu_configured_pattern line) as [[X N]|] eqn:Ec.
    + rewrite (parse_mcu_info_configured _ _ _ _ Ec).
      unfold mcu_configured. rewrite Ec.
      destruct (PyDict.get X (mcu_configs self)) as [d|] eqn:Eg.
      * destruct (py_int N) as [m|] eqn:Em.
        -- split; [discriminate|].
           intros [_ [[X' [N' [V' [H1 _]]]]|[X' [[N' [H1 H2]] _]]]];
             [discriminate|]. injection H1 as <- <-. congruence.
        -- split.
           ++ intros H. injection H as <-. split; [reflexivity|]. right.
              exists X. split; [now exists N | congruence].
           ++ now intros [-> _].
      * split; [discriminate|].
        intros [_ [[X' [N' [V' [H1 _]]]]|[X' [[N' [H1 _]] H2]]]];
          [discriminate|]. injection H1 as <- <-. congruence.
    + unfold _parse_mcu_info, mcu_load, mcu_configured. rewrite El. cbn [bind].
      rewrite Ec. split; [discriminate|].
      intros [_ [[X' [N' [V' [H1 _]]]]|[X' [[N' [H1 _]] _]]]]; discriminate.
Qed.

(** A count of 4300 digits is read, a count of 4301 digits raises. *)
Lemma long_count_raises :
  parse_line init 1 ("Loaded MCU 'x' " ++ digits_run 4301 ++ " commands (v)")
  = Raise ValueError /\
  exists s,
    parse_line init 1 ("Loaded MCU 'x' " ++ digits_run 4300 ++ " commands (v)")
    = Ok s.
Proof.
  split; [vm_compute; reflexivity | vm_compute; eexists; reflexivity].
Qed.

(** A line raises when one of its counts is refused by [int], or when it is
    a statistics line with a sensor value that is no number, and then only;
    the exception is the [ValueError] of [int] or of [float]. *)
Lemma parse_line_raise (self : analyzer) (n : nat) (raw : string) (e : exn) :
  parse_line self n raw = Raise e <->
  e = ValueError /\
  (long_load_line (strip raw) \/
   (exists X, long_moves_line X (strip raw) /\
              PyDict.get X (mcu_configs self) <> None) \/
   bad_stats_line (strip raw)).
Proof.
  unfold parse_line. set (line := strip raw).
  split.
  - destruct (String.eqb line ""); [discriminate|].
    destruct (_parse_mcu_info self line n) as [s1|e1] eqn:E1; cbn [bind].
    + unfold _parse_stats_line, bad_stats_line.
      destruct (stats_pattern line) as [[ts c]|] eqn:Ep; cbn [bind]; [|discriminate].
      destruct (py_float_timestamp_of line ts c Ep) as [f ->].
      destruct (stats_dict_of f n c) as [d|e'] eqn:Ed; cbn [bind]; [discriminate|].
      intros H. injection H as <-.
      apply stats_dict_of_raise in Ed. destruct Ed as [-> Hbad].
      split; [reflexivity|]. right. right. now exists ts, c.
    + intros H. injection H as <-.
      apply parse_mcu_info_raise in E1. destruct E1 as [-> [H|H]]; auto.
  - intros [-> [Hl|[Hm|[ts [c [Ep Hbad]]]]]].
    + assert (E1 : _parse_mcu_info self line n = Raise ValueError)
        by (apply parse_mcu_info_raise; auto).
      destruct Hl as [X [N [V [Hl _]]]].
      now rewrite (load_line_not_empty _ _ Hl), E1.
    + assert (E1 : _parse_mcu_info self line n = Raise ValueError)
        by (apply parse_mcu_info_raise; auto).
      destruct Hm as [X [[N [Hm _]] _]].
      now rewrite (configured_line_not_empty _ _ Hm), E1.
    + rewrite (stats_line_not_empty _ _ Ep), (parse_mcu_info_stats _ _ _ _ Ep).
      cbn [bind]. unfold _parse_stats_line. rewrite Ep.
      destruct (py_float ts) as [f|]; [|reflexivity].
      assert (Ed : stats_dict_of f n c = Raise ValueError)
        by (apply stats_dict_of_raise; auto).
      now rewrite Ed.
Qed.

(** ** A statistics line is searched for the keywords as well *)




(** ** The lines that make the parsing raise *)

Lemma parse_line_raising (self : analyzer) (n : nat) (raw : string) :
  (exists e, parse_line self n raw = Raise e) <->
  raising_line (mcu_configs self) [] raw.
Proof.
  unfold raising_line. split.
  - intros [e H]. apply parse_line_raise in H.
    destruct H as [_ [H|[[X [H1 H2]]|H]]].
    + right. now left.
    + right. right. exists X. auto.
    + now left.
  - intros [H|[H|[X [H1 [H2|[r [[] _]]]]]]];
      exists ValueError; apply parse_line_raise; (split; [reflexivity|]); eauto.
Qed.

(** ** The keys of a dictionary *)

Lemma get_none_keys {V : Type} (k : string) (d : PyDict.t V) :
  PyDict.get k d = None <-> ~ In k (PyDict.keys d).
Proof.
  induction d as [|[k' v'] r IH]; simpl.
  - tauto.
  - destruct (String.eqb k k') eqn:E.
    + apply String.eqb_eq in E. subst k'. split; [discriminate | tauto].
    + apply String.eqb_neq in E. rewrite IH. split.
      * intros H [H'|H']; [congruence | contradiction].
      * tauto.
Qed.

Lemma keys_set_absent {V : Type} (k : string) (v : V) (d : PyDict.t V) :
  PyDict.get k d = None ->
  PyDict.keys (PyDict.set k v d) = (PyDict.keys d ++ [k])%list.
Proof.
  induction d as [|[k' v'] r IH]; simpl; [reflexivity|].
  destruct (String.eqb k k') eqn:E; [discriminate|].
  intros H. simpl. now rewrite (IH H).
Qed.

Lemma keys_set_cases {V : Type} (k : string) (v : V) (d : PyDict.t V) :
  PyDict.keys (PyDict.set k v d) = PyDict.keys d \/
  (~ In k (PyDict.keys d) /\
   PyDict.keys (PyDict.set k v d) = (PyDict.keys d ++ [k])%list).
Proof.
  destruct (PyDict.get k d) as [v0|] eqn:E.
  - left. apply keys_set_present. congruence.
  - right. split; [now apply get_none_keys | now apply keys_set_absent].
Qed.

Lemma get_set_present_iff {V : Type} (X k : string) (v : V) (d : PyDict.t V) :
  PyDict.get X (PyDict.set k v d) <> None <-> X = k \/ PyDict.get X d <> None.
Proof.
  destruct (string_dec X k) as [->|Hne].
  - rewrite get_set_eq. split; [now left | discriminate].
  - rewrite (get_set_ne _ _ _ _ Hne). tauto.
Qed.

Lemma set_snapshot_keys (k : string) (v : value) (d : PyDict.t value) :
  snapshot_keys d -> snapshot_keys (PyDict.set k v d).
Proof.
  intros [[rest Hk] Hnd]. unfold snapshot_keys.
  destruct (keys_set_cases k v d) as [-> | [Hnot ->]].
  - split; [now exists rest | exact Hnd].
  - split.
    + exists (rest ++ [k])%list. now rewrite Hk.
    + apply NoDup_app; [exact Hnd | repeat constructor; intros [] | ].
      intros x Hx [<-|[]]. contradiction.
Qed.

Lemma kv_store_snapshot_keys (d : PyDict.t value) (kv : string * string) :
  snapshot_keys d -> snapshot_keys (kv_store d kv).
Proof.
  intros H. unfold kv_store. destruct kv as [key v].
  destruct (String.eqb v "active" || String.eqb v "inactive")%bool;
    [|destruct (py_float v)]; now apply set_snapshot_keys.
Qed.

Lemma kv_fold_snapshot_keys (kvs : list (string * string)) :
  forall d, snapshot_keys d -> snapshot_keys (fold_left kv_store kvs d).
Proof.
  induction kvs as [|kv kvs IH]; intros d H; simpl; [exact H|].
  apply IH. now apply kv_store_snapshot_keys.
Qed.

Lemma sensor_loop_snapshot_keys (suffix : string) (ms : list (string * string)) :
  forall d d',
    snapshot_keys d -> sensor_loop suffix ms d = Ok d' -> snapshot_keys d'.
Proof.
  induction ms as [|[s v] ms IH]; intros d d' H; simpl.
  - intros E. now injection E as <-.
  - destruct (py_float v) as [f|]; cbn [bind]; [|discriminate].
    apply IH. now apply set_snapshot_keys.
Qed.

Lemma stats_dict_of_snapshot_keys (ts : float) (n : nat) (c : string)
      (d : PyDict.t value) :
  stats_dict_of ts n c = Ok d -> snapshot_keys d.
Proof.
  unfold stats_dict_of.
  set (d1 := fold_left kv_store (findall_groups kv_pattern c) _).
  assert (H1 : snapshot_keys d1).
  { apply kv_fold_snapshot_keys. split; [now exists [] |].
    repeat constructor; simpl; intuition discriminate. }
  destruct (sensor_loop "_temp" _ d1) as [d2|e] eqn:E2; cbn [bind]; [|discriminate].
  destruct (sensor_loop "_target" _ d2) as [d3|e] eqn:E3; cbn [bind]; [|discriminate].
  intros E4.
  eapply sensor_loop_snapshot_keys; [|exact E4].
  eapply sensor_loop_snapshot_keys; [|exact E3].
  eapply sensor_loop_snapshot_keys; [|exact E2]. exact H1.
Qed.

(** ** What a line adds *)

Lemma first_pattern_sound (line p : string) :
  first_pattern error_patterns line = Some p ->
  In (lower p) keywords /\ occurs_ci (lower p) line.
Proof.
  unfold error_patterns. cbn [first_pattern].
  repeat match goal with
         | |- context [re_search_ci ?q line] =>
             let E := fresh "E" in
             destruct (re_search_ci q line) eqn:E;
             [intros H; injection H as <-; apply re_search_ci_spec in E;
              split; [simpl; tauto | apply occurs_ci_lower; exact E] |]
         end.
  discriminate.
Qed.

Lemma parse_line_errors (self s' : analyzer) (n : nat) (raw : string) :
  parse_line self n raw = Ok s' ->
  errors s' = errors self \/
  exists kw,
    In kw keywords /\ occurs_ci kw (strip raw) /\
    errors s' =
    (errors self ++
     [{| err_line_number := n; err_type := kw; err_message := strip raw |}])%list.
Proof.
  unfold parse_line. set (line := strip raw).
  destruct (String.eqb line "").
  - intros H. injection H as <-. now left.
  - destruct (_parse_mcu_info self line n) as [s1|e] eqn:E1; cbn [bind]; [|discriminate].
    destruct (_parse_stats_line s1 line n) as [s2|e] eqn:E2;
      cbn [bind]; [|discriminate].
    intros H. injection H as <-.
    assert (He : errors (_parse_config_section s2 line n) = errors self).
    { destruct (parse_config_section_frame s2 line n) as [_ [_ ->]].
      destruct (parse_stats_line_frame _ _ _ _ E2) as [_ [-> _]].
      now destruct (parse_mcu_info_frame _ _ _ _ E1) as [_ [-> _]]. }
    unfold _parse_errors_warnings.
    destruct (first_pattern error_patterns line) as [p|] eqn:Ep.
    + right. destruct (first_pattern_sound _ _ Ep) as [Hin Hocc].
      exists (lower p). cbn [errors]. rewrite He. auto.
    + left. exact He.
Qed.

Lemma parse_line_stats (self s' : analyzer) (n : nat) (raw : string) :
  parse_line self n raw = Ok s' ->
  stats_data s' = stats_data self \/
  exists timestamp stats_content ts d,
    stats_pattern (strip raw) = Some (timestamp, stats_content) /\
    py_float timestamp = Some ts /\
    stats_dict_of ts n stats_content = Ok d /\
    stats_data s' = (stats_data self ++ [d])%list.
Proof.
  unfold parse_line. set (line := strip raw).
  destruct (String.eqb line "").
  - intros H. injection H as <-. now left.
  - destruct (_parse_mcu_info self line n) as [s1|e] eqn:E1; cbn [bind]; [|discriminate].
    destruct (_parse_stats_line s1 line n) as [s2|e] eqn:E2;
      cbn [bind]; [|discriminate].
    intros H. injection H as <-.
    destruct (parse_errors_warnings_frame (_parse_config_section s2 line n) line n)
      as [-> _].
    destruct (parse_config_section_frame s2 line n) as [-> _].
    destruct (parse_mcu_info_frame _ _ _ _ E1) as [Hs1 _].
    unfold _parse_stats_line in E2.
    destruct (stats_pattern line) as [[timestamp c]|] eqn:Ep.
    + destruct (py_float timestamp) as [ts|] eqn:Et; [|discriminate].
      destruct (stats_dict_of ts n c) as [d|e] eqn:Ed; cbn [bind] in E2; [|discriminate].
      injection E2 as <-. cbn [stats_data]. rewrite Hs1.
      right. exists timestamp, c, ts, d. auto.
    + injection E2 as <-. left. exact Hs1.
Qed.

Lemma line_at_head (n : nat) (raw : string) (rest : list string) :
  line_at n (raw :: rest) (S n) raw.
Proof.
  exists 0%nat. split; [lia | reflexivity].
Qed.

Lemma line_at_tail (n number : nat) (raw r : string) (rest : list string) :
  line_at (S n) rest number r -> line_at n (raw :: rest) number r.
Proof.
  intros [k [Hk Hnth]]. exists (S k). split; [lia | exact Hnth].
Qed.

Lemma line_at_range (n number : nat) (lines : list string) (raw : string) :
  line_at n lines number raw ->
  (n < number <= n + List.length lines)%nat /\ In raw lines.
Proof.
  intros [k [-> Hnth]].
  assert (k < List.length lines)%nat by (apply nth_error_Some; congruence).
  split; [lia | eapply nth_error_In; eauto].
Qed.

(** The entries that the lines after line [n] add to the errors. *)
Lemma parse_lines_errors (lines : list string) :
  forall (self final : analyzer) (n : nat),
    parse_lines self n lines = Ok final ->
    exists new,
      errors final = (errors self ++ new)%list /\
      (List.length new <= List.length lines)%nat /\
      StronglySorted lt (map err_line_number new) /\
      Forall (fun e => exists raw, line_at n lines (err_line_number e) raw /\
                                   err_message e = strip raw) new /\
      Forall (fun e => In (err_type e) keywords /\
                       occurs_ci (err_type e) (err_message e)) new.
Proof.
  induction lines as [|raw rest IH]; intros self final n; simpl.
  - intros H. injection H as <-. exists []. rewrite app_nil_r.
    split; [reflexivity|]. split; [apply Nat.le_refl|].
    split; [constructor|]. split; constructor.
  - destruct (parse_line self (S n) raw) as [s1|e] eqn:E1; cbn [bind]; [|discriminate].
    intros H. destruct (IH _ _ _ H) as [new [Hnew [Hlen [Hsort [Hat Hty]]]]].
    assert (Hat' : Forall (fun e =>
                exists r, line_at n (raw :: rest) (err_line_number e) r /\
                          err_message e = strip r) new).
    { eapply Forall_impl; [|exact Hat]. intros e [r [He Hm]].
      exists r. split; [now apply line_at_tail | exact Hm]. }
    destruct (parse_line_errors _ _ _ _ E1) as [He|[kw [Hin [Hocc He]]]].
    + exists new. rewrite Hnew, He.
      split; [reflexivity|]. split; [lia|]. auto.
    + exists ({| err_line_number := S n; err_type := kw; err_message := strip raw |}
                :: new).
      rewrite Hnew, He, <- app_assoc.
      split; [reflexivity|]. split; [simpl; lia|]. split; [|split].
      * simpl. constructor; [exact Hsort|].
        rewrite Forall_map. eapply Forall_impl; [|exact Hat].
        intros e [r [He0 _]]. apply line_at_range in He0. simpl. lia.
      * constructor; [|exact Hat'].
        exists raw. split; [apply line_at_head | reflexivity].
      * constructor; [|exact Hty]. now split.
Qed.

Lemma stats_line_starts (line : string) (m : string * string) :
  stats_pattern line = Some m -> startswith "Stats " line = true.
Proof.
  unfold stats_pattern, startswith. intros H.
  apply then_lit_some in H. destruct H as [r [-> _]]. reflexivity.
Qed.

Lemma stats_lines_from_length (lines : list string) :
  forall n, (List.length (stats_lines_from n lines) <= List.length lines)%nat.
Proof.
  induction lines as [|raw rest IH]; intros n; simpl; [lia|].
  specialize (IH (S n)).
  destruct (startswith "Stats " (strip raw)); simpl; lia.
Qed.

(** The snapshots that the lines after line [n] add to the statistics. *)
Lemma parse_lines_stats (lines : list string) :
  forall (self final : analyzer) (n : nat),
    parse_lines self n lines = Ok final ->
    exists new,
      stats_data final = (stats_data self ++ new)%list /\
      (List.length new <= List.length (stats_lines_from n lines))%nat /\
      Forall snapshot_keys new.
Proof.
  induction lines as [|raw rest IH]; intros self final n; simpl.
  - intros H. injection H as <-. exists []. rewrite app_nil_r.
    split; [reflexivity|]. split; [apply Nat.le_refl | constructor].
  - destruct (parse_line self (S n) raw) as [s1|e] eqn:E1; cbn [bind]; [|discriminate].
    intros H. destruct (IH _ _ _ H) as [new [Hnew [Hlen Hkeys]]].
    destruct (parse_line_stats _ _ _ _ E1) as [Hs|[ts [c [f [d [Hp [Hf [Hd Hs]]]]]]]].
    + exists new. rewrite Hnew, Hs. split; [reflexivity|]. split; [|exact Hkeys].
      destruct (startswith "Stats " (strip raw)); simpl; lia.
    + exists (d :: new). rewrite Hnew, Hs, <- app_assoc.
      split; [reflexivity|]. split.
      * rewrite (stats_line_starts _ _ Hp). simpl. lia.
      * constructor; [|exact Hkeys]. eapply stats_dict_of_snapshot_keys; eauto.
Qed.

(** ** The collections grow by appending *)

(** X14.  The lines of a log that is parsed add their entries at the end of the
    errors, at most one entry a line, in the order of the lines: the line
    numbers of the new entries increase strictly, each is the number of a
    line of the log, blank lines counted, and the message is that line
    stripped.  No earlier entry is changed or removed. *)
Theorem errors_appended_in_order (self final : analyzer) (n : nat)
        (lines : list string) :
  parse_lines self n lines = Ok final ->
  exists new,
    errors final = (errors self ++ new)%list /\
    (List.length new <= List.length lines)%nat /\
    StronglySorted lt (map err_line_number new) /\
    Forall (fun e => exists raw, line_at n lines (err_line_number e) raw /\
                                 err_message e = strip raw) new.
Proof.
  intros H. destruct (parse_lines_errors lines _ _ _ H) as [new [H1 [H2 [H3 [H4 _]]]]].
  exists new. auto.
Qed.

(** X15.  Every entry of the errors of a parsed log has one of the four keywords
    in lower case as its type, and its message holds this keyword, letters
    compared without case: the four patterns in upper case never give a
    type. *)
Theorem error_entries_typed (lines : list string) (final : analyzer) :
  parse_log lines = Ok final ->
  Forall (fun e => In (err_type e) keywords /\
                   occurs_ci (err_type e) (err_message e)) (errors final).
Proof.
  unfold parse_log. intros H.
  destruct (parse_lines_errors lines _ _ _ H) as [new [H1 [_ [_ [_ H5]]]]].
  rewrite H1. exact H5.
Qed.

(** X10.  The lines of a log that is parsed add their snapshots at the end of the
    statistics, at most one snapshot a line.  Every new snapshot has the keys
    [timestamp] and [line_number], as its first two keys, and no key
    twice. *)
Theorem snapshots_appended (self final : analyzer) (n : nat) (lines : list string) :
  parse_lines self n lines = Ok final ->
  exists new,
    stats_data final = (stats_data self ++ new)%list /\
    (List.length new <= List.length lines)%nat /\
    Forall snapshot_keys new.
Proof.
  intros H. destruct (parse_lines_stats lines _ _ _ H) as [new [H1 [H2 H3]]].
  exists new. split; [exact H1|]. split; [|exact H3].
  pose proof (stats_lines_from_length lines n). lia.
Qed.

(** ** The extraction and the parsing *)

(** X17.  [extract_stats_to_file] extracts at least the lines that [parse_log]
    turns into snapshots: the number it returns is not below the number of
    snapshots, and not above the number of lines; the file it writes has
    four lines of header before the extracted lines. *)
Theorem extraction_covers_snapshots (log_file_path now : string)
        (lines : list string) (final : analyzer) :
  parse_log lines = Ok final ->
  (List.length (stats_data final)
   <= snd (extract_stats_to_file log_file_path now lines)
   <= List.length lines)%nat /\
  List.length (fst (extract_stats_to_file log_file_path now lines))
  = (4 + snd (extract_stats_to_file log_file_path now lines))%nat.
Proof.
  unfold parse_log. intros H.
  destruct (parse_lines_stats lines _ _ _ H) as [new [H1 [H2 _]]].
  cbn [extract_stats_to_file fst snd]. rewrite H1. cbn [stats_data init app].
  split; [split; [exact H2 | apply stats_lines_from_length]|].
  reflexivity.
Qed.

(** ** The names of the MCU collection *)

Lemma mcu_config_names (s : analyzer) (line X : string) :
  PyDict.get X (mcu_configs (mcu_config s line)) <> None <->
  PyDict.get X (mcu_configs s) <> None.
Proof.
  unfold mcu_config.
  destruct (mcu_config_pattern line) as [[name c]|]; [|tauto].
  destruct (PyDict.get name (mcu_configs s)) as [d|] eqn:E; [|tauto].
  cbn [with_mcu_configs mcu_configs]. rewrite get_set_present_iff.
  split; [|tauto]. intros [-> | H]; [congruence | exact H].
Qed.

Lemma mcu_configured_names (s s' : analyzer) (line X : string) :
  mcu_configured s line = Ok s' ->
  (PyDict.get X (mcu_configs s') <> None <->
   PyDict.get X (mcu_configs s) <> None).
Proof.
  unfold mcu_configured.
  destruct (mcu_configured_pattern line) as [[name c]|];
    [|intros H; injection H as <-; tauto].
  destruct (PyDict.get name (mcu_configs s)) as [d|] eqn:E;
    [|intros H; injection H as <-; tauto].
  destruct (py_int c) as [m|]; [|discriminate].
  intros H. injection H as <-.
  cbn [with_mcu_configs mcu_configs]. rewrite get_set_present_iff.
  split; [|tauto]. intros [-> | H]; [congruence | exact H].
Qed.

Lemma parse_mcu_info_names (s s' : analyzer) (line : string) (n : nat) (X : string) :
  _parse_mcu_info s line n = Ok s' ->
  (PyDict.get X (mcu_configs s') <> None <->
   PyDict.get X (mcu_configs s) <> None \/
   exists N V, mcu_load_pattern line = Some (X, N, V)).
Proof.
  unfold _parse_mcu_info. intros H.
  apply bind_ok in H. destruct H as [s1 [H1 H2]].
  rewrite (mcu_configured_names _ _ _ X H2), mcu_config_names.
  unfold mcu_load in H1.
  destruct (mcu_load_pattern line) as [[[X' N] V]|].
  - destruct (py_int N) as [c|]; [|discriminate]. injection H1 as <-.
    cbn [mcu_configs]. rewrite get_set_present_iff. split.
    + intros [-> | H]; [right; eauto | now left].
    + intros [H | [N' [V' H]]]; [now right | left; congruence].
  - injection H1 as <-.
    split; [now left | intros [H | [N' [V' H]]]; [exact H | discriminate]].
Qed.

Lemma parse_line_mcu (s s' : analyzer) (n : nat) (raw : string) :
  parse_line s n raw = Ok s' ->
  exists s1, _parse_mcu_info s (strip raw) n = Ok s1 /\
             mcu_configs s' = mcu_configs s1.
Proof.
  unfold parse_line. set (line := strip raw).
  destruct (String.eqb line "") eqn:E.
  - apply String.eqb_eq in E. rewrite E. intros H. injection H as <-.
    exists s. split; reflexivity.
  - destruct (_parse_mcu_info s line n) as [s1|e] eqn:E1; cbn [bind]; [|discriminate].
    destruct (_parse_stats_line s1 line n) as [s2|e] eqn:E2;
      cbn [bind]; [|discriminate].
    intros H. injection H as <-. exists s1. split; [reflexivity|].
    destruct (parse_errors_warnings_frame (_parse_config_section s2 line n) line n)
      as [_ [-> _]].
    destruct (parse_config_section_frame s2 line n) as [_ [-> _]].
    now destruct (parse_stats_line_frame _ _ _ _ E2) as [-> _].
Qed.

(** X4.  After the parsing, the MCUs that have a descriptor are those that had
    one before and those that a line of the log loads: a descriptor is never
    removed, and only a [Loaded MCU] line creates one. *)
Theorem mcu_names_iff (lines : list string) :
  forall (self final : analyzer) (n : nat) (X : string),
    parse_lines self n lines = Ok final ->
    (PyDict.get X (mcu_configs final) <> None <->
     PyDict.get X (mcu_configs self) <> None \/
     exists raw N V,
       In raw lines /\ mcu_load_pattern (strip raw) = Some (X, N, V)).
Proof.
  induction lines as [|raw rest IH]; intros self final n X; simpl.
  - intros H. injection H as <-. split; [now left|].
    intros [H | [raw [N [V [[] _]]]]]. exact H.
  - destruct (parse_line self (S n) raw) as [s1|e] eqn:E1; cbn [bind]; [|discriminate].
    intros H. destruct (parse_line_mcu _ _ _ _ E1) as [s0 [E0 Hc]].
    rewrite (IH _ _ _ X H), Hc, (parse_mcu_info_names _ _ _ _ X E0).
    split.
    + intros [[Hs | [N [V Hl]]] | [r [N [V [Hin Hl]]]]].
      * now left.
      * right. exists raw, N, V. auto.
      * right. exists r, N, V. auto.
    + intros [Hs | [r [N [V [[<- | Hin] Hl]]]]].
      * left. now left.
      * left. right. eauto.
      * right. exists r, N, V. auto.
Qed.

(** ** When the parsing returns *)

Lemma raising_line_step (self s1 : analyzer) (n : nat) (raw raw0 : string)
      (before : list string) :
  parse_line self n raw = Ok s1 ->
  raising_line (mcu_configs self) (raw :: before) raw0 <->
  raising_line (mcu_configs s1) before raw0.
Proof.
  intros E. destruct (parse_line_mcu _ _ _ _ E) as [s0 [E0 Hc]].
  unfold raising_line. rewrite Hc.
  split; (intros [H|[H|[X [H1 H2]]]];
          [now left | right; now left | right; right; exists X; split; [exact H1|]]).
  - rewrite (parse_mcu_info_names _ _ _ _ X E0).
    destruct H2 as [H2|[r [[<-|Hin] Hl]]].
    + left. now left.
    + left. right. exact Hl.
    + right. eauto.
  - rewrite (parse_mcu_info_names _ _ _ _ X E0) in H2.
    destruct H2 as [[H2|H2]|[r [Hin Hl]]].
    + now left.
    + right. exists raw. split; [now left | exact H2].
    + right. exists r. split; [now right | exact Hl].
Qed.

(** X12.  The parsing of a log returns exactly when no line of the log is a
    statistics line with a sensor value that is no number, a line that
    loads an MCU with a count that [int] refuses, or a moves line with such
    a count for an MCU that was on record before the log or that an earlier
    line of the log loads.  Such a line always makes the parsing raise, and
    whatever the parsing raises is a [ValueError]. *)
Theorem parse_returns_iff (lines : list string) :
  forall (self : analyzer) (n : nat),
    ((exists final, parse_lines self n lines = Ok final) <->
     (forall before raw after,
         lines = (before ++ raw :: after)%list ->
         ~ raising_line (mcu_configs self) before raw)) /\
    (forall e, parse_lines self n lines = Raise e -> e = ValueError).
Proof.
  induction lines as [|raw rest IH]; intros self n; simpl.
  - split; [split|discriminate].
    + intros _ before raw after H. destruct before; discriminate.
    + eauto.
  - destruct (parse_line self (S n) raw) as [s1|e] eqn:E; cbn [bind].
    + destruct (IH s1 (S n)) as [IH1 IH2]. split; [|exact IH2].
      rewrite IH1. split.
      * intros H before raw0 after Heq.
        destruct before as [|b before]; simpl in Heq; injection Heq as <- ->.
        -- intros Hr. apply (parse_line_raising self (S n)) in Hr.
           destruct Hr as [e He]. rewrite E in He. discriminate.
        -- rewrite (raising_line_step _ _ _ _ _ _ E).
           exact (H before raw0 after eq_refl).
      * intros H before raw0 after ->.
        rewrite <- (raising_line_step _ _ _ _ _ _ E).
        exact (H (raw :: before) raw0 after eq_refl).
    + split.
      * split; [intros [f Hf]; discriminate|].
        intros H. exfalso. apply (H [] raw rest eq_refl).
        apply (parse_line_raising self (S n)). eauto.
      * intros e' H. injection H as <-.
        apply parse_line_raise in E. tauto.
Qed.

(** ** The sections that are recorded *)

(** X6.  A section that is recorded after the parsing and was not recorded
    before comes from a header line of the log: it has the number of that
    line, blank lines counted, and its content is empty. *)
Theorem recorded_section_origin (lines : list string) :
  forall (self final : analyzer) (n : nat) (name : string) (sec : config_section),
    parse_lines self n lines = Ok final ->
    PyDict.get name (config_sections final) = Some sec ->
    PyDict.get name (config_sections self) = Some sec \/
    (sec_content sec = [] /\
     exists raw,
       line_at n lines (sec_line_number sec) raw /\
       config_section_pattern (strip raw) = Some name).
Proof.
  induction lines as [|raw rest IH]; intros self final n name sec; simpl.
  - intros H. injection H as <-. now left.
  - destruct (parse_line self (S n) raw) as [s1|e] eqn:E1; cbn [bind]; [|discriminate].
    intros H Hget.
    destruct (IH _ _ _ _ _ H Hget) as [H1 | [Hc [r [Hat Hp]]]].
    + rewrite (parse_line_sections _ _ _ _ E1) in H1. unfold section_step in H1.
      destruct (config_section_pattern (strip raw)) as [name'|] eqn:Ep; [|now left].
      destruct (string_dec name name') as [<- | Hne].
      * rewrite get_set_eq in H1. injection H1 as <-.
        right. split; [reflexivity|]. exists raw.
        split; [apply line_at_head | exact Ep].
      * rewrite (get_set_ne _ _ _ _ Hne) in H1. now left.
    + right. split; [exact Hc|]. exists r. split; [now apply line_at_tail | exact Hp].
Qed.

(** ** The tracked metrics *)

Lemma track_metric_get (d : PyDict.t value) (pm : PyDict.t (list value))
      (k key : string) :
  PyDict.get key (track_metric d pm k) =
  if String.eqb key k then
    match PyDict.get k d with
    | Some v =>
        Some (match PyDict.get k pm with Some l => l | None => [] end ++ [v])%list
    | None => PyDict.get k pm
    end
  else PyDict.get key pm.
Proof.
  unfold track_metric.
  destruct (String.eqb key k) eqn:E.
  - apply String.eqb_eq in E. subst key.
    destruct (PyDict.get k d); [apply get_set_eq | reflexivity].
  - apply String.eqb_neq in E.
    destruct (PyDict.get k d); [now apply get_set_ne | reflexivity].
Qed.

Lemma fold_track_other (d : PyDict.t value) (names : list string) (key : string) :
  ~ In key names ->
  forall pm,
    PyDict.get key (fold_left (track_metric d) names pm) = PyDict.get key pm.
Proof.
  induction names as [|k names IH]; intros Hnot pm; simpl; [reflexivity|].
  rewrite IH; [|intros H; apply Hnot; now right].
  rewrite track_metric_get.
  destruct (String.eqb key k) eqn:E; [|reflexivity].
  apply String.eqb_eq in E. subst k. exfalso. apply Hnot. now left.
Qed.

Lemma fold_track_get (d : PyDict.t value) (names : list string) (key : string) :
  NoDup names -> In key names ->
  forall pm,
    match PyDict.get key (fold_left (track_metric d) names pm) with
    | Some l => l
    | None => []
    end
    = (match PyDict.get key pm with Some l => l | None => [] end ++
       match PyDict.get key d with Some v => [v] | None => [] end)%list.
Proof.
  induction names as [|k names IH]; intros Hnd Hin pm; [contradiction|].
  inversion Hnd as [|k' names' Hk Hnd']; subst. simpl.
  destruct (string_dec key k) as [-> | Hne].
  - rewrite (fold_track_other d names k Hk), track_metric_get, String.eqb_refl.
    destruct (PyDict.get k d); [reflexivity | now rewrite app_nil_r].
  - destruct Hin as [-> | Hin]; [contradiction|].
    rewrite (IH Hnd' Hin), track_metric_get.
    apply String.eqb_neq in Hne. now rewrite Hne.
Qed.

Lemma parse_line_tracked (self s' : analyzer) (n : nat) (raw : string) :
  parse_line self n raw = Ok s' ->
  (stats_data s' = stats_data self /\
   performance_metrics s' = performance_metrics self) \/
  exists d,
    stats_data s' = (stats_data self ++ [d])%list /\
    performance_metrics s'
    = fold_left (track_metric d) metric_names (performance_metrics self).
Proof.
  unfold parse_line. set (line := strip raw).
  destruct (String.eqb line "").
  - intros H. injection H as <-. now left.
  - destruct (_parse_mcu_info self line n) as [s1|e] eqn:E1; cbn [bind]; [|discriminate].
    destruct (parse_mcu_info_frame _ _ _ _ E1) as [Hs1 _].
    pose proof (parse_mcu_info_metrics _ _ _ _ E1) as Hp1.
    destruct (_parse_stats_line s1 line n) as [s2|e] eqn:E2;
      cbn [bind]; [|discriminate].
    intros H. injection H as <-.
    assert (H3 : stats_data (_parse_errors_warnings (_parse_config_section s2 line n) line n)
                 = stats_data s2 /\
                 performance_metrics
                   (_parse_errors_warnings (_parse_config_section s2 line n) line n)
                 = performance_metrics s2).
    { unfold _parse_errors_warnings, _parse_config_section. break_match; simpl; auto. }
    destruct H3 as [-> ->].
    unfold _parse_stats_line in E2.
    destruct (stats_pattern line) as [[timestamp c]|].
    + destruct (py_float timestamp) as [ts|]; [|discriminate].
      destruct (stats_dict_of ts n c) as [d|e]; cbn [bind] in E2; [|discriminate].
      injection E2 as <-. cbn [stats_data performance_metrics].
      rewrite Hs1, Hp1. right. now exists d.
    + injection E2 as <-. now left.
Qed.

Lemma parse_lines_tracked (key : string) (lines : list string) :
  In key metric_names ->
  forall (self final : analyzer) (n : nat),
    tracked key self = col_values key (stats_data self) ->
    parse_lines self n lines = Ok final ->
    tracked key final = col_values key (stats_data final).
Proof.
  intros Hkey.
  induction lines as [|raw rest IH]; intros self final n Hinv; simpl.
  - intros H. now injection H as <-.
  - destruct (parse_line self (S n) raw) as [s1|e] eqn:E1; cbn [bind]; [|discriminate].
    apply IH.
    destruct (parse_line_tracked _ _ _ _ E1) as [[Hs Hp] | [d [Hs Hp]]].
    + unfold tracked. now rewrite Hs, Hp.
    + unfold tracked, col_values. rewrite Hs, Hp, flat_map_app.
      rewrite fold_track_get; [|repeat constructor; simpl; intuition discriminate|exact Hkey].
      fold (tracked key self). rewrite Hinv. simpl. now rewrite app_nil_r.
Qed.

(** X11.  For each of the four metrics [freq], [sysload], [cputime] and
    [memavail], the list that the parsing keeps in [performance_metrics]
    is the column of the metric in the statistics: the values of the
    snapshots that have the metric, in the order of the snapshots. *)
Theorem tracked_metrics_mirror (lines : list string) (final : analyzer)
        (key : string) :
  parse_log lines = Ok final ->
  In key metric_names ->
  tracked key final = col_values key (stats_data final).
Proof.
  intros H Hkey. exact (parse_lines_tracked key lines Hkey init final 0 eq_refl H).
Qed.

(** ** The columns of the table *)

Lemma existsb_eqb_In (x : string) (l : list string) :
  existsb (String.eqb x) l = true <-> In x l.
Proof.
  rewrite existsb_exists. split.
  - intros [y [Hy E]]. apply String.eqb_eq in E. now subst.
  - intros H. exists x. split; [exact H | apply String.eqb_refl].
Qed.

Lemma add_column_spec (cols : list string) (k x : string) :
  In x (add_column cols k) <-> In x cols \/ x = k.
Proof.
  unfold add_column. destruct (existsb (String.eqb k) cols) eqn:E.
  - apply existsb_eqb_In in E. split; [now left | intros [H | ->]; assumption].
  - rewrite in_app_iff. simpl. intuition.
Qed.

Lemma add_column_NoDup (cols : list string) (k : string) :
  NoDup cols -> NoDup (add_column cols k).
Proof.
  intros H. unfold add_column. destruct (existsb (String.eqb k) cols) eqn:E; [exact H|].
  apply NoDup_app; [exact H | repeat constructor; intros [] |].
  intros x Hx [<- | []].
  apply existsb_eqb_In in Hx. congruence.
Qed.

Lemma fold_add_column_spec (ks : list string) :
  forall cols x,
    In x (fold_left add_column ks cols) <-> In x cols \/ In x ks.
Proof.
  induction ks as [|k ks IH]; intros cols x; simpl; [tauto|].
  rewrite IH, add_column_spec. intuition.
Qed.

Lemma fold_add_column_NoDup (ks : list string) :
  forall cols, NoDup cols -> NoDup (fold_left add_column ks cols).
Proof.
  induction ks as [|k ks IH]; intros cols H; simpl; [exact H|].
  apply IH. now apply add_column_NoDup.
Qed.

Lemma columns_fold_spec (rows : list (PyDict.t value)) :
  forall cols x,
    In x (fold_left (fun cols d => fold_left add_column (PyDict.keys d) cols) rows cols)
    <-> In x cols \/ exists d, In d rows /\ In x (PyDict.keys d).
Proof.
  induction rows as [|d rows IH]; intros cols x; simpl.
  - split; [now left | intros [H | [d [[] _]]]; exact H].
  - rewrite IH, fold_add_column_spec. split.
    + intros [[H | H] | [d' [Hd Hx]]]; [now left | right; eauto | right; eauto].
    + intros [H | [d' [[<- | Hd] Hx]]]; [left; now left | left; now right | right; eauto].
Qed.

Lemma columns_fold_NoDup (rows : list (PyDict.t value)) :
  forall cols,
    NoDup cols ->
    NoDup (fold_left (fun cols d => fold_left add_column (PyDict.keys d) cols) rows cols).
Proof.
  induction rows as [|d rows IH]; intros cols H; simpl; [exact H|].
  apply IH. now apply fold_add_column_NoDup.
Qed.

Lemma in_columns_iff (name : string) (rows : list (PyDict.t value)) :
  in_columns name rows = true <->
  exists d, In d rows /\ PyDict.get name d <> None.
Proof.
  unfold in_columns, columns.
  rewrite existsb_eqb_In, columns_fold_spec. split.
  - intros [[] | [d [Hd Hx]]]. exists d. split; [exact Hd|].
    intros Hnone. now apply get_none_keys in Hnone.
  - intros [d [Hd Hx]]. right. exists d. split; [exact Hd|].
    destruct (in_dec string_dec name (PyDict.keys d)) as [H | H]; [exact H|].
    apply get_none_keys in H. contradiction.
Qed.

(** The columns of the table are the keys of the snapshots, each once and
    in the order in which they are first seen: no column comes twice, and a
    name is a column exactly when some snapshot has it as a key. *)
Theorem columns_are_the_keys (rows : list (PyDict.t value)) :
  NoDup (columns rows) /\
  forall name,
    in_columns name rows = true <->
    exists d, In d rows /\ PyDict.get name d <> None.
Proof.
  split.
  - apply columns_fold_NoDup. constructor.
  - intros name. apply in_columns_iff.
Qed.

(** ** The error section of the health report *)

Lemma count_add_sum (t : string) (c : list (string * nat)) :
  list_sum (map snd (count_add t c)) = S (list_sum (map snd c)).
Proof.
  induction c as [|[t' n] c IH]; simpl; [reflexivity|].
  destruct (String.eqb t t'); simpl; [reflexivity | rewrite IH; lia].
Qed.

Lemma counter_fold_sum (types : list string) :
  forall c,
    list_sum (map snd (fold_left (fun c t => count_add t c) types c))
    = (list_sum (map snd c) + List.length types)%nat.
Proof.
  induction types as [|t types IH]; intros c; simpl; [lia|].
  rewrite IH, count_add_sum. lia.
Qed.

Lemma counts_of_count_lines (c : list (string * nat)) :
  counts_of (map (fun '(error_type, count) => ErrorCountLine error_type count) c)
  = map snd c.
Proof.
  induction c as [|[t n] c IH]; simpl; [reflexivity | now rewrite <- IH].
Qed.

Lemma counts_of_recent_lines (errs : list error_entry) :
  counts_of (map (fun e => RecentErrorLine (err_line_number e)
                                           (take 80 (err_message e) ++ "...")) errs)
  = [].
Proof.
  induction errs as [|e errs IH]; simpl; [reflexivity | exact IH].
Qed.

Lemma recents_of_count_lines (c : list (string * nat)) :
  recents_of (map (fun '(error_type, count) => ErrorCountLine error_type count) c)
  = [].
Proof.
  induction c as [|[t n] c IH]; simpl; [reflexivity | exact IH].
Qed.

Lemma recents_of_recent_lines (errs : list error_entry) :
  recents_of (map (fun e => RecentErrorLine (err_line_number e)
                                            (take 80 (err_message e) ++ "...")) errs)
  = map err_line_number errs.
Proof.
  induction errs as [|e errs IH]; simpl; [reflexivity | now rewrite <- IH].
Qed.

(** X18.  In the error section of the health report the counts of the types add
    up to the number of errors, and the recent errors are the last five
    errors, or all of them when there are fewer, in their order. *)
Theorem error_section_counts (errs : list error_entry) :
  list_sum (counts_of (error_lines errs)) = List.length errs /\
  recents_of (error_lines errs) = map err_line_number (last_n 5 errs) /\
  List.length (last_n 5 errs) = Nat.min 5 (List.length errs) /\
  exists earlier, errs = (earlier ++ last_n 5 errs)%list.
Proof.
  split; [|split; [|split]].
  - unfold error_lines. destruct errs as [|e errs]; [reflexivity|].
    cbn [nonempty]. unfold counts_of. rewrite !flat_map_app.
    fold (counts_of (map (fun '(error_type, count) => ErrorCountLine error_type count)
                         (counter (map err_type (e :: errs))))).
    fold (counts_of (map (fun e0 => RecentErrorLine (err_line_number e0)
                                                    (take 80 (err_message e0) ++ "..."))
                         (last_n 5 (e :: errs)))).
    rewrite counts_of_count_lines, counts_of_recent_lines. cbn [flat_map app].
    rewrite app_nil_r. unfold counter. rewrite counter_fold_sum.
    rewrite length_map. reflexivity.
  - unfold error_lines. destruct errs as [|e errs]; [reflexivity|].
    cbn [nonempty]. unfold recents_of. rewrite !flat_map_app.
    fold (recents_of (map (fun '(error_type, count) => ErrorCountLine error_type count)
                          (counter (map err_type (e :: errs))))).
    fold (recents_of (map (fun e0 => RecentErrorLine (err_line_number e0)
                                                     (take 80 (err_message e0) ++ "..."))
                          (last_n 5 (e :: errs)))).
    rewrite recents_of_count_lines, recents_of_recent_lines. reflexivity.
  - unfold last_n. rewrite length_skipn. lia.
  - exists (firstn (List.length errs - 5) errs). unfold last_n.
    now rewrite firstn_skipn.
Qed.

(** ** The reports as a whole *)

Lemma foldM_ok {A B : Type} (f : B -> A -> result B) (l : list A) :
  (forall b a, In a l -> exists b', f b a = Ok b') ->
  forall b, exists b', foldM f l b = Ok b'.
Proof.
  induction l as [|a l IH]; intros H b; simpl; [eauto|].
  destruct (H b a (or_introl eq_refl)) as [b' ->]. cbn [bind].
  apply IH. intros b0 a0 Ha0. apply H. now right.
Qed.

Lemma foldM_raises {A B : Type} (f : B -> A -> result B) (l : list A) (a : A) :
  In a l ->
  (forall b, exists e, f b a = Raise e) ->
  forall b, exists e, foldM f l b = Raise e.
Proof.
  induction l as [|x l IH]; intros Hin Hr b; [contradiction|]. simpl.
  destruct (f b x) as [b'|e] eqn:E; cbn [bind]; [|eauto].
  destruct Hin as [-> | Hin].
  - destruct (Hr b) as [e He]. congruence.
  - now apply IH.
Qed.

Lemma to_floats_text (vs : list value) (s : string) :
  In (VStr s) vs -> exists e, to_floats vs = Raise e.
Proof.
  induction vs as [|v vs IH]; intros H; [contradiction|].
  destruct H as [-> | H]; [simpl; eauto|].
  destruct (IH H) as [e He].
  destruct v; simpl; rewrite ?He; cbn [bind]; eauto.
Qed.

Lemma dropna_keeps_text (col : list (option value)) (s : string) :
  In (Some (VStr s)) col -> In (VStr s) (dropna col).
Proof.
  induction col as [|o col IH]; intros H; [contradiction|].
  destruct H as [-> | H]; [now left|].
  specialize (IH H).
  destruct o as [[f|z|t]|]; simpl; [destruct (is_nan f)| | |]; auto using in_cons.
Qed.

Lemma column_text (key : string) (rows : list (PyDict.t value)) :
  text_under key rows ->
  exists s, In (VStr s) (dropna (column key rows)).
Proof.
  intros [d [s [Hd Hg]]]. exists s. apply dropna_keeps_text.
  unfold column. rewrite <- Hg. now apply in_map.
Qed.

Lemma series_text (key : string) (rows : list (PyDict.t value)) :
  text_under key rows -> exists e, series key rows = Raise e.
Proof.
  intros H. destruct (column_text key rows H) as [s Hs].
  exact (to_floats_text _ s Hs).
Qed.

Lemma text_in_columns (key : string) (rows : list (PyDict.t value)) :
  text_under key rows -> in_columns key rows = true.
Proof.
  intros [d [s [Hd Hg]]]. apply in_columns_iff. exists d. split; [exact Hd | congruence].
Qed.

Section WholeReports.
Variable series_mean : list float -> float.
Variable series_std : list float -> float.

Lemma recommendations_texts (self : analyzer) (recs : list string) :
  recommendations series_mean self = Ok recs ->
  forall t, In t recs ->
            t = rec_load \/ t = rec_memory \/ t = rec_errors \/ t = rec_cables.
Proof.
  intros H t Ht.
  destruct (stats_data self) as [|d rows] eqn:E.
  - unfold recommendations in H. rewrite E in H. injection H as <-. contradiction.
  - assert (Hne : stats_data self <> []) by congruence.
    destruct (recommendations_shape series_mean self recs Hne H)
      as [r1 [r2 [r4 [-> [H1 [H2 H4]]]]]].
    rewrite !in_app_iff in Ht.
    destruct (10 <? List.length (errors self))%nat;
      destruct H1 as [-> | ->], H2 as [-> | ->], H4 as [-> | ->]; simpl in Ht;
      intuition (subst; auto).
Qed.

(** X19.  In a health report that is produced, the line that the system appears
    healthy is there exactly when no rule gives a recommendation; every
    recommendation that a rule gives has its line, and there is no other
    recommendation line. *)
Theorem healthy_line_iff (self : analyzer) (lines : list report_line) :
  generate_health_report series_mean self = Ok lines ->
  exists recs,
    recommendations series_mean self = Ok recs /\
    ((exists i, In (RecommendationLine i rec_healthy) lines) <-> recs = []) /\
    (forall t, In t recs -> exists i, In (RecommendationLine i t) lines) /\
    (forall i t, In (RecommendationLine i t) lines ->
                 In t recs \/ (recs = [] /\ i = 1%nat /\ t = rec_healthy)).
Proof.
  intros H.
  destruct (health_report_recommendations series_mean self lines H)
    as [recs [Hrecs Hiff]].
  exists recs. split; [exact Hrecs|].
  pose proof (recommendations_texts self recs Hrecs) as Htexts.
  destruct recs as [|r recs]; cbn [nonempty] in Hiff.
  - split; [|split].
    + split; [reflexivity|]. intros _. exists 1%nat. apply Hiff. now left.
    + intros t [].
    + intros i t Hin. right. apply Hiff in Hin.
      destruct Hin as [Hin | []]. injection Hin as <- <-. auto.
  - split; [|split].
    + split; [|discriminate]. intros [i Hi]. apply Hiff, numbered_In in Hi.
      destruct (Htexts _ Hi) as [E | [E | [E | E]]]; discriminate E.
    + intros t Ht. destruct (In_numbered (r :: recs) 1%nat t Ht) as [i Hi].
      exists i. now apply Hiff.
    + intros i t Hin. left. apply Hiff in Hin. eapply numbered_In; eauto.
Qed.

Lemma report_summary_ok (rows : list (PyDict.t value)) :
  numeric_rows rows = true ->
  exists s,
    report_summary rows = Ok s /\
    total_stats_entries s = List.length rows /\
    ((List.length rows <= 1)%nat ->
     total_runtime s = PyInt 0 /\ stats_frequency s = PyInt 0).
Proof.
  intros H. unfold report_summary.
  destruct (series_ok "timestamp" rows H) as [ts ->].
  destruct (Nat.ltb_spec 1 (List.length rows)) as [Hlt | Hle]; cbn [bind].
  - destruct (ltb (series_min ts) (series_max ts)); cbn [bind];
      eexists; (split; [reflexivity|]); (split; [reflexivity|]); intros; lia.
  - eexists. split; [reflexivity|]. split; [reflexivity|]. auto.
Qed.

Lemma metric_entry_ok (rows : list (PyDict.t value)) (report : PyDict.t metric_report)
      (metric : string) :
  numeric_rows rows = true ->
  exists report', metric_entry series_mean series_std rows report metric = Ok report'.
Proof.
  intros H. unfold metric_entry.
  destruct (in_columns metric rows); [|eauto].
  destruct (nonempty (dropna (column metric rows))); [|eauto].
  destruct (to_floats_ok _ (column_numeric metric rows H)) as [fs ->].
  cbn [bind]. eauto.
Qed.

Lemma temp_entry_ok (rows : list (PyDict.t value)) (report : PyDict.t temp_report)
      (temp_col : string) :
  numeric_rows rows = true ->
  exists report', temp_entry series_mean series_std rows report temp_col = Ok report'.
Proof.
  intros H. unfold temp_entry.
  destruct (nonempty (dropna (column temp_col rows))); [|eauto].
  destruct (to_floats_ok _ (column_numeric temp_col rows H)) as [fs ->].
  cbn [bind]. eauto.
Qed.

(** The columns of an MCU that hold a text are left out: this part never
    raises. *)
Lemma mcu_entry_ok (rows : list (PyDict.t value)) (mcu_data : PyDict.t mcu_report)
      (key : string) :
  exists mcu_data', mcu_entry series_mean rows mcu_data key = Ok mcu_data'.
Proof.
  unfold mcu_entry.
  destruct (nonempty (dropna (column key rows)) && is_numeric (dropna (column key rows)))%bool
    eqn:E; [|eauto].
  apply andb_true_iff in E. destruct E as [_ E].
  destruct (to_floats_ok _ E) as [fs ->]. cbn [bind]. eauto.
Qed.

Lemma mcu_prefix_entry_ok (rows : list (PyDict.t value))
      (report : PyDict.t (PyDict.t mcu_report)) (mcu_prefix : string) :
  exists report', mcu_prefix_entry series_mean rows report mcu_prefix = Ok report'.
Proof.
  unfold mcu_prefix_entry.
  match goal with |- context [nonempty ?l] => destruct (nonempty l); [|eauto] end.
  match goal with
  | |- context [foldM ?f ?l ?b] =>
      destruct (foldM_ok f l (fun b0 a0 _ => mcu_entry_ok rows b0 a0) b) as [m ->]
  end.
  cbn [bind]. eauto.
Qed.

(** X20.  When the snapshots hold numbers only, the performance report is
    produced.  It is the report without statistics exactly when there is no
    snapshot; otherwise its summary counts the snapshots, and with a single
    snapshot the runtime and the frequency are the integer 0. *)
Theorem performance_report_returns (self : analyzer) :
  numeric_rows (stats_data self) = true ->
  exists r,
    generate_performance_report series_mean series_std self = Ok r /\
    match r with
    | NoStatistics => stats_data self = []
    | Report s _ _ _ =>
        stats_data self <> [] /\
        total_stats_entries s = List.length (stats_data self) /\
        ((List.length (stats_data self) <= 1)%nat ->
         total_runtime s = PyInt 0 /\ stats_frequency s = PyInt 0)
    end.
Proof.
  intros H. unfold generate_performance_report.
  destruct (stats_data self) as [|d rows] eqn:E; cbn [nonempty].
  - exists NoStatistics. auto.
  - set (all := d :: rows) in *.
    destruct (report_summary_ok all H) as [s [-> [Hn Hz]]]. cbn [bind].
    destruct (foldM_ok (metric_entry series_mean series_std all) metric_names
                       (fun b a _ => metric_entry_ok all b a H) PyDict.empty) as [m ->].
    cbn [bind].
    destruct (foldM_ok (temp_entry series_mean series_std all) (temp_columns all)
                       (fun b a _ => temp_entry_ok all b a H) PyDict.empty) as [t ->].
    cbn [bind].
    destruct (foldM_ok (mcu_prefix_entry series_mean all) ["mcu"; "EBBCan"]
                       (fun b a _ => mcu_prefix_entry_ok all b a) PyDict.empty) as [c ->].
    cbn [bind].
    eexists. split; [reflexivity|]. split; [discriminate | auto].
Qed.

Lemma metric_entry_text (rows : list (PyDict.t value)) (report : PyDict.t metric_report)
      (metric : string) :
  text_under metric rows ->
  exists e, metric_entry series_mean series_std rows report metric = Raise e.
Proof.
  intros H. unfold metric_entry. rewrite (text_in_columns _ _ H).
  destruct (column_text metric rows H) as [s Hs].
  destruct (dropna (column metric rows)) as [|v vs] eqn:E; [contradiction|].
  cbn [nonempty]. destruct (to_floats_text _ s Hs) as [e ->]. cbn [bind]. eauto.
Qed.

Lemma performance_lines_text (rows : list (PyDict.t value)) (key : string) :
  key = "sysload" \/ key = "memavail" ->
  text_under key rows ->
  exists e, performance_lines series_mean rows = Raise e.
Proof.
  intros Hkey H. unfold performance_lines.
  assert (Hne : nonempty rows = true).
  { destruct H as [d [s [Hd _]]]. destruct rows; [contradiction | reflexivity]. }
  rewrite Hne.
  destruct (series "timestamp" rows) as [ts|e]; cbn [bind]; [|eauto].
  destruct (series_text key rows H) as [e He].
  pose proof (text_in_columns key rows H) as Hc.
  destruct Hkey as [-> | ->].
  - unfold load_lines. rewrite Hc, He. cbn [bind]. eauto.
  - destruct (load_lines series_mean rows) as [l1|e1]; cbn [bind]; [|eauto].
    unfold memory_lines. rewrite Hc, He. cbn [bind]. eauto.
Qed.

(** X21.  A text under [sysload] or under [memavail] in some snapshot, which
    the parsing keeps without raising, makes both reports raise. *)
Theorem text_metric_breaks_reports (self : analyzer) (key : string) :
  key = "sysload" \/ key = "memavail" ->
  text_under key (stats_data self) ->
  (exists e, generate_health_report series_mean self = Raise e) /\
  (exists e, generate_performance_report series_mean series_std self = Raise e).
Proof.
  intros Hkey H. split.
  - unfold generate_health_report.
    destruct (performance_lines_text _ key Hkey H) as [e ->]. cbn [bind]. eauto.
  - unfold generate_performance_report.
    assert (Hne : nonempty (stats_data self) = true).
    { destruct H as [d [s [Hd _]]].
      destruct (stats_data self); [contradiction | reflexivity]. }
    rewrite Hne.
    destruct (report_summary (stats_data self)) as [s|e]; cbn [bind]; [|eauto].
    assert (Hin : In key metric_names)
      by (destruct Hkey as [-> | ->]; simpl; tauto).
    destruct (foldM_raises (metric_entry series_mean series_std (stats_data self))
                           metric_names key Hin
                           (fun b => metric_entry_text _ b key H) PyDict.empty)
      as [e ->].
    cbn [bind]. eauto.
Qed.
End WholeReports.

(** ** The statistics lines that are recognised *)

(** X7.  A line made of [Stats ], digits, possibly a point and digits, [: ] and
    a content is recognised, with these digits as the timestamp and this
    content. *)
Theorem stats_line_recognised (d1 frac stats_content : string) :
  d1 <> "" -> all_chars is_digit d1 = true ->
  frac = "" \/ (exists d2, frac = "." ++ d2 /\ all_chars is_digit d2 = true) ->
  all_chars is_dot stats_content = true ->
  stats_pattern ("Stats " ++ d1 ++ frac ++ ": " ++ stats_content)
  = Some (d1 ++ frac, stats_content).
Proof.
  intros Hne H1 Hfrac Hc.
  assert (Hend : forall (k : string -> string -> option (string * string)) a,
             k stats_content "" = Some a ->
             star_greedy is_dot stats_content k = Some a).
  { intros k a Hk. rewrite <- (append_nil stats_content) at 1.
    now apply star_greedy_run. }
  unfold stats_pattern, then_lit. rewrite lit_app.
  destruct Hfrac as [-> | [d2 [-> H2]]].
  - apply plus_greedy_run; [exact Hne | exact H1 | reflexivity |].
    simpl. now apply Hend.
  - apply plus_greedy_run; [exact Hne | exact H1 | reflexivity |].
    change (("." ++ d2) ++ ": " ++ stats_content)
      with (String "." (d2 ++ ": " ++ stats_content)).
    cbn [opt_greedy]. rewrite Ascii.eqb_refl.
    rewrite (star_greedy_run is_digit d2 (": " ++ stats_content) _
               (d1 ++ "." ++ d2, stats_content) H2 eq_refl); [reflexivity|].
    rewrite lit_app. now apply Hend.
Qed.

(** ** The timestamp and the line number of a snapshot *)

Lemma endswith_app (suffix s : string) : endswith suffix (s ++ suffix) = true.
Proof.
  unfold endswith. now rewrite rev_string_append, lit_app.
Qed.

Lemma kv_fold_keeps (key : string) (kvs : list (string * string)) :
  ~ In key (map fst kvs) ->
  forall d, PyDict.get key (fold_left kv_store kvs d) = PyDict.get key d.
Proof.
  induction kvs as [|[k v] kvs IH]; intros Hnot d; simpl; [reflexivity|].
  rewrite IH; [|intros H; apply Hnot; now right].
  assert (Hne : key <> k) by (intros ->; apply Hnot; now left).
  unfold kv_store.
  destruct (String.eqb v "active" || String.eqb v "inactive")%bool;
    [|destruct (py_float v)]; now apply get_set_ne.
Qed.

Lemma sensor_loop_keeps (suffix key : string) (ms : list (string * string)) :
  endswith suffix key = false ->
  forall d d',
    sensor_loop suffix ms d = Ok d' -> PyDict.get key d' = PyDict.get key d.
Proof.
  intros Hend. induction ms as [|[s v] ms IH]; intros d d'; simpl.
  - intros H. now injection H as <-.
  - destruct (py_float v) as [f|]; cbn [bind]; [|discriminate].
    intros H. rewrite (IH _ _ H). apply get_set_ne.
    intros ->. now rewrite endswith_app in Hend.
Qed.

(** X9.  The snapshot of a statistics line holds the timestamp of the line under
    [timestamp] unless the content has a pair of that name, and the number
    of the line under [line_number] unless the content has a pair of that
    name: the pairs of the content are stored over them, the sensor scans
    never are. *)
Theorem snapshot_timestamp_kept (ts : float) (n : nat) (stats_content : string)
        (d : PyDict.t value) :
  stats_dict_of ts n stats_content = Ok d ->
  (~ In "timestamp" (map fst (findall_groups kv_pattern stats_content)) ->
   PyDict.get "timestamp" d = Some (VFloat ts)) /\
  (~ In "line_number" (map fst (findall_groups kv_pattern stats_content)) ->
   PyDict.get "line_number" d = Some (VInt (Z.of_nat n))).
Proof.
  unfold stats_dict_of.
  set (d0 := [("timestamp", VFloat ts); ("line_number", VInt (Z.of_nat n))]).
  set (d1 := fold_left kv_store (findall_groups kv_pattern stats_content) d0).
  destruct (sensor_loop "_temp" _ d1) as [d2|e] eqn:E2; cbn [bind]; [|discriminate].
  destruct (sensor_loop "_target" _ d2) as [d3|e] eqn:E3; cbn [bind]; [|discriminate].
  intros E4.
  assert (Hk : forall key, endswith "_temp" key = false ->
                           endswith "_target" key = false ->
                           endswith "_pwm" key = false ->
                           PyDict.get key d = PyDict.get key d1).
  { intros key H1 H2 H3.
    rewrite (sensor_loop_keeps "_pwm" key _ H3 _ _ E4).
    rewrite (sensor_loop_keeps "_target" key _ H2 _ _ E3).
    exact (sensor_loop_keeps "_temp" key _ H1 _ _ E2). }
  split; intros Hnot.
  - rewrite (Hk "timestamp" eq_refl eq_refl eq_refl). subst d1.
    now rewrite (kv_fold_keeps "timestamp" _ Hnot).
  - rewrite (Hk "line_number" eq_refl eq_refl eq_refl). subst d1.
    now rewrite (kv_fold_keeps "line_number" _ Hnot).
Qed.

(** ** The last line that loads an MCU *)

Lemma parse_mcu_info_identity (s s' : analyzer) (line : string) (n : nat)
      (X : string) (d : mcu_info) :
  _parse_mcu_info s line n = Ok s' ->
  PyDict.get X (mcu_configs s) = Some d ->
  (forall N V, mcu_load_pattern line <> Some (X, N, V)) ->
  exists d',
    PyDict.get X (mcu_configs s') = Some d' /\
    commands d' = commands d /\ version_info d' = version_info d /\
    mcu_line_number d' = mcu_line_number d.
Proof.
  unfold _parse_mcu_info. intros H Hd Hno.
  apply bind_ok in H. destruct H as [s1 [E1 E2]].
  assert (H1 : PyDict.get X (mcu_configs s1) = Some d).
  { unfold mcu_load in E1.
    destruct (mcu_load_pattern line) as [[[X' N] V]|] eqn:E.
    - destruct (py_int N) as [c|]; [|discriminate]. injection E1 as <-.
      cbn [mcu_configs]. rewrite get_set_ne; [exact Hd|].
      intros ->. exact (Hno N V eq_refl).
    - now injection E1 as <-. }
  assert (H2 : exists d2,
             PyDict.get X (mcu_configs (mcu_config s1 line)) = Some d2 /\
             commands d2 = commands d /\ version_info d2 = version_info d /\
             mcu_line_number d2 = mcu_line_number d).
  { unfold mcu_config. destruct (mcu_config_pattern line) as [[name c]|]; [|eauto].
    destruct (PyDict.get name (mcu_configs s1)) as [d0|] eqn:E0; [|eauto].
    cbn [with_mcu_configs mcu_configs].
    destruct (string_dec X name) as [-> | Hne].
    - rewrite get_set_eq. rewrite H1 in E0. injection E0 as <-. eauto.
    - rewrite (get_set_ne _ _ _ _ Hne). eauto. }
  destruct H2 as [d2 [Hd2 [Hc [Hv Hl]]]].
  unfold mcu_configured in E2.
  destruct (mcu_configured_pattern line) as [[name m]|];
    [|injection E2 as <-; eauto].
  destruct (PyDict.get name (mcu_configs (mcu_config s1 line)))
    as [d0|] eqn:E0; [|injection E2 as <-; eauto].
  destruct (py_int m) as [mv|]; [|discriminate]. injection E2 as <-.
  cbn [with_mcu_configs mcu_configs].
  destruct (string_dec X name) as [-> | Hne].
  - rewrite get_set_eq. rewrite Hd2 in E0. injection E0 as <-. eauto.
  - rewrite (get_set_ne _ _ _ _ Hne). eauto.
Qed.

Lemma parse_lines_identity (X : string) (lines : list string) :
  forall (s final : analyzer) (n : nat) (d : mcu_info),
    PyDict.get X (mcu_configs s) = Some d ->
    (forall r N V, In r lines -> mcu_load_pattern (strip r) <> Some (X, N, V)) ->
    parse_lines s n lines = Ok final ->
    exists d',
      PyDict.get X (mcu_configs final) = Some d' /\
      commands d' = commands d /\ version_info d' = version_info d /\
      mcu_line_number d' = mcu_line_number d.
Proof.
  induction lines as [|raw rest IH]; intros s final n d Hd Hno; simpl.
  - intros H. injection H as <-. eauto.
  - destruct (parse_line s (S n) raw) as [s1|e] eqn:E1; cbn [bind]; [|discriminate].
    intros H.
    destruct (parse_line_mcu _ _ _ _ E1) as [s0 [E0 Hm]].
    destruct (parse_mcu_info_identity s s0 (strip raw) (S n) X d E0 Hd)
      as [d1 [Hd1 [Hc [Hv Hl]]]].
    { intros N V. apply Hno. now left. }
    rewrite <- Hm in Hd1.
    destruct (IH s1 final (S n) d1 Hd1) as [d' [Hd' [Hc' [Hv' Hl']]]].
    { intros r N V Hr. apply Hno. now right. }
    { exact H. }
    exists d'. split; [exact Hd'|]. repeat split; congruence.
Qed.

(** X3.  When several lines load the same MCU, the last one gives the command
    count, the version information and the line number of its descriptor;
    the lines after it may only set its configuration and its moves. *)
Theorem last_load_wins (self final : analyzer) (n : nat) (l1 l2 : list string)
        (raw X N V : string) :
  mcu_load_pattern (strip raw) = Some (X, N, V) ->
  (forall r N' V', In r l2 -> mcu_load_pattern (strip r) <> Some (X, N', V')) ->
  parse_lines self n (l1 ++ raw :: l2) = Ok final ->
  exists d,
    PyDict.get X (mcu_configs final) = Some d /\
    py_int N = Some (commands d) /\ version_info d = V /\
    mcu_line_number d = (n + List.length l1 + 1)%nat.
Proof.
  intros Hpat Hno H.
  destruct (parse_lines_app _ _ _ _ _ H) as [s1 [_ H2]].
  simpl in H2.
  destruct (parse_line s1 (S (n + List.length l1)) raw) as [s2|e] eqn:E2;
    cbn [bind] in H2; [|discriminate].
  destruct (parse_line_mcu _ _ _ _ E2) as [s0 [E0 Hm]].
  rewrite (parse_mcu_info_load _ _ _ _ Hpat) in E0.
  unfold mcu_load in E0. rewrite Hpat in E0.
  destruct (py_int N) as [count|]; [|discriminate].
  injection E0 as <-. cbn [mcu_configs] in Hm.
  assert (Hd : PyDict.get X (mcu_configs s2)
               = Some {| commands := count; version_info := V;
                         mcu_line_number := S (n + List.length l1);
                         config := None; moves := None |})
    by (rewrite Hm; apply get_set_eq).
  destruct (parse_lines_identity X l2 s2 final _ _ Hd Hno H2) as [d [Hg [Hc [Hv Hl]]]].
  exists d. split; [exact Hg|]. cbn in Hc, Hv, Hl.
  repeat split; [now rewrite Hc | exact Hv | lia].
Qed.

(** ** The properties on the sample log *)

Lemma load_line_resets_witness :
  mcu_load_pattern "Loaded MCU 'mcu' 950 commands (v0.12.0)"
  = Some ("mcu", "950", "v0.12.0") /\
  option_map config (PyDict.get "mcu" (mcu_configs configured_state))
  = Some (Some "ADC_MAX=4095") /\
  exists self',
    _parse_mcu_info configured_state "Loaded MCU 'mcu' 950 commands (v0.12.0)" 8
    = Ok self' /\
    PyDict.get "mcu" (mcu_configs self')
    = Some {| commands := 950; version_info := "v0.12.0";
              mcu_line_number := 8; config := None; moves := None |}.
Proof.
  assert (H : mcu_load_pattern "Loaded MCU 'mcu' 950 commands (v0.12.0)"
              = Some ("mcu", "950", "v0.12.0")) by reflexivity.
  split; [exact H|]. split; [reflexivity|].
  pose proof (load_line_resets configured_state
                "Loaded MCU 'mcu' 950 commands (v0.12.0)" 8 "mcu" "950" "v0.12.0" H)
    as W.
  change (py_int "950") with (Some 950) in W. cbv iota in W.
  destruct W as [self' [W0 [W1 _]]].
  exists self'. split; [exact W0 | exact W1].
Defined.

Lemma stats_timestamp_converts_witness :
  stats_pattern "Stats 2.5: sysload=0.7 freq=5" = Some ("2.5", "sysload=0.7 freq=5") /\
  (exists ts, py_float "2.5" = Some ts) /\
  (exists rest,
      "Stats 2.5: sysload=0.7 freq=5" = "Stats " ++ "2.5" ++ ": " ++ "sysload=0.7 freq=5" ++ rest) /\
  all_chars is_dot "sysload=0.7 freq=5" = true.
Proof.
  assert (H : stats_pattern "Stats 2.5: sysload=0.7 freq=5"
              = Some ("2.5", "sysload=0.7 freq=5")) by reflexivity.
  split; [exact H|].
  exact (stats_timestamp_converts "Stats 2.5: sysload=0.7 freq=5" "2.5"
           "sysload=0.7 freq=5" H).
Defined.

Lemma stats_line_recognised_witness :
  "2" <> "" /\ all_chars is_digit "2" = true /\
  (".5" = "" \/ (exists d2, ".5" = "." ++ d2 /\ all_chars is_digit d2 = true)) /\
  all_chars is_dot "sysload=0.7 freq=5" = true /\
  stats_pattern ("Stats " ++ "2" ++ ".5" ++ ": " ++ "sysload=0.7 freq=5")
  = Some ("2" ++ ".5", "sysload=0.7 freq=5").
Proof.
  assert (H1 : "2" <> "") by discriminate.
  assert (H2 : all_chars is_digit "2" = true) by reflexivity.
  assert (H3 : ".5" = "" \/ (exists d2, ".5" = "." ++ d2 /\ all_chars is_digit d2 = true))
    by (right; exists "5"; split; reflexivity).
  assert (H4 : all_chars is_dot "sysload=0.7 freq=5" = true) by reflexivity.
  repeat (split; [assumption|]).
  exact (stats_line_recognised "2" ".5" "sysload=0.7 freq=5" H1 H2 H3 H4).
Defined.

Lemma errors_appended_in_order_witness :
  parse_lines init 0 sample_log = Ok sample_state /\
  exists new,
    errors sample_state = (errors init ++ new)%list /\
    (List.length new <= List.length sample_log)%nat /\
    StronglySorted lt (map err_line_number new) /\
    Forall (fun e => exists raw, line_at 0 sample_log (err_line_number e) raw /\
                                 err_message e = strip raw) new.
Proof.
  assert (H : parse_lines init 0 sample_log = Ok sample_state)
    by (vm_compute; reflexivity).
  split; [exact H|].
  exact (errors_appended_in_order init sample_state 0 sample_log H).
Defined.

Lemma error_entries_typed_witness :
  parse_log sample_log = Ok sample_state /\
  Forall (fun e => In (err_type e) keywords /\
                   occurs_ci (err_type e) (err_message e)) (errors sample_state).
Proof.
  assert (H : parse_log sample_log = Ok sample_state) by (vm_compute; reflexivity).
  split; [exact H|].
  exact (error_entries_typed sample_log sample_state H).
Defined.

Lemma snapshots_appended_witness :
  parse_lines init 0 sample_log = Ok sample_state /\
  exists new,
    stats_data sample_state = (stats_data init ++ new)%list /\
    (List.length new <= List.length sample_log)%nat /\
    Forall snapshot_keys new.
Proof.
  assert (H : parse_lines init 0 sample_log = Ok sample_state)
    by (vm_compute; reflexivity).
  split; [exact H|].
  exact (snapshots_appended init sample_state 0 sample_log H).
Defined.

Lemma extraction_covers_snapshots_witness :
  parse_log sample_log = Ok sample_state /\
  List.length (stats_data sample_state) = 2%nat /\
  snd (extract_stats_to_file "klippy.log" "2026-01-01 00:00:00" sample_log) = 3%nat /\
  (List.length (stats_data sample_state)
   <= snd (extract_stats_to_file "klippy.log" "2026-01-01 00:00:00" sample_log)
   <= List.length sample_log)%nat /\
  List.length (fst (extract_stats_to_file "klippy.log" "2026-01-01 00:00:00" sample_log))
  = (4 + snd (extract_stats_to_file "klippy.log" "2026-01-01 00:00:00" sample_log))%nat.
Proof.
  assert (H : parse_log sample_log = Ok sample_state) by (vm_compute; reflexivity).
  split; [exact H|]. split; [reflexivity|]. split; [reflexivity|].
  exact (extraction_covers_snapshots "klippy.log" "2026-01-01 00:00:00"
           sample_log sample_state H).
Defined.

Lemma mcu_names_iff_witness :
  parse_lines init 0 sample_log = Ok sample_state /\
  (PyDict.get "mcu" (mcu_configs sample_state) <> None <->
   PyDict.get "mcu" (mcu_configs init) <> None \/
   exists raw N V,
     In raw sample_log /\ mcu_load_pattern (strip raw) = Some ("mcu", N, V)).
Proof.
  assert (H : parse_lines init 0 sample_log = Ok sample_state)
    by (vm_compute; reflexivity).
  split; [exact H|].
  exact (mcu_names_iff sample_log init sample_state 0 "mcu" H).
Defined.

Lemma recorded_section_origin_witness :
  parse_lines init 0 sample_log = Ok sample_state /\
  PyDict.get "extruder" (config_sections sample_state)
  = Some {| sec_line_number := 4; sec_content := [] |} /\
  (PyDict.get "extruder" (config_sections init)
   = Some {| sec_line_number := 4; sec_content := [] |} \/
   (sec_content {| sec_line_number := 4; sec_content := [] |} = [] /\
    exists raw,
      line_at 0 sample_log
              (sec_line_number {| sec_line_number := 4; sec_content := [] |}) raw /\
      config_section_pattern (strip raw) = Some "extruder")).
Proof.
  assert (H : parse_lines init 0 sample_log = Ok sample_state)
    by (vm_compute; reflexivity).
  assert (H2 : PyDict.get "extruder" (config_sections sample_state)
               = Some {| sec_line_number := 4; sec_content := [] |}) by reflexivity.
  split; [exact H|]. split; [exact H2|].
  exact (recorded_section_origin sample_log init sample_state 0 "extruder" _ H H2).
Defined.

Lemma tracked_metrics_mirror_witness :
  parse_log sample_log = Ok sample_state /\
  In "sysload" metric_names /\
  tracked "sysload" sample_state = col_values "sysload" (stats_data sample_state).
Proof.
  assert (H : parse_log sample_log = Ok sample_state) by (vm_compute; reflexivity).
  assert (H2 : In "sysload" metric_names) by (simpl; tauto).
  split; [exact H|]. split; [exact H2|].
  exact (tracked_metrics_mirror sample_log sample_state "sysload" H H2).
Defined.

Lemma healthy_line_iff_witness :
  generate_health_report fold_mean busy_state = Ok busy_report /\
  exists recs,
    recommendations fold_mean busy_state = Ok recs /\
    ((exists i, In (RecommendationLine i rec_healthy) busy_report) <-> recs = []) /\
    (forall t, In t recs -> exists i, In (RecommendationLine i t) busy_report) /\
    (forall i t, In (RecommendationLine i t) busy_report ->
                 In t recs \/ (recs = [] /\ i = 1%nat /\ t = rec_healthy)).
Proof.
  assert (H : generate_health_report fold_mean busy_state = Ok busy_report)
    by (vm_compute; reflexivity).
  split; [exact H|].
  exact (healthy_line_iff fold_mean busy_state busy_report H).
Defined.

Lemma performance_report_returns_witness :
  numeric_rows (stats_data sample_state) = true /\
  exists r,
    generate_performance_report fold_mean fold_std sample_state = Ok r /\
    match r with
    | NoStatistics => stats_data sample_state = []
    | Report s _ _ _ =>
        stats_data sample_state <> [] /\
        total_stats_entries s = List.length (stats_data sample_state) /\
        ((List.length (stats_data sample_state) <= 1)%nat ->
         total_runtime s = PyInt 0 /\ stats_frequency s = PyInt 0)
    end.
Proof.
  assert (H : numeric_rows (stats_data sample_state) = true) by reflexivity.
  split; [exact H|].
  exact (performance_report_returns fold_mean fold_std sample_state H).
Defined.

Lemma text_metric_breaks_reports_witness :
  parse_log ["Stats 1.0: sysload=unknown"] = Ok text_state /\
  ("sysload" = "sysload" \/ "sysload" = "memavail") /\
  text_under "sysload" (stats_data text_state) /\
  (exists e, generate_health_report fold_mean text_state = Raise e) /\
  (exists e, generate_performance_report fold_mean fold_std text_state = Raise e).
Proof.
  assert (H1 : "sysload" = "sysload" \/ "sysload" = "memavail") by (left; reflexivity).
  assert (H2 : text_under "sysload" (stats_data text_state)).
  { eexists. exists "unknown". split; [left; reflexivity | reflexivity]. }
  split; [vm_compute; reflexivity|]. split; [exact H1|]. split; [exact H2|].
  exact (text_metric_breaks_reports fold_mean fold_std text_state "sysload" H1 H2).
Defined.

Lemma snapshot_timestamp_kept_witness :
  stats_dict_of 1%float 3 "rx_error=0 tx_error=0" = Ok rx_snapshot /\
  ~ In "timestamp" (map fst (findall_groups kv_pattern "rx_error=0 tx_error=0")) /\
  ~ In "line_number" (map fst (findall_groups kv_pattern "rx_error=0 tx_error=0")) /\
  PyDict.get "timestamp" rx_snapshot = Some (VFloat 1%float) /\
  PyDict.get "line_number" rx_snapshot = Some (VInt (Z.of_nat 3)).
Proof.
  assert (H : stats_dict_of 1%float 3 "rx_error=0 tx_error=0" = Ok rx_snapshot)
    by reflexivity.
  assert (H1 : ~ In "timestamp"
                 (map fst (findall_groups kv_pattern "rx_error=0 tx_error=0")))
    by (vm_compute; intuition discriminate).
  assert (H2 : ~ In "line_number"
                 (map fst (findall_groups kv_pattern "rx_error=0 tx_error=0")))
    by (vm_compute; intuition discriminate).
  split; [exact H|]. split; [exact H1|]. split; [exact H2|].
  pose proof (snapshot_timestamp_kept 1%float 3 "rx_error=0 tx_error=0" rx_snapshot H)
    as [W1 W2].
  split; [exact (W1 H1) | exact (W2 H2)].
Defined.

Lemma last_load_wins_witness :
  mcu_load_pattern (strip "Loaded MCU 'mcu' 950 commands (v0.12.0)")
  = Some ("mcu", "950", "v0.12.0") /\
  (forall r N' V',
      In r (skipn 8 sample_log) ->
      mcu_load_pattern (strip r) <> Some ("mcu", N', V')) /\
  parse_lines init 0
    (firstn 7 sample_log ++ "Loaded MCU 'mcu' 950 commands (v0.12.0)" :: skipn 8 sample_log)
  = Ok sample_state /\
  exists d,
    PyDict.get "mcu" (mcu_configs sample_state) = Some d /\
    py_int "950" = Some (commands d) /\ version_info d = "v0.12.0" /\
    mcu_line_number d = (0 + List.length (firstn 7 sample_log) + 1)%nat.
Proof.
  assert (H1 : mcu_load_pattern (strip "Loaded MCU 'mcu' 950 commands (v0.12.0)")
               = Some ("mcu", "950", "v0.12.0")) by reflexivity.
  assert (H2 : forall r N' V',
             In r (skipn 8 sample_log) ->
             mcu_load_pattern (strip r) <> Some ("mcu", N', V')).
  { intros r N' V' [<- | [<- | []]]; discriminate. }
  assert (H3 : parse_lines init 0
                 (firstn 7 sample_log ++
                  "Loaded MCU 'mcu' 950 commands (v0.12.0)" :: skipn 8 sample_log)
               = Ok sample_state) by (vm_compute; reflexivity).
  split; [exact H1|]. split; [exact H2|]. split; [exact H3|].
  exact (last_load_wins init sample_state 0 (firstn 7 sample_log) (skipn 8 sample_log)
           "Loaded MCU 'mcu' 950 commands (v0.12.0)" "mcu" "950" "v0.12.0" H1 H2 H3).
Defined.

(** ** Lines without a keyword *)

(** X16.  A line that holds none of the four keywords, in any case, adds no entry
    to the errors and leaves the analyzer as it is. *)
Theorem no_keyword_no_entry (self : analyzer) (line : string) (n : nat) :
  (forall kw, In kw keywords -> ~ occurs_ci kw line) ->
  _parse_errors_warnings self line n = self.
Proof.
  intros H. unfold _parse_errors_warnings.
  destruct (first_pattern error_patterns line) as [p|] eqn:E; [|reflexivity].
  destruct (first_pattern_sound _ _ E) as [Hin Hocc].
  exfalso. exact (H _ Hin Hocc).
Qed.

Lemma no_keyword_no_entry_witness :
  (forall kw, In kw keywords -> ~ occurs_ci kw "Stats 1.0: sysload=0.5") /\
  _parse_errors_warnings sample_state "Stats 1.0: sysload=0.5" 11 = sample_state.
Proof.
  assert (H : forall kw, In kw keywords -> ~ occurs_ci kw "Stats 1.0: sysload=0.5").
  { intros kw Hin Hocc. apply re_search_ci_spec in Hocc.
    simpl in Hin. destruct Hin as [<- | [<- | [<- | [<- | []]]]]; discriminate Hocc. }
  split; [exact H|].
  exact (no_keyword_no_entry sample_state "Stats 1.0: sysload=0.5" 11 H).
Defined.

(** ** The two reports on the runtime *)

Section Runtime.
Variable series_mean : list float -> float.

(** X22.  With two snapshots or more and timestamps that are not all equal, the
    performance report and the performance summary of the health report
    give the same runtime and the same frequency: the difference of the
    largest and the smallest timestamp, and the number of snapshots over
    it. *)
Theorem reports_agree_on_runtime (rows : list (PyDict.t value)) (ts : list float)
        (lines : list report_line) :
  series "timestamp" rows = Ok ts ->
  (1 < List.length rows)%nat ->
  ltb (series_min ts) (series_max ts) = true ->
  performance_lines series_mean rows = Ok lines ->
  let runtime := sub (series_max ts) (series_min ts) in
  let frequency := div (float_of_Z (Z.of_nat (List.length rows))) runtime in
  report_summary rows
  = Ok {| total_runtime := PyFloat runtime;
          total_stats_entries := List.length rows;
          stats_frequency := PyFloat frequency |} /\
  exists rest,
    lines = PerformanceHeading :: RuntimeLine runtime :: FrequencyLine frequency :: rest.
Proof.
  intros Hts Hlen Hlt Hl. cbv zeta. split.
  - unfold report_summary. rewrite Hts.
    apply Nat.ltb_lt in Hlen. rewrite Hlen. cbn [bind]. rewrite Hlt. reflexivity.
  - unfold performance_lines in Hl. rewrite Hts in Hl.
    destruct rows as [|d rows]; [simpl in Hlen; lia|]. cbn [nonempty bind] in Hl.
    destruct (load_lines series_mean (d :: rows)) as [l1|e]; cbn [bind] in Hl;
      [|discriminate].
    destruct (memory_lines series_mean (d :: rows)) as [l2|e]; cbn [bind] in Hl;
      [|discriminate].
    injection Hl as <-. exists (l1 ++ l2)%list. reflexivity.
Qed.
End Runtime.

Lemma reports_agree_on_runtime_witness :
  series "timestamp" (stats_data sample_state) = Ok [1%float; 2.5%float] /\
  (1 < List.length (stats_data sample_state))%nat /\
  ltb (series_min [1%float; 2.5%float]) (series_max [1%float; 2.5%float]) = true /\
  performance_lines fold_mean (stats_data sample_state)
  = Ok [PerformanceHeading; RuntimeLine 1.5%float;
        FrequencyLine (div 2%float 1.5%float);
        SystemLoadLine (fold_mean [0.5%float; f_0_7]) f_0_7;
        MemoryLine (div 500000%float 1024%float) (div 500000%float 1024%float)] /\
  report_summary (stats_data sample_state)
  = Ok {| total_runtime := PyFloat 1.5%float;
          total_stats_entries := 2;
          stats_frequency := PyFloat (div 2%float 1.5%float) |}.
Proof.
  assert (H1 : series "timestamp" (stats_data sample_state) = Ok [1%float; 2.5%float])
    by (vm_compute; reflexivity).
  assert (H2 : (1 < List.length (stats_data sample_state))%nat) by (vm_compute; lia).
  assert (H3 : ltb (series_min [1%float; 2.5%float]) (series_max [1%float; 2.5%float])
               = true) by reflexivity.
  assert (H4 : performance_lines fold_mean (stats_data sample_state)
               = Ok [PerformanceHeading; RuntimeLine 1.5%float;
                     FrequencyLine (div 2%float 1.5%float);
                     SystemLoadLine (fold_mean [0.5%float; f_0_7]) f_0_7;
                     MemoryLine (div 500000%float 1024%float)
                                (div 500000%float 1024%float)])
    by (vm_compute; reflexivity).
  split; [exact H1|]. split; [exact H2|]. split; [exact H3|]. split; [exact H4|].
  exact (proj1 (reports_agree_on_runtime fold_mean (stats_data sample_state)
                  [1%float; 2.5%float] _ H1 H2 H3 H4)).
Defined.
